(** * Entropy pipeline, validation suite and metrics aggregator

  A shallow embedding of
  - [src/backend/src/generators/fpga_simulator.py]  (module [FPGASimulator]),
  - [src/backend/src/generators/quantum_rng.py]     (module [QuantumRandomGenerator]),
  - [src/backend/src/utils/performance_monitor.py]  (module [PerformanceMonitor]),
  followed by the properties of the specification that concern them.

  Conventions.  A Python [bytes] value is a [list byte]; a bit is a [bool]
  ([false] is 0, [true] is 1); a Python [int] is a [Z]; a [float] is a
  binary64 [PrimFloat.float] where rounding, NaN and signed zero matter
  (validation suite) and a rational [Q] where only the arithmetic identity
  matters (metrics aggregator).  Code that can raise lives in the exception
  monad of module [Py]; mutable objects are explicit state records. *)

From Stdlib Require Import ZArith QArith Floats List Lia.
From Stdlib Require Import Strings.Byte.
From stdpp Require Import gmap strings list fin_maps.
From Equations Require Import Equations.
From Equations.Prop Require Import Logic.
From Stdlib Require Import Lqa.

Local Open Scope nat_scope.

(* ===================================================================== *)
(** * Python runtime: exceptions and slices *)
(* ===================================================================== *)

Module Py.

Inductive exn : Type :=
| ValueError
| OverflowError
| ZeroDivisionError.

(** [sys.maxsize] of a 64-bit interpreter: the largest length a byte string
    can be asked to have. *)
Definition sys_maxsize : Z := 2 ^ 63 - 1.

(** Outcome of a computation that may raise. *)
Inductive exc (A : Type) : Type :=
| Ok (a : A)
| Raised (e : exn).
Arguments Ok {A} a.
Arguments Raised {A} e.

(** Sequencing: the first exception raised aborts what follows.  With
    these instances stdpp's [x ← c; k] notation is the sequencing. *)
#[export] Instance exc_ret : MRet exc := fun A a => Ok a.
#[export] Instance exc_bind : MBind exc := fun A B k c =>
  match c with
  | Ok a => k a
  | Raised e => Raised e
  end.

(** [try: body  except Exception as e: handler e] *)
Definition try_except {A} (body : exc A) (handler : exn -> exc A) : exc A :=
  match body with
  | Ok a => Ok a
  | Raised e => handler e
  end.

(** Normalised stop index of the slice [l[:stop]]: a negative [stop]
    counts from the end, and the result is clipped to [0, len l]. *)
Definition slice_stop {A} (l : list A) (stop : Z) : nat :=
  if (stop <? 0)%Z
  then Z.to_nat (Z.max 0 (Z.of_nat (length l) + stop))
  else Z.to_nat (Z.min stop (Z.of_nat (length l))).

(** [l[:stop]] *)
Definition slice_to {A} (l : list A) (stop : Z) : list A :=
  take (slice_stop l stop) l.

(** [del l[:stop]] *)
Definition del_slice_to {A} (l : list A) (stop : Z) : list A :=
  drop (slice_stop l stop) l.

End Py.

(* ===================================================================== *)
(** * numpy: bit packing *)
(* ===================================================================== *)

Module Numpy.

(** [np.frombuffer(data, dtype=np.uint8)]: the bytes, viewed as an array. *)
Definition frombuffer (data : list byte) : list byte := data.

(** The eight bits of one byte, most significant first (numpy's default
    [bitorder='big']).  [Byte.to_bits] lists them least significant first. *)
Definition unpack_byte (b : byte) : list bool :=
  let '(b0, (b1, (b2, (b3, (b4, (b5, (b6, b7))))))) := Byte.to_bits b in
  [b7; b6; b5; b4; b3; b2; b1; b0].

(** [np.unpackbits(a)] *)
Definition unpackbits (a : list byte) : list bool :=
  concat (map unpack_byte a).

(** One output byte of [np.packbits]: up to eight bits, most significant
    first, missing low bits read as zero. *)
Definition pack_byte (group : list bool) : byte :=
  let b k := default false (group !! k) in
  Byte.of_bits (b 7, (b 6, (b 5, (b 4, (b 3, (b 2, (b 1, b 0))))))).

Fixpoint pack_groups (n : nat) (bits : list bool) : list byte :=
  match n with
  | O => []
  | S n' => pack_byte (take 8 bits) :: pack_groups n' (drop 8 bits)
  end.

(** [np.packbits(bits)]: [ceil(len/8)] bytes, the last one zero padded. *)
Definition packbits (bits : list bool) : list byte :=
  pack_groups ((length bits + 7) / 8) bits.

(** [a.tobytes()] *)
Definition tobytes (a : list byte) : list byte := a.

End Numpy.

(* ===================================================================== *)
(** * fpga_simulator.py *)
(* ===================================================================== *)

Module FPGASimulator.

Import Py.

(** ** Debiaser *)

(** The scan loop of [_apply_debiasing]:
<<
    i = 0
    while i < len(bits) - 1:
        pair = (bits[i], bits[i + 1])
        if pair == (0, 1):   debiased_bits.append(0)
        elif pair == (1, 0): debiased_bits.append(1)
        i += 2
>>
    The loop ends because [len(bits) - i] decreases. *)
Equations? von_neumann_loop (bits : list bool) (i : nat)
    (debiased_bits : list bool) : list bool
    by wf (length bits - i) lt :=
  von_neumann_loop bits i debiased_bits
    with inspect (Z.of_nat i <? Z.of_nat (length bits) - 1)%Z := {
    | exist _ true Hlt =>
        von_neumann_loop bits (i + 2)
          (match default false (bits !! i), default false (bits !! (i + 1)) with
           | false, true => debiased_bits ++ [false]
           | true, false => debiased_bits ++ [true]
           | _, _ => debiased_bits
           end);
    | exist _ false _ => debiased_bits }.
Proof. apply Z.ltb_lt in Hlt. lia. Qed.

(** Appending one bit to a list whose length is not a multiple of 8
    brings it closer to the next byte boundary. *)
Lemma pad_measure_decreases (n : nat) :
  n mod 8 ≠ 0 → (8 - (n + 1) mod 8) mod 8 < (8 - n mod 8) mod 8.
Proof.
  intros Hne.
  pose proof (Nat.mod_upper_bound n 8 ltac:(lia)) as Hr.
  rewrite (Nat.Div0.add_mod n 1 8).
  remember (n mod 8) as r.
  assert (Hcases : r = 1 \/ r = 2 \/ r = 3 \/ r = 4 \/ r = 5 \/ r = 6 \/ r = 7) by lia.
  clear -Hcases.
  destruct Hcases as [->|[->|[->|[->|[->|[->| ->]]]]]]; cbn; lia.
Qed.

(** The padding loop:
<<
    while len(debiased_bits) % 8 != 0:
        debiased_bits.append(0)
>>
*)
Equations? pad_loop (debiased_bits : list bool) : list bool
    by wf ((8 - length debiased_bits mod 8) mod 8) lt :=
  pad_loop debiased_bits
    with inspect (length debiased_bits mod 8 =? 0) := {
    | exist _ false Hne => pad_loop (debiased_bits ++ [false]);
    | exist _ true _ => debiased_bits }.
Proof.
  apply Nat.eqb_neq in Hne. rewrite length_app.
  exact (pad_measure_decreases (length debiased_bits) Hne).
Qed.

(** Body of the [try] block of [_apply_debiasing]. *)
Definition _apply_debiasing_body (data : list byte) : exc (list byte) :=
  let bits := Numpy.unpackbits (Numpy.frombuffer data) in
  let debiased_bits := von_neumann_loop bits 0 [] in
  let debiased_bits := pad_loop debiased_bits in
  match debiased_bits with
  | _ :: _ => Ok (Numpy.tobytes (Numpy.packbits debiased_bits))
  | [] => Ok (take (length data / 2) data)
  end.

(** The [except] clause of [_apply_debiasing]: [return data]. *)
Definition _apply_debiasing_handler (data : list byte) (e : exn) : exc (list byte) :=
  Ok data.

(** [_apply_debiasing(data)].  Neither the body nor the handler raises,
    so the result is a plain byte string. *)
Definition _apply_debiasing (data : list byte) : list byte :=
  match try_except (_apply_debiasing_body data) (_apply_debiasing_handler data) with
  | Ok r => r
  | Raised _ => data
  end.

(** ** NoiseSource *)

(** What the random sources yield during one call.  [secrets.token_bytes]
    and the numpy samplers are stochastic, so their outcome is an input of
    the model; every result below holds for all of them. *)
Record draws : Type := {
  (** byte [i] of [secrets.token_bytes(size)] in the [try] block *)
  base_random : nat -> byte;
  (** [np.random.normal] or [np.random.poisson] raised (they reject, for
      instance, a negative [thermal_noise_level] or [shot_noise_factor]) *)
  sampling_raises : bool;
  (** element [i] after thermal, shot and interference terms were added to
      the base byte and the sum went through [np.clip(.., 0, 255)] and
      [astype(np.uint8)] *)
  quantum_byte : nat -> byte -> byte;
  (** byte [i] of [secrets.token_bytes(size)] in the [except] clause of
      [_generate_quantum_noise] *)
  noise_fallback : nat -> byte;
  (** byte [i] of [secrets.token_bytes(size)] in the [except] clause of
      [generate_random_bytes] *)
  generate_fallback : nat -> byte
}.

(** [secrets.token_bytes(size)]: [size] bytes; [ValueError] when [size] is
    negative, [OverflowError] when it does not fit a length. *)
Definition token_bytes (stream : nat -> byte) (size : Z) : exc (list byte) :=
  if (size <? 0)%Z then Raised ValueError
  else if (sys_maxsize <? size)%Z then Raised OverflowError
  else Ok (map stream (seq 0 (Z.to_nat size))).

(** Lines 79 to 96 of [_generate_quantum_noise]: the perturbed, clipped
    array has one element per base byte. *)
Definition perturb (d : draws) (base : list byte) : exc (list byte) :=
  if sampling_raises d then Raised ValueError
  else Ok (imap (quantum_byte d) (Numpy.frombuffer base)).

(** [_generate_quantum_noise(size)] *)
Definition _generate_quantum_noise (d : draws) (size : Z) : exc (list byte) :=
  try_except
    (base ← token_bytes (base_random d) size;
     quantum_data ← perturb d base;
     mret (_apply_debiasing (Numpy.tobytes quantum_data)))
    (fun _ => token_bytes (noise_fallback d) size).

(** ** EntropyBuffer *)

(** The attributes of an [FPGASimulator] object that the buffer and the
    generate operation read or write.  The wall-clock entries of [stats]
    (start time, uptime, average throughput) are left out. *)
Record state : Type := {
  target_throughput_mbps : Q;
  is_running : bool;
  buffer_size : Z;
  random_buffer : list byte;
  total_bytes_generated : Z;
  generation_requests : Z
}.

Definition set_random_buffer (buf : list byte) (st : state) : state :=
  {| target_throughput_mbps := target_throughput_mbps st;
     is_running := is_running st;
     buffer_size := buffer_size st;
     random_buffer := buf;
     total_bytes_generated := total_bytes_generated st;
     generation_requests := generation_requests st |}.

(** [__init__(target_throughput_mbps)], the buffer thread being started. *)
Definition __init__ (target : Q) : state :=
  {| target_throughput_mbps := target;
     is_running := true;
     buffer_size := 1024 * 1024;
     random_buffer := [];
     total_bytes_generated := 0;
     generation_requests := 0 |}.

(** One iteration of the [while self.is_running] loop of [buffer_worker],
    under the lock; an exception is logged and the buffer left as it is. *)
Definition buffer_worker_iteration (d : draws) (st : state) : state :=
  if (Z.of_nat (length (random_buffer st)) <? buffer_size st)%Z then
    match _generate_quantum_noise d 1024 with
    | Ok new_data => set_random_buffer (random_buffer st ++ new_data) st
    | Raised _ => st
    end
  else st.

(** Lines 163 to 165: the request counters. *)
Definition update_statistics (size : Z) (st : state) : state :=
  {| target_throughput_mbps := target_throughput_mbps st;
     is_running := is_running st;
     buffer_size := buffer_size st;
     random_buffer := random_buffer st;
     total_bytes_generated := (total_bytes_generated st + size)%Z;
     generation_requests := (generation_requests st + 1)%Z |}.

(** [expected_time = (size * 8) / (self.target_throughput_mbps * 1_000_000)];
    a float division by zero raises. *)
Definition expected_time (size : Z) (st : state) : exc Q :=
  let divisor := (target_throughput_mbps st * 1000000)%Q in
  if Qeq_bool divisor 0 then Raised ZeroDivisionError
  else Ok (inject_Z (size * 8) / divisor)%Q.

(** [generate_random_bytes(size)]: the value returned (or the exception
    that escapes) and the object afterwards.  Mutations made before an
    exception stay.  Of the statistics and pacing block only the division
    of [expected_time] is taken here: this is the call for sizes and waits
    within the limits of floats and of [time.sleep].
    [FPGAPacing.generate_random_bytes] takes the block in full, and
    [generate_random_bytes_within_limits] relates the two. *)
Definition generate_random_bytes (d : draws) (size : Z) (st : state)
    : exc (list byte) * state :=
  let locked :=
    if (size <=? Z.of_nat (length (random_buffer st)))%Z
    then (Ok (slice_to (random_buffer st) size),
          set_random_buffer (del_slice_to (random_buffer st) size) st)
    else (_generate_quantum_noise d size, st) in
  match locked with
  | (Ok result, st1) =>
      let st2 := update_statistics size st1 in
      match expected_time size st2 with
      | Ok _ => (Ok result, st2)
      | Raised _ => (token_bytes (generate_fallback d) size, st2)
      end
  | (Raised _, st1) => (token_bytes (generate_fallback d) size, st1)
  end.

(** [set_target_throughput(mbps)] *)
Definition set_target_throughput (mbps : Q) (st : state) : state :=
  {| target_throughput_mbps := mbps;
     is_running := is_running st;
     buffer_size := buffer_size st;
     random_buffer := random_buffer st;
     total_bytes_generated := total_bytes_generated st;
     generation_requests := generation_requests st |}.

(** [reset_stats()] *)
Definition reset_stats (st : state) : state :=
  {| target_throughput_mbps := target_throughput_mbps st;
     is_running := is_running st;
     buffer_size := buffer_size st;
     random_buffer := random_buffer st;
     total_bytes_generated := 0;
     generation_requests := 0 |}.

(** [stop()] *)
Definition stop (st : state) : state :=
  {| target_throughput_mbps := target_throughput_mbps st;
     is_running := false;
     buffer_size := buffer_size st;
     random_buffer := random_buffer st;
     total_bytes_generated := total_bytes_generated st;
     generation_requests := generation_requests st |}.

(** The buffer lock serialises the producer and the consumers, so a run of
    the object is a sequence of these atomic steps.  The worker's test of
    [is_running] and its locked body are one step here;
    [FPGAPacing.thread_step] takes them apart. *)
Inductive step : state -> state -> Prop :=
| step_buffer_worker d st :
    is_running st = true -> step st (buffer_worker_iteration d st)
| step_generate d size st :
    step st (generate_random_bytes d size st).2
| step_set_target_throughput mbps st :
    step st (set_target_throughput mbps st)
| step_reset_stats st :
    step st (reset_stats st)
| step_stop st :
    step st (stop st).

(** States of a simulator constructed with [FPGASimulator(target)]. *)
Definition reachable (target : Q) (st : state) : Prop :=
  rtc step (__init__ target) st.

(** The array that reaches the debiaser when nothing raises. *)
Definition quantum_data (d : draws) (size : Z) : list byte :=
  imap (quantum_byte d) (map (base_random d) (seq 0 (Z.to_nat size))).

End FPGASimulator.

(* ===================================================================== *)
(** * quantum_rng.py *)
(* ===================================================================== *)

Module QuantumRandomGenerator.

Import Py.
Local Open Scope string_scope.
Local Open Scope nat_scope.

(** ** Python values that occur in the reports *)

#[local] Set Warnings "-register-all".
Inductive pyval : Type :=
| PyNone
| PyBool (b : bool)
| PyInt (z : Z)
| PyFloat (f : float)
| PyStr (s : string)
| PyDict (items : list (string * pyval)).
#[local] Set Warnings "register-all".

(** [isinstance(v, dict)] *)
Definition isinstance_dict (v : pyval) : bool :=
  match v with
  | PyDict _ => true
  | _ => false
  end.

(** [d.get(key, default)] on the items of a dict. *)
Fixpoint dict_get (items : list (string * pyval)) (key : string) (dflt : pyval) : pyval :=
  match items with
  | [] => dflt
  | (k, v) :: rest => if String.eqb k key then v else dict_get rest key dflt
  end.

(** [d[key] = v]: replaces the value of a present key in place, appends a
    new key at the end (dicts keep insertion order). *)
Fixpoint dict_setitem (items : list (string * pyval)) (key : string) (v : pyval)
    : list (string * pyval) :=
  match items with
  | [] => [(key, v)]
  | (k, w) :: rest =>
      if String.eqb k key then (k, v) :: rest
      else (k, w) :: dict_setitem rest key v
  end.

(** [d.values()] *)
Definition dict_values (items : list (string * pyval)) : list pyval :=
  map snd items.

(** Truth value of an object. *)
Definition truthy (v : pyval) : bool :=
  match v with
  | PyNone => false
  | PyBool b => b
  | PyInt z => negb (z =? 0)%Z
  | PyFloat f => negb (PrimFloat.eqb f 0)
  | PyStr s => match s with EmptyString => false | String _ _ => true end
  | PyDict items => match items with [] => false | _ => true end
  end.

(** Conversion of a count to binary64, exact below [2^53]; the counts
    converted here are numbers of sub-tests, of bytes or of bits. *)
Definition float_of_int (z : Z) : float :=
  PrimFloat.of_uint63 (Uint63.of_Z z).

(** The literals [0.8], [0.6], [0.1] and [0.5] as binary64 values. *)
Definition f0_8 : float := 0x1.999999999999ap-1%float.
Definition f0_6 : float := 0x1.3333333333333p-1%float.
Definition f0_1 : float := 0x1.999999999999ap-4%float.
Definition f0_5 : float := 0x1p-1%float.

(** ** ValidationSuite *)

(** The [overall_quality] entry of a report. *)
Record overall : Type := {
  passed_tests : Z;
  total_tests : Z;
  quality_score : pyval;
  assessment : string
}.

(** [test.get('passed', False)] for a dict, [False] for anything else:
    the condition of the generator expression at lines 54 and 55. *)
Definition counts_as_passed (test : pyval) : bool :=
  match test with
  | PyDict items => truthy (dict_get items "passed" (PyBool false))
  | _ => false
  end.

(** Lines 54 to 63 of [validate_randomness], on the [tests] dict. *)
Definition overall_quality (tests : list (string * pyval)) : overall :=
  let passed := Z.of_nat (length (List.filter counts_as_passed (dict_values tests))) in
  let total := Z.of_nat (length (List.filter isinstance_dict (dict_values tests))) in
  {| passed_tests := passed;
     total_tests := total;
     quality_score :=
       if (0 <? total)%Z
       then PyFloat (PrimFloat.div (float_of_int passed) (float_of_int total))
       else PyInt 0;
     assessment :=
       if PrimFloat.leb (PrimFloat.mul (float_of_int total) f0_8) (float_of_int passed)
       then "GOOD"
       else if PrimFloat.leb (PrimFloat.mul (float_of_int total) f0_6) (float_of_int passed)
       then "FAIR"
       else "POOR" |}.

Section Suite.

(** The first four sub-tests are numpy statistics.  Each is declared
    [-> Dict[str, Any]] and returns a dict literal on both of its paths
    (the record with a ['passed'] entry, or [{'error': str(e)}]); they
    enter the aggregate only through the dicts they return. *)
Variables _frequency_test _runs_test _chi_square_test _calculate_entropy
  : list byte -> list (string * pyval).

(** [np.corrcoef(x, y)[0, 1]] *)
Variable corrcoef : list byte -> list byte -> float.

(** [_serial_correlation_test(data)] *)
Definition _serial_correlation_test (data : list byte) : list (string * pyval) :=
  if length data <? 2 then
    [("error", PyStr "Insufficient data for correlation test")]
  else
    let x := slice_to data (-1) in
    let y := drop 1 data in
    let correlation := corrcoef x y in
    let passed := PrimFloat.ltb (PrimFloat.abs correlation) f0_1 in
    [("correlation",
      PyFloat (if negb (PrimFloat.is_nan correlation) then correlation else 0%float));
     ("threshold", PyFloat f0_1);
     ("passed", PyBool passed)].

(** [results['tests']] after the five assignments of lines 39 to 51. *)
Definition run_tests (data : list byte) : list (string * pyval) :=
  let tests := [] in
  let tests := dict_setitem tests "frequency_test" (PyDict (_frequency_test data)) in
  let tests := dict_setitem tests "runs_test" (PyDict (_runs_test data)) in
  let tests := dict_setitem tests "chi_square_test" (PyDict (_chi_square_test data)) in
  let tests := dict_setitem tests "entropy" (PyDict (_calculate_entropy data)) in
  let tests := dict_setitem tests "serial_correlation"
                 (PyDict (_serial_correlation_test data)) in
  tests.

(** [validate_randomness(data)['overall_quality']] *)
Definition validate_randomness (data : list byte) : overall :=
  overall_quality (run_tests data).

End Suite.

(** ** quick_metrics *)

Record quality_metrics : Type := {
  entropy : float;
  ones_ratio : float;
  uniformity_score : float
}.

(** [np.bincount(a, minlength=256)] of a uint8 array: 256 counts. *)
Definition bincount (a : list byte) : list Z :=
  map (fun v => Z.of_nat (length (List.filter (fun b => (Byte.to_N b =? N.of_nat v)%N) a)))
      (seq 0 256).

(** [np.sum] of a float array, accumulated from left to right starting at
    [0.0] (numpy may associate the additions of long arrays differently). *)
Definition np_sum (a : list float) : float :=
  fold_left PrimFloat.add a 0%float.

(** [np.sum(bits)] of a bit array: the number of ones. *)
Definition count_ones (bits : list bool) : Z :=
  Z.of_nat (length (List.filter (fun b : bool => b) bits)).

Section QuickMetrics.

(** [np.log2] on binary64. *)
Variable log2 : float -> float.

(** Body of the [try] block of [get_quality_metrics].  Under numpy's
    default error state a division by zero gives an infinity or a NaN
    and a [RuntimeWarning], not an exception; the repository never
    changes that state, so no operation of the body raises. *)
Definition get_quality_metrics_body (data : list byte) : exc quality_metrics :=
  let data_array := Numpy.frombuffer data in
  let counts := bincount data_array in
  let probabilities :=
    map (fun c => PrimFloat.div (float_of_int c)
                    (float_of_int (Z.of_nat (length data_array)))) counts in
  let probabilities := List.filter (fun p => PrimFloat.ltb 0 p) probabilities in
  let entropy :=
    PrimFloat.opp
      (np_sum (map (fun p => PrimFloat.mul p (log2 p)) probabilities)) in
  let bits := Numpy.unpackbits data_array in
  let ones_ratio :=
    PrimFloat.div (float_of_int (count_ones bits))
                  (float_of_int (Z.of_nat (length bits))) in
  Ok {| entropy := entropy;
        ones_ratio := ones_ratio;
        uniformity_score :=
          PrimFloat.sub 1
            (PrimFloat.mul (PrimFloat.abs (PrimFloat.sub ones_ratio f0_5)) 2) |}.

(** The value returned by the [except] clause. *)
Definition quality_fallback : quality_metrics :=
  {| entropy := 0; ones_ratio := f0_5; uniformity_score := 0 |}.

(** [get_quality_metrics(data)] *)
Definition get_quality_metrics (data : list byte) : exc quality_metrics :=
  try_except (get_quality_metrics_body data) (fun _ => Ok quality_fallback).

End QuickMetrics.

End QuantumRandomGenerator.

(* ===================================================================== *)
(** * performance_monitor.py *)
(* ===================================================================== *)

Module PerformanceMonitor.

Import Py.
Local Open Scope Q_scope.

(** [collections.deque(maxlen=M).append(x)]: the element goes to the right
    end and, when the length then exceeds [maxlen], the leftmost one is
    dropped. *)
Definition deque_append {A : Type} (maxlen : nat) (x : A) (q : list A) : list A :=
  let q' := q ++ [x] in
  if (maxlen <? length q')%nat then drop 1 q' else q'.

(** An entry of [generation_history]; [timestamp] is [datetime.utcnow()]
    read as microseconds. *)
Record GenerationEvent : Type := {
  timestamp : Z;
  size_bytes : Z;
  generation_time : Q;
  throughput_mbps : Q;
  source : string
}.

(** An entry of [source_stats]. *)
Record SourceStats : Type := {
  requests : Z;
  bytes_generated : Z;
  total_time : Q;
  average_throughput_mbps : Q;
  error_count : Z
}.

(** The factory of the [defaultdict]. *)
Definition default_source_stats : SourceStats :=
  {| requests := 0; bytes_generated := 0; total_time := 0;
     average_throughput_mbps := 0; error_count := 0 |}.

(** The attributes of a [PerformanceMonitor] that [record_generation]
    touches. *)
Record monitor : Type := {
  history_size : nat;
  generation_history : list GenerationEvent;
  throughput_history : list Q;
  latency_history : list Q;
  request_timestamps : list Z;
  source_stats : gmap string SourceStats;
  total_bytes_generated : Z;
  total_requests : Z;
  last_request_time : option Z
}.

(** [PerformanceMonitor(history_size)]; a negative [history_size] makes
    [deque(maxlen=history_size)] raise, so no object exists for it. *)
Definition __init__ (history_size : nat) : monitor :=
  {| history_size := history_size;
     generation_history := [];
     throughput_history := [];
     latency_history := [];
     request_timestamps := [];
     source_stats := ∅;
     total_bytes_generated := 0;
     total_requests := 0;
     last_request_time := None |}.

(** [a / b] on floats: a zero divisor raises.  The quotient is exact, and
    an int operand is taken to be within the float range;
    [MonitorOverflow] has the conversion that raises beyond it. *)
Definition py_div (a b : Q) : exc Q :=
  if Qeq_bool b 0 then Raised ZeroDivisionError else Ok (a / b).

(** [x > 0] *)
Definition is_positive (x : Q) : bool := negb (Qle_bool x 0).

(** Line 93:
    [(size_bytes * 8) / (generation_time * 1_000_000) if generation_time > 0 else 0] *)
Definition compute_throughput (size_bytes : Z) (generation_time : Q) : exc Q :=
  if is_positive generation_time
  then py_div (inject_Z (size_bytes * 8)) (generation_time * 1000000)
  else Ok 0.

(** Lines 97 to 107: the four appends. *)
Definition append_histories (ev : GenerationEvent) (m : monitor) : monitor :=
  {| history_size := history_size m;
     generation_history := deque_append (history_size m) ev (generation_history m);
     throughput_history :=
       deque_append (history_size m) (throughput_mbps ev) (throughput_history m);
     latency_history :=
       deque_append (history_size m) (generation_time ev * 1000) (latency_history m);
     request_timestamps := deque_append 60 (timestamp ev) (request_timestamps m);
     source_stats := source_stats m;
     total_bytes_generated := total_bytes_generated m;
     total_requests := total_requests m;
     last_request_time := last_request_time m |}.

(** Lines 111 to 113: the three in-place additions on the stats entry. *)
Definition add_request (size_bytes : Z) (generation_time : Q) (st : SourceStats)
    : SourceStats :=
  {| requests := (requests st + 1)%Z;
     bytes_generated := (bytes_generated st + size_bytes)%Z;
     total_time := total_time st + generation_time;
     average_throughput_mbps := average_throughput_mbps st;
     error_count := error_count st |}.

(** Lines 115 to 118: the average is recomputed when the total time is
    positive. *)
Definition refresh_average (st : SourceStats) : exc SourceStats :=
  if is_positive (total_time st) then
    avg ← py_div (inject_Z (bytes_generated st * 8)) (total_time st * 1000000);
    mret {| requests := requests st;
            bytes_generated := bytes_generated st;
            total_time := total_time st;
            average_throughput_mbps := avg;
            error_count := error_count st |}
  else mret st.

Definition set_source_stats (stats : gmap string SourceStats) (m : monitor) : monitor :=
  {| history_size := history_size m;
     generation_history := generation_history m;
     throughput_history := throughput_history m;
     latency_history := latency_history m;
     request_timestamps := request_timestamps m;
     source_stats := stats;
     total_bytes_generated := total_bytes_generated m;
     total_requests := total_requests m;
     last_request_time := last_request_time m |}.

(** Lines 121 to 123: the global counters. *)
Definition count_request (now : Z) (size_bytes : Z) (m : monitor) : monitor :=
  {| history_size := history_size m;
     generation_history := generation_history m;
     throughput_history := throughput_history m;
     latency_history := latency_history m;
     request_timestamps := request_timestamps m;
     source_stats := source_stats m;
     total_bytes_generated := (total_bytes_generated m + size_bytes)%Z;
     total_requests := (total_requests m + 1)%Z;
     last_request_time := Some now |}.

(** [record_generation(size_bytes, generation_time, source)] called when
    the clock reads [now]: the outcome ([Ok tt] for a normal return) and
    the monitor afterwards.  What was written before an exception stays
    written. *)
Definition record_generation (now : Z) (size_bytes : Z) (generation_time : Q)
    (source : string) (m : monitor) : exc unit * monitor :=
  match compute_throughput size_bytes generation_time with
  | Raised e => (Raised e, m)
  | Ok throughput =>
      let ev := {| timestamp := now; size_bytes := size_bytes;
                   generation_time := generation_time;
                   throughput_mbps := throughput; source := source |} in
      let m1 := append_histories ev m in
      let stats := default default_source_stats (source_stats m1 !! source) in
      let stats := add_request size_bytes generation_time stats in
      match refresh_average stats with
      | Raised e => (Raised e, set_source_stats (<[source := stats]> (source_stats m1)) m1)
      | Ok stats =>
          (Ok tt,
           count_request now size_bytes
             (set_source_stats (<[source := stats]> (source_stats m1)) m1))
      end
  end.

(** [reset_statistics()] *)
Definition reset_statistics (m : monitor) : monitor :=
  {| history_size := history_size m;
     generation_history := [];
     throughput_history := [];
     latency_history := [];
     request_timestamps := [];
     source_stats := ∅;
     total_bytes_generated := 0;
     total_requests := 0;
     last_request_time := None |}.

(** A call of the recording interface. *)
Inductive call : Type :=
| RecordGeneration (now : Z) (size_bytes : Z) (generation_time : Q) (source : string)
| ResetStatistics.

Definition run_call (c : call) (m : monitor) : monitor :=
  match c with
  | RecordGeneration now size_bytes generation_time source =>
      (record_generation now size_bytes generation_time source m).2
  | ResetStatistics => reset_statistics m
  end.

(** The monitor after a sequence of calls, oldest first. *)
Definition run_calls (cs : list call) (m : monitor) : monitor :=
  fold_left (fun m c => run_call c m) cs m.

(** A recorded request: clock, size, duration, source label. *)
Definition request : Type := Z * Z * Q * string.

Definition record_request (m : monitor) (r : request) : monitor :=
  let '(now, size_bytes, generation_time, source) := r in
  (record_generation now size_bytes generation_time source m).2.

(** The event that [record_generation] builds for a request. *)
Definition event_of (r : request) : GenerationEvent :=
  let '(now, size_bytes, generation_time, source) := r in
  {| timestamp := now; size_bytes := size_bytes;
     generation_time := generation_time;
     throughput_mbps :=
       if is_positive generation_time
       then inject_Z (size_bytes * 8) / (generation_time * 1000000)
       else 0;
     source := source |}.

End PerformanceMonitor.

(* ===================================================================== *)
(** * The specification's words *)
(* ===================================================================== *)

Module Reference.

(** ** The von Neumann transform *)



(** Scan non-overlapping pairs from the start: (0,1) emits 0, (1,0) emits
    1, (0,0) and (1,1) emit nothing; a trailing unpaired bit is dropped. *)
Fixpoint scan_pairs (bits : list bool) : list bool :=
  match bits with
  | b0 :: b1 :: rest =>
      match b0, b1 with
      | false, true => false :: scan_pairs rest
      | true, false => true :: scan_pairs rest
      | _, _ => scan_pairs rest
      end
  | _ => []
  end.

(** Right-pad with zero bits up to the next multiple of 8. *)
Definition pad_to_byte_boundary (bits : list bool) : list bool :=
  bits ++ replicate ((8 - length bits mod 8) mod 8) false.




(** ** The aggregate of the validation suite *)

Import QuantumRandomGenerator.
Local Open Scope string_scope.

(** A sub-test result that reports an error marker: a dict with an
    ['error'] entry. *)
Definition is_error_marker (test : pyval) : bool :=
  match test with
  | PyDict items => existsb (fun kv : string * pyval => String.eqb kv.1 "error") items
  | _ => false
  end.

(** The denominator the specification describes: the sub-tests that did
    not report an error marker. *)
Definition valid_tests (tests : list (string * pyval)) : Z :=
  Z.of_nat
    (length (List.filter (fun t => negb (is_error_marker t)) (dict_values tests))).

(** The label the specification describes, by score. *)
Definition assessment_of_score (score : float) : string :=
  if PrimFloat.leb f0_8 score then "GOOD"
  else if PrimFloat.leb f0_6 score then "FAIR"
  else "POOR".

Local Close Scope string_scope.

(** ** Rolling windows *)

Import PerformanceMonitor.

(** Each history holds the most recent [M] of the elements inserted for
    the requests [seen], in insertion order. *)
Definition windows_hold (M : nat) (seen : list request) (m : monitor) : Prop :=
  history_size m = M /\
  generation_history m = drop (length seen - M) (event_of <$> seen) /\
  throughput_history m =
    drop (length seen - M) ((fun r => throughput_mbps (event_of r)) <$> seen) /\
  latency_history m =
    drop (length seen - M)
      ((fun r => generation_time (event_of r) * 1000)%Q <$> seen).

End Reference.

(* ===================================================================== *)
(** * Concrete runs used below *)
(* ===================================================================== *)

Module Scenarios.

Import FPGASimulator QuantumRandomGenerator.
Local Open Scope string_scope.

(** Draws that perturb every byte to zero. *)
Definition zero_draws : draws :=
  {| base_random := fun _ => x00;
     sampling_raises := false;
     quantum_byte := fun _ _ => x00;
     noise_fallback := fun _ => x00;
     generate_fallback := fun _ => x00 |}.

(** Draws whose perturbed array is [0x40] followed by zeros. *)
Definition one_bit_draws : draws :=
  {| base_random := fun _ => x00;
     sampling_raises := false;
     quantum_byte := fun i _ => match i with O => x40 | S _ => x00 end;
     noise_fallback := fun _ => x00;
     generate_fallback := fun _ => x00 |}.

(** The producer run that overfills the buffer: one chunk that debiases to a
    single byte, then 2048 chunks that debias to 512 bytes each. *)
Definition producer_run (k : nat) : state :=
  Nat.iter k (buffer_worker_iteration zero_draws)
    (buffer_worker_iteration one_bit_draws (__init__ 50)).

(** The shape of [results['tests']] for the one-byte input [b'U']: the
    frequency and chi-square tests pass, the runs and entropy tests fail,
    and the correlation test reports its error marker. *)
Definition single_byte_report : list (string * pyval) :=
  [("frequency_test", PyDict [("chi_square", PyFloat 0); ("passed", PyBool true)]);
   ("runs_test", PyDict [("runs_observed", PyInt 8); ("passed", PyBool false)]);
   ("chi_square_test", PyDict [("chi_square", PyFloat 255); ("passed", PyBool true)]);
   ("entropy", PyDict [("max_entropy", PyFloat 8); ("passed", PyBool false)]);
   ("serial_correlation",
    PyDict [("error", PyStr "Insufficient data for correlation test")])].

End Scenarios.

(* ===================================================================== *)
(** * fpga_simulator.py: configuration and runs of calls *)
(* ===================================================================== *)

Module FPGAOperations.

Import Py FPGASimulator.

(** [configure_quantum_params(params)] on [self.quantum_noise_params];
    [params] lists the items of the argument dict in iteration order:
<<
    for key, value in params.items():
        if key in self.quantum_noise_params:
            self.quantum_noise_params[key] = value
>>
*)
Definition configure_quantum_params {V : Type} (params : list (string * V))
    (quantum_noise_params : gmap string V) : gmap string V :=
  fold_left
    (fun q kv =>
       match q !! kv.1 with
       | Some _ => <[kv.1 := kv.2]> q
       | None => q
       end)
    params quantum_noise_params.

(** The object after a run of [generate_random_bytes] calls, each with its
    draws and its size, oldest first. *)
Definition generate_calls (calls : list (draws * Z)) (st : state) : state :=
  fold_left (fun st c => (generate_random_bytes c.1 c.2 st).2) calls st.

End FPGAOperations.

(* ===================================================================== *)
(** * performance_monitor.py: derived metrics and queries *)
(* ===================================================================== *)

Module MonitorQueries.

Import Py PerformanceMonitor.
Local Open Scope Q_scope.

(** [list(d)[-n:]] for a positive [n]: the last [n] elements, all of them
    when there are fewer. *)
Definition last_n {A : Type} (n : nat) (l : list A) : list A :=
  drop (length l - n) l.

(** [np.mean] of a non-empty sequence of floats, as the exact rational
    mean.  numpy returns its binary64 rounding, which can lie just
    outside the range of the samples. *)
Definition np_mean (l : list Q) : Q :=
  fold_right Qplus 0 l / inject_Z (Z.of_nat (length l)).

(** [max(x, *rest)]: the first of the largest elements. *)
Definition py_max (x : Q) (rest : list Q) : Q :=
  fold_left (fun best y => if Qlt_le_dec best y then y else best) rest x.


(** The entries of [current_metrics] that [_update_real_time_metrics]
    derives from the histories (the uptime, a clock difference, is left
    out; the two totals are fields of [monitor]). *)
Record real_time_metrics : Type := {
  instantaneous_throughput_mbps : Q;
  average_throughput_mbps : Q;
  peak_throughput_mbps : Q;
  average_latency_ms : Q;
  requests_per_second : Q
}.

(** [current_metrics] as [__init__] and [reset_statistics] leave it. *)
Definition zero_metrics : real_time_metrics :=
  {| instantaneous_throughput_mbps := 0; average_throughput_mbps := 0;
     peak_throughput_mbps := 0; average_latency_ms := 0;
     requests_per_second := 0 |}.

(** [(current_time - ts).total_seconds() <= 60], on microsecond clocks. *)
Definition within_last_minute (current_time ts : Z) : bool :=
  (current_time - ts <=? 60 * 1000000)%Z.

(** [_update_real_time_metrics()] run when the clock reads [current_time]:
    lines 143 to 159. *)
Definition _update_real_time_metrics (current_time : Z) (m : monitor)
    (cm : real_time_metrics) : real_time_metrics :=
  let recent_requests :=
    List.filter (within_last_minute current_time) (request_timestamps m) in
  let rps := inject_Z (Z.of_nat (length recent_requests)) / 60 in
  let throughput :=
    match throughput_history m with
    | [] =>
        (instantaneous_throughput_mbps cm, average_throughput_mbps cm,
         peak_throughput_mbps cm)
    | x :: rest =>
        (np_mean (last_n 10 (x :: rest)), np_mean (x :: rest), py_max x rest)
    end in
  let latency :=
    match latency_history m with
    | [] => average_latency_ms cm
    | x :: rest => np_mean (x :: rest)
    end in
  {| instantaneous_throughput_mbps := throughput.1.1;
     average_throughput_mbps := throughput.1.2;
     peak_throughput_mbps := throughput.2;
     average_latency_ms := latency;
     requests_per_second := rps |}.

(** One point of the chart data of [get_real_time_throughput]: timestamp,
    throughput, size and source of an event. *)
Definition chart_point (ev : GenerationEvent) : Z * Q * Z * string :=
  (timestamp ev, throughput_mbps ev, size_bytes ev, source ev).

(** The ['historical_data'] entry of [get_real_time_throughput()]: the
    last 60 events. *)
Definition historical_data (m : monitor) : list (Z * Q * Z * string) :=
  chart_point <$> last_n 60 (generation_history m).

(** [min(a, 1.0)] and [max(a, 0.0)] as Python evaluates them. *)
Definition at_most_one (a : Q) : Q := if Qlt_le_dec 1 a then 1 else a.
Definition at_least_zero (a : Q) : Q := if Qlt_le_dec a 0 then 0 else a.

(** The numeric part of the report of [get_system_health()]. *)
Record health : Type := {
  overall_health_score : Q;
  status : string;
  is_active : option bool;
  throughput_health : Q;
  latency_health : Q;
  quality_health : Q
}.

(** [get_system_health()] when the clock reads [current_time], for the
    metrics last derived and the entropy scores on record. *)
Definition get_system_health (current_time : Z) (m : monitor)
    (cm : real_time_metrics) (entropy_scores : list Q) : health :=
  let is_active :=
    match last_request_time m with
    | None => None
    | Some t => Some (current_time - t <? 60 * 1000000)%Z
    end in
  let throughput_health := at_most_one (average_throughput_mbps cm / 50) in
  let latency_health := at_least_zero (1 - average_latency_ms cm / 1000) in
  let quality_health :=
    match entropy_scores with
    | [] => 1
    | _ :: _ => at_most_one (np_mean (last_n 10 entropy_scores) / 8)
    end in
  let overall_health := (throughput_health + latency_health + quality_health) / 3 in
  {| overall_health_score := overall_health;
     status :=
       if Qlt_le_dec (8 # 10) overall_health then "healthy"
       else if Qlt_le_dec (5 # 10) overall_health then "degraded"
       else "critical";
     is_active := is_active;
     throughput_health := throughput_health;
     latency_health := latency_health;
     quality_health := quality_health |}.

(** ** Quality scores *)










(** ** Totals over the per-source statistics *)


End MonitorQueries.

(* ===================================================================== *)
(** * Python runtime: the range of floats *)
(* ===================================================================== *)

Module FloatRange.

Import Py.
Local Open Scope Z_scope.

(** The least magnitude of an int that does not convert to a float: half
    way between the largest binary64 number, [2^1024 - 2^971], and
    [2^1024], where rounding to even goes up. *)
Definition float_limit : Z := 2 ^ 1024 - 2 ^ 970.

(** Whether [float(n)] returns. *)
Definition fits_float (n : Z) : bool := Z.abs n <? float_limit.

(** [x < y] on floats *)
Definition Qltb (x y : Q) : bool := negb (Qle_bool y x).

(** [n / d] for an int [n] and a float [d]: [n] is converted first, which
    raises [OverflowError] outside the float range, and a zero divisor
    raises [ZeroDivisionError].  The quotient is not rounded. *)
Definition int_truediv_float (n : Z) (d : Q) : exc Q :=
  if fits_float n then
    if Qeq_bool d 0 then Raised ZeroDivisionError else Ok (inject_Z n / d)%Q
  else Raised OverflowError.

(** The longest wait in nanoseconds that [time.sleep] accepts: the range
    of a signed 64-bit count. *)
Definition sleep_limit_ns : Z := 2 ^ 63.

(** [time.sleep(seconds)]: a negative wait raises [ValueError], one that
    does not fit the nanosecond counter raises [OverflowError]; otherwise
    the call returns after the wait. *)
Definition sleep (seconds : Q) : exc unit :=
  if Qltb seconds 0 then Raised ValueError
  else if Qle_bool (inject_Z sleep_limit_ns) (seconds * 1000000000)%Q
       then Raised OverflowError
       else Ok tt.

End FloatRange.

(* ===================================================================== *)
(** * fpga_simulator.py: statistics, pacing and the worker thread *)
(* ===================================================================== *)

Module FPGAPacing.

Import Py FloatRange FPGASimulator.
Local Open Scope Z_scope.

(** The two wall-clock measurements of one call of
    [generate_random_bytes]. *)
Record clock : Type := {
  (** [time.time() - start_time] at line 163 *)
  generation_time : Q;
  (** [(datetime.utcnow() - self.stats['start_time']).total_seconds()]
      at line 168 *)
  uptime : Q
}.

(** Lines 167 to 178 of [generate_random_bytes], entered with the counters
    already updated: the average throughput (its value is not kept in
    [state]), the expected time and the pacing sleep.  [start_time] is a
    datetime from construction on, hence true. *)
Definition pacing (c : clock) (size : Z) (st : state) : exc unit :=
  _ ← (if Qltb 0 (uptime c)
       then _ ← int_truediv_float (total_bytes_generated st * 8)
                                  (uptime c * 1000000)%Q;
            mret tt
       else mret tt);
  expected_time ← int_truediv_float (size * 8) (target_throughput_mbps st * 1000000)%Q;
  if Qltb (generation_time c) expected_time
  then sleep (expected_time - generation_time c)%Q
  else mret tt.

(** [generate_random_bytes(size)] with its statistics and pacing block:
    the value returned (or the exception that escapes) and the object
    afterwards.  Whatever raises inside the [try] is answered by
    [secrets.token_bytes(size)]; mutations made before it stay. *)
Definition generate_random_bytes (d : draws) (c : clock) (size : Z) (st : state)
    : exc (list byte) * state :=
  let locked :=
    if size <=? Z.of_nat (length (random_buffer st))
    then (Ok (slice_to (random_buffer st) size),
          set_random_buffer (del_slice_to (random_buffer st) size) st)
    else (_generate_quantum_noise d size, st) in
  match locked with
  | (Ok result, st1) =>
      let st2 := update_statistics size st1 in
      match pacing c size st2 with
      | Ok _ => (Ok result, st2)
      | Raised _ => (token_bytes (generate_fallback d) size, st2)
      end
  | (Raised _, st1) => (token_bytes (generate_fallback d) size, st1)
  end.

(** A call for which neither the throughput division nor the conversion
    of [size * 8] overflows, and whose pacing wait fits [time.sleep]. *)
Definition within_limits (c : clock) (size : Z) (st : state) : bool :=
  (negb (Qltb 0 (uptime c)) || fits_float ((total_bytes_generated st + size) * 8))
  && fits_float (size * 8)
  && Qltb ((inject_Z (size * 8) / (target_throughput_mbps st * 1000000)
            - generation_time c) * 1000000000)%Q
          (inject_Z sleep_limit_ns).

(** Where the worker thread stands in [buffer_worker]. *)
Inductive worker : Type :=
| AtTest      (** about to evaluate [while self.is_running] *)
| InLoopBody  (** past the test, before or inside [with self.buffer_lock] *)
| Ended.      (** the loop has been left *)

(** One atomic step of the object and its worker thread.  The test of
    [is_running] is made without the lock, so other calls can run between
    it and the locked body; the locked bodies themselves exclude each
    other.  What [generate_random_bytes] does after it has released the
    lock (counters, pacing) touches neither the buffer nor the flag and is
    taken in the same step. *)
Inductive thread_step : state * worker -> state * worker -> Prop :=
| step_test st :
    thread_step (st, AtTest) (st, if is_running st then InLoopBody else Ended)
| step_body d st :
    thread_step (st, InLoopBody) (buffer_worker_iteration d st, AtTest)
| step_generate d c size st w :
    thread_step (st, w) ((generate_random_bytes d c size st).2, w)
| step_set_target_throughput mbps st w :
    thread_step (st, w) (set_target_throughput mbps st, w)
| step_reset_stats st w :
    thread_step (st, w) (reset_stats st, w)
| step_stop st w :
    thread_step (st, w) (stop st, w).

(** The bytes that an iteration in flight may still append. *)
Definition pending (w : worker) : nat :=
  match w with
  | InLoopBody => 1024
  | AtTest | Ended => 0
  end.

End FPGAPacing.

(* ===================================================================== *)
(** * performance_monitor.py: sizes beyond the float range *)
(* ===================================================================== *)

Module MonitorOverflow.

Import Py FloatRange PerformanceMonitor.
Local Open Scope Q_scope.

(** Line 93, with the conversion of [size_bytes * 8] to a float. *)
Definition compute_throughput (size_bytes : Z) (generation_time : Q) : exc Q :=
  if is_positive generation_time
  then int_truediv_float (size_bytes * 8) (generation_time * 1000000)
  else Ok 0.

(** Lines 115 to 118, with the conversion of [bytes_generated * 8] to a
    float. *)
Definition refresh_average (st : SourceStats) : exc SourceStats :=
  if is_positive (total_time st) then
    avg ← int_truediv_float (bytes_generated st * 8) (total_time st * 1000000);
    mret {| requests := requests st;
            bytes_generated := bytes_generated st;
            total_time := total_time st;
            average_throughput_mbps := avg;
            error_count := error_count st |}
  else mret st.

(** [record_generation(size_bytes, generation_time, source)] for sizes of
    any magnitude: the outcome and the monitor afterwards.  Line 93 is
    outside the lock and before every append; the average of lines 115 to
    118 is computed after the appends and the per-source additions, which
    stay when it raises. *)
Definition record_generation (now : Z) (size_bytes : Z) (generation_time : Q)
    (source : string) (m : monitor) : exc unit * monitor :=
  match compute_throughput size_bytes generation_time with
  | Raised e => (Raised e, m)
  | Ok throughput =>
      let ev := {| timestamp := now; size_bytes := size_bytes;
                   generation_time := generation_time;
                   throughput_mbps := throughput; source := source |} in
      let m1 := append_histories ev m in
      let stats := default default_source_stats (source_stats m1 !! source) in
      let stats := add_request size_bytes generation_time stats in
      match refresh_average stats with
      | Raised e => (Raised e, set_source_stats (<[source := stats]> (source_stats m1)) m1)
      | Ok stats =>
          (Ok tt,
           count_request now size_bytes
             (set_source_stats (<[source := stats]> (source_stats m1)) m1))
      end
  end.

(** A call whose size and whose per-source byte total convert to a
    float. *)
Definition within_range (size_bytes : Z) (source : string) (m : monitor) : bool :=
  fits_float (size_bytes * 8) &&
  fits_float
    ((bytes_generated (default default_source_stats (source_stats m !! source))
      + size_bytes) * 8).

End MonitorOverflow.

(* ===================================================================== *)
(** * Python runtime: ranges, indexing and integers from bytes *)
(* ===================================================================== *)

Module Builtins.

Import Py.
Local Open Scope Z_scope.

(** [range(count)] *)
Definition range (count : Z) : list Z := map Z.of_nat (seq 0 (Z.to_nat count)).

(** The integer that indexing a [bytes] object yields. *)
Definition byte_value (b : byte) : Z := Z.of_N (Byte.to_N b).

(** [l[i]]; [None] stands for [IndexError]. *)
Definition getitem {A : Type} (l : list A) (i : Z) : option A :=
  if i <? 0 then
    if Z.of_nat (length l) + i <? 0 then None
    else l !! Z.to_nat (Z.of_nat (length l) + i)
  else l !! Z.to_nat i.

(** [l[start:stop]] *)
Definition slice {A : Type} (l : list A) (start stop : Z) : list A :=
  drop (slice_stop l start) (take (slice_stop l stop) l).

(** [int.from_bytes(bs, byteorder='big')] *)
Definition int_from_bytes_big (bs : list byte) : Z :=
  fold_left (fun acc b => acc * 256 + byte_value b) bs 0.

(** [l[start:]] *)
Definition slice_from {A : Type} (l : list A) (start : Z) : list A :=
  drop (slice_stop l start) l.

(** [bytes([v])]: one byte; [ValueError] when [v] is not in [range(256)]. *)
Definition bytes_of_int (v : Z) : exc (list byte) :=
  if (0 <=? v) && (v <? 256)
  then match Byte.of_N (Z.to_N v) with
       | Some b => Ok [b]
       | None => Raised ValueError
       end
  else Raised ValueError.

End Builtins.

(* ===================================================================== *)
(** * generate_routes.py *)
(* ===================================================================== *)

Module GenerateRoutes.

Import Py Builtins.
Local Open Scope string_scope.
Local Open Scope list_scope.
Local Open Scope Z_scope.

(** The answer of a route: the [results] list of a 200 answer, or the
    status of an error answer. *)
Inductive response (A : Type) : Type :=
| Results (results : list A)
| ErrorStatus (status : Z).
Arguments Results {A} results.
Arguments ErrorStatus {A} status.

(** What the generators behind [get_random_bytes] draw and measure while
    one call is served. *)
Record sources : Type := {
  (** the draws of [fpga_sim.generate_random_bytes(size)] at lines 60 or 69 *)
  fpga_draws : FPGASimulator.draws;
  (** the wall-clock measurements of that call *)
  fpga_clock : FPGAPacing.clock;
  (** the draws of the same call made by the fallback at line 104 *)
  retry_draws : FPGASimulator.draws;
  (** the wall-clock measurements of the fallback call *)
  retry_clock : FPGAPacing.clock;
  (** the outcome of [anu_api.generate_random_bytes(size)] *)
  anu_reply : Z -> exc (list byte);
  (** what [anu_api.validate_with_anu] returns for the hybrid technique:
      [Some passed] when the comparison with ANU data was made, [None]
      for the dictionary of its [except] clause *)
  anu_validation : option bool;
  (** byte [i] of [secrets.token_bytes(size)] at line 81 *)
  os_random : nat -> byte
}.

(** The keys of [TECHNIQUES]. *)
Definition TECHNIQUES : list string := ["fpga"; "anu"; "hybrid"; "cryptographic"].

(** The values found under ['validation_passed'] in the metadata. *)
Inductive flag : Type :=
| PyFlag (b : bool)      (** a Python [bool] *)
| NumpyFlag (b : bool).  (** a [numpy.bool_]: [overall_score > 0.8] on a numpy float *)

(** The part of the metadata dictionary that decides whether it can be
    written as JSON.  Its other entries are strings, floats, ints and
    dictionaries of these; the ['validation'] dictionary holds the same
    flag. *)
Record metadata : Type := {
  (** [None]: the key is absent *)
  validation_passed : option flag
}.

(** [jsonify(...)] of an answer whose metadata include [md]: Flask's
    encoder raises [TypeError] on a [numpy.bool_]. *)
Definition jsonify_returns (md : metadata) : bool :=
  match validation_passed md with
  | Some (NumpyFlag _) => false
  | Some (PyFlag _) | None => true
  end.

(** Lines 71 to 77: the validation entries of the hybrid technique;
    [validate_with_anu] catches its own exceptions. *)
Definition hybrid_metadata (s : sources) : metadata :=
  {| validation_passed :=
       Some match anu_validation s with
            | Some passed => NumpyFlag passed
            | None => PyFlag false
            end |}.

Definition plain_metadata : metadata := {| validation_passed := None |}.

(** [get_random_bytes(size, technique)]: the returned pair (or the
    exception that escapes) and the simulator afterwards.  The quality
    metrics are computed inside their own [try] block and are floats. *)
Definition get_random_bytes (s : sources) (size : Z) (technique : string)
    (st : FPGASimulator.state)
    : exc (list byte * metadata) * FPGASimulator.state :=
  let with_metadata (md : metadata) (r : exc (list byte) * FPGASimulator.state) :=
    (data ← r.1; mret (data, md), r.2) in
  let attempt :=
    if negb (bool_decide (technique ∈ TECHNIQUES)) then (Raised ValueError, st)
    else if String.eqb technique "fpga"
    then with_metadata plain_metadata
           (FPGAPacing.generate_random_bytes (fpga_draws s) (fpga_clock s) size st)
    else if String.eqb technique "anu"
    then with_metadata plain_metadata (anu_reply s size, st)
    else if String.eqb technique "hybrid"
    then with_metadata (hybrid_metadata s)
           (FPGAPacing.generate_random_bytes (fpga_draws s) (fpga_clock s) size st)
    else if String.eqb technique "cryptographic"
    then with_metadata plain_metadata (FPGASimulator.token_bytes (os_random s) size, st)
    else (Raised ValueError, st) in
  match attempt with
  | (Ok answer, st1) => (Ok answer, st1)
  | (Raised e, st1) =>
      if negb (String.eqb technique "fpga")
      then with_metadata plain_metadata
             (FPGAPacing.generate_random_bytes (retry_draws s) (retry_clock s) size st1)
      else (Raised e, st1)
  end.

(** ** /boolean *)

(** Lines 121 to 125: one round of the extraction loop. *)
Definition boolean_round (random_bytes : list byte)
    (results : option (list bool)) (i : Z) : option (list bool) :=
  results ← results;
  let byte_index := i / 8 in
  let bit_index := i mod 8 in
  b ← getitem random_bytes byte_index;
  let bit_value := Z.land (Z.shiftr (byte_value b) bit_index) 1 in
  Some (results ++ [negb (bit_value =? 0)]).

(** Lines 119 to 125. *)
Definition extract_booleans (count : Z) (random_bytes : list byte)
    : option (list bool) :=
  fold_left (boolean_round random_bytes) (range count) (Some []).

(** [generate_boolean()] for a request whose [count] field is
    [count_field]: the answer, the simulator and the monitor afterwards.
    [now] and [elapsed] are the clock reading and the measured generation
    time that reach [record_generation].  Every exception, also the one of
    [jsonify], ends in the [except] clause, which answers 500. *)
Definition generate_boolean (s : sources) (now : Z) (elapsed : Q)
    (count_field : Z) (technique : string)
    (st : FPGASimulator.state) (m : PerformanceMonitor.monitor)
    : response bool * FPGASimulator.state * PerformanceMonitor.monitor :=
  let count := Z.min count_field 100 in
  let bytes_needed := (count + 7) / 8 in
  match get_random_bytes s bytes_needed technique st with
  | (Raised _, st1) => (ErrorStatus 500, st1, m)
  | (Ok (random_bytes, gen_metadata), st1) =>
      match extract_booleans count random_bytes with
      | None => (ErrorStatus 500, st1, m)
      | Some results =>
          match MonitorOverflow.record_generation now bytes_needed elapsed technique m with
          | (Raised _, m1) => (ErrorStatus 500, st1, m1)
          | (Ok _, m1) =>
              if jsonify_returns gen_metadata then (Results results, st1, m1)
              else (ErrorStatus 500, st1, m1)
          end
      end
  end.

(** ** /number, integers *)

(** Lines 238 to 244: one round of the conversion loop. *)
Definition integer_round (min_val range_size : Z) (random_bytes : list byte)
    (results : list Z) (i : Z) : list Z :=
  let byte_start := i * 4 in
  let int_value := int_from_bytes_big (slice random_bytes byte_start (byte_start + 4)) in
  let random_number := min_val + int_value mod range_size in
  results ++ [random_number].

(** [generate_number()] for a request of type ['integer'] with the fields
    [count], [min] and [max].  [range_size] is at least 2 when the loop
    runs, so the remainder never raises. *)
Definition generate_number_integer (s : sources) (now : Z) (elapsed : Q)
    (count_field min_val max_val : Z) (technique : string)
    (st : FPGASimulator.state) (m : PerformanceMonitor.monitor)
    : response Z * FPGASimulator.state * PerformanceMonitor.monitor :=
  let count := Z.min count_field 100 in
  if min_val >=? max_val then (ErrorStatus 400, st, m)
  else
    let range_size := max_val - min_val + 1 in
    let bytes_per_number := 4 in
    let total_bytes := count * bytes_per_number in
    match get_random_bytes s total_bytes technique st with
    | (Raised _, st1) => (ErrorStatus 500, st1, m)
    | (Ok (random_bytes, gen_metadata), st1) =>
        let results :=
          fold_left (integer_round min_val range_size random_bytes) (range count) [] in
        match MonitorOverflow.record_generation now total_bytes elapsed "fpga" m with
        | (Raised _, m1) => (ErrorStatus 500, st1, m1)
        | (Ok _, m1) =>
            if jsonify_returns gen_metadata then (Results results, st1, m1)
            else (ErrorStatus 500, st1, m1)
        end
    end.

(** ** /custom *)

(** Lines 315 to 321: one round of the selection loop. *)
Definition custom_round {A : Type} (options : list A) (random_bytes : list byte)
    (results : option (list A)) (i : Z) : option (list A) :=
  results ← results;
  let byte_start := i * 4 in
  let int_value := int_from_bytes_big (slice random_bytes byte_start (byte_start + 4)) in
  let option_index := int_value mod Z.of_nat (length options) in
  choice ← getitem options option_index;
  Some (results ++ [choice]).

(** [generate_custom()] for a request with the fields [options] and
    [count]; [strip] is [str(opt).strip()]. *)
Definition generate_custom (strip : string -> string)
    (s : sources) (now : Z) (elapsed : Q)
    (options : list string) (count_field : Z) (technique : string)
    (st : FPGASimulator.state) (m : PerformanceMonitor.monitor)
    : response string * FPGASimulator.state * PerformanceMonitor.monitor :=
  let count := Z.min count_field 50 in
  if bool_decide (options = []) then (ErrorStatus 400, st, m)
  else
    let options := List.filter (fun opt => QuantumRandomGenerator.truthy
                                   (QuantumRandomGenerator.PyStr opt))
                     (map strip options) in
    if (length options =? 0)%nat then (ErrorStatus 400, st, m)
    else
      let bytes_per_selection := 4 in
      let total_bytes := count * bytes_per_selection in
      match get_random_bytes s total_bytes technique st with
      | (Raised _, st1) => (ErrorStatus 500, st1, m)
      | (Ok (random_bytes, gen_metadata), st1) =>
          match fold_left (custom_round options random_bytes) (range count) (Some []) with
          | None => (ErrorStatus 500, st1, m)
          | Some results =>
              match MonitorOverflow.record_generation now total_bytes elapsed technique m with
              | (Raised _, m1) => (ErrorStatus 500, st1, m1)
              | (Ok _, m1) =>
                  if jsonify_returns gen_metadata then (Results results, st1, m1)
                  else (ErrorStatus 500, st1, m1)
              end
          end
      end.

End GenerateRoutes.

(* ===================================================================== *)
(** * Bit orders *)
(* ===================================================================== *)

Module BitOrder.

Import Numpy Builtins GenerateRoutes.
Local Open Scope Z_scope.

(** The bits of the bytes, each byte least significant bit first: numpy's
    order within a byte, reversed. *)
Definition bits_lsb_first (bs : list byte) : list bool :=
  concat (map (fun b => rev (unpack_byte b)) bs).

(** Bit [k] of a byte, as the extraction loop of [generate_boolean]
    computes it. *)
Definition bit_at (b : byte) (k : nat) : bool :=
  negb (Z.land (Z.shiftr (byte_value b) (Z.of_nat k)) 1 =? 0).

End BitOrder.

(* ===================================================================== *)
(** * crypto_utils.py *)
(* ===================================================================== *)

Module CryptoUtils.

Import Py Builtins.
Local Open Scope string_scope.
Local Open Scope list_scope.
Local Open Scope Z_scope.

(** [b'quantum-rng-salt'] *)
Definition salt : list byte := Stdlib.Strings.String.list_byte_of_string "quantum-rng-salt".

(** [b'quantum-key-expansion'] *)
Definition info : list byte := Stdlib.Strings.String.list_byte_of_string "quantum-key-expansion".

#[global] Instance byte_eq_decision : EqDecision byte := Byte.byte_eq_dec.

(** [hmac.compare_digest(a, b)] on byte strings *)
Definition compare_digest (a b : list byte) : bool := bool_decide (a = b).

(** The fields of the dictionary of [generate_rsa_seed] that hold key
    material, and the recommendation.  The quality assessment and the
    time stamp are left out. *)
Record rsa_seed : Type := {
  seed_p : list byte;
  seed_q : list byte;
  auxiliary_entropy : list byte;
  algorithm_recommendation : option string
}.

Section Primitives.

(** [hashlib.sha256(data).digest()] *)
Variable sha256 : list byte -> list byte.
(** [hmac.new(key, msg, hashlib.sha256).digest()] *)
Variable hmac_sha256 : list byte -> list byte -> list byte.
(** [base64.b64encode(data).decode('utf-8')] *)
Variable b64encode : list byte -> string.
(** [base64.b64decode(text.encode('utf-8'))]; [None] stands for
    [binascii.Error]. *)
Variable b64decode : string -> option (list byte).

(** Lines 116 to 119: one round of the expand loop, on the pair
    [(okm, previous)]. *)
Definition expand_round (prk : list byte)
    (acc : exc (list byte * list byte)) (i : Z) : exc (list byte * list byte) :=
  acc ← acc;
  counter ← bytes_of_int (i + 1);
  let hmac_input := acc.2 ++ info ++ counter in
  let previous := hmac_sha256 prk hmac_input in
  mret (acc.1 ++ previous, previous).

(** Lines 102 to 121: the [try] block of [_expand_entropy], for the
    default algorithm, whose digest has 32 bytes. *)
Definition _expand_entropy_body (seed : list byte) (output_size : Z)
    : exc (list byte) :=
  let hash_length := 32 in
  let prk := hmac_sha256 salt seed in
  let n := (output_size + hash_length - 1) / hash_length in
  acc ← fold_left (expand_round prk) (range n) (Ok ([], []));
  mret (slice_to acc.1 output_size).

(** [_expand_entropy(seed, output_size)]; [os] is the stream that
    [secrets.token_bytes] of the [except] clause reads. *)
Definition _expand_entropy (os : nat -> byte) (seed : list byte) (output_size : Z)
    : exc (list byte) :=
  try_except (_expand_entropy_body seed output_size)
             (fun _ => FPGASimulator.token_bytes os output_size).

(** [generate_symmetric_key(entropy_data, key_size_bits)]; [os k] is the
    stream that the [k]-th call site of [secrets.token_bytes] reads. *)
Definition generate_symmetric_key (os : nat -> nat -> byte)
    (entropy_data : list byte) (key_size_bits : Z) : exc (list byte) :=
  try_except
    (let key_size_bytes := key_size_bits / 8 in
     if Z.of_nat (length entropy_data) >=? key_size_bytes
     then Ok (slice_to entropy_data key_size_bytes)
     else _expand_entropy (os 0%nat) entropy_data key_size_bytes)
    (fun _ => FPGASimulator.token_bytes (os 1%nat) (key_size_bits / 8)).

(** [generate_rsa_seed(entropy_data, seed_size)]; the dictionary of the
    [except] clause has no recommendation. *)
Definition generate_rsa_seed (os : nat -> nat -> byte)
    (entropy_data : list byte) (seed_size : Z) : exc rsa_seed :=
  try_except
    (p ← _expand_entropy (os 0%nat) entropy_data seed_size;
     q ← _expand_entropy (os 1%nat) (slice_from entropy_data seed_size) seed_size;
     aux_entropy ←
       _expand_entropy (os 2%nat) (slice_from entropy_data (seed_size * 2)) 32;
     mret {| seed_p := p; seed_q := q; auxiliary_entropy := aux_entropy;
             algorithm_recommendation :=
               Some (if Z.of_nat (length entropy_data) >=? 128
                     then "RSA-4096" else "RSA-2048") |})
    (fun _ =>
       p ← FPGASimulator.token_bytes (os 3%nat) seed_size;
       q ← FPGASimulator.token_bytes (os 4%nat) seed_size;
       aux_entropy ← FPGASimulator.token_bytes (os 5%nat) 32;
       mret {| seed_p := p; seed_q := q; auxiliary_entropy := aux_entropy;
               algorithm_recommendation := None |}).

(** Lines 193 to 197: one round of the derivation loop, on the pair
    [(master_key, derived_keys)]. *)
Definition derive_round (os : nat -> nat -> byte) (key_size : Z)
    (acc : exc (list byte * list (list byte))) (i : Z)
    : exc (list byte * list (list byte)) :=
  acc ← acc;
  derived_key ← _expand_entropy (os (Z.to_nat i)) acc.1 key_size;
  let master_key := sha256 (acc.1 ++ derived_key) in
  mret (master_key, acc.2 ++ [derived_key]).

(** [derive_keys(master_key, key_count, key_size)]; [os i] is the stream
    of round [i] of the loop, [fallback i] that of element [i] of the list
    of the [except] clause. *)
Definition derive_keys (os fallback : nat -> nat -> byte)
    (master_key : list byte) (key_count key_size : Z) : exc (list (list byte)) :=
  try_except
    (acc ← fold_left (derive_round os key_size) (range key_count) (Ok (master_key, []));
     mret acc.2)
    (fun _ =>
       fold_left (fun acc i =>
                    acc ← acc;
                    k ← FPGASimulator.token_bytes (fallback (Z.to_nat i)) key_size;
                    mret (acc ++ [k]))
                 (range key_count) (Ok [])).

(** [create_key_commitment(key)]: [nonce_stream] is what
    [secrets.token_bytes(32)] reads, [now] the ISO time stamp. *)
Definition create_key_commitment (nonce_stream : nat -> byte) (now : string)
    (key : list byte) : gmap string string :=
  let nonce := map nonce_stream (seq 0 32) in
  let commitment_data := nonce ++ key in
  let commitment := sha256 commitment_data in
  <["commitment" := b64encode commitment]>
    (<["nonce" := b64encode nonce]>
       (<["algorithm" := "SHA256"]>
          (<["timestamp" := now]> ∅))).

(** [verify_key_commitment(key, commitment_data)]: a missing entry
    ([KeyError]) or an undecodable text ends in the [except] clause, which
    returns [False]. *)
Definition verify_key_commitment (key : list byte)
    (commitment_data : gmap string string) : bool :=
  default false
    (nonce_text ← commitment_data !! "nonce";
     nonce ← b64decode nonce_text;
     commitment_text ← commitment_data !! "commitment";
     expected_commitment ← b64decode commitment_text;
     let commitment_input := nonce ++ key in
     let actual_commitment := sha256 commitment_input in
     Some (compare_digest expected_commitment actual_commitment)).

End Primitives.

(** [secure_zero(data)]: the bytearray after the loop. *)
Definition secure_zero (data : list byte) : list byte :=
  fold_left (fun data i => <[Z.to_nat i := x00]> data)
            (range (Z.of_nat (length data))) data.

End CryptoUtils.

(* ===================================================================== *)
(** * routes.py *)
(* ===================================================================== *)

Module ApiRoutes.

Import Py Builtins.
Local Open Scope string_scope.
Local Open Scope list_scope.
Local Open Scope Z_scope.

(** The values that the [/keys] route hands to [jsonify] under ['key']. *)
#[local] Set Warnings "-register-all".
Inductive json : Type :=
| JsonText (text : string)
| JsonInts (values : list Z)
| JsonBytes (data : list byte)
| JsonDict (entries : list (string * json)).
#[local] Set Warnings "register-all".

(** Whether Flask's encoder accepts the value: it has no case for a
    [bytes] object and raises [TypeError] on it. *)
Fixpoint serializable (j : json) : bool :=
  match j with
  | JsonText _ | JsonInts _ => true
  | JsonBytes _ => false
  | JsonDict entries => forallb (fun entry => serializable entry.2) entries
  end.

(** What [/keys] answers: the ['key'] entry of a 200 answer, or an error
    status. *)
Inductive key_answer : Type :=
| Key (key : json)
| KeyError (status : Z).

(** What the key utilities return to the route. *)
Inductive key_material : Type :=
| KeyBytes (key : list byte)
| RsaSeed (seed : CryptoUtils.rsa_seed).

(** [generate_random()] for the fields [size_bytes] and [source]: the
    bytes that are then formatted, the simulator and the monitor
    afterwards.  [generation_time] is the measured difference of the two
    clock readings, [anu_reply] the outcome of the ANU generator. *)
Definition generate_random (d : FPGASimulator.draws) (anu_reply : exc (list byte))
    (now : Z) (generation_time : Q) (size_bytes : Z) (source : string)
    (st : FPGASimulator.state) (m : PerformanceMonitor.monitor)
    : GenerateRoutes.response byte * FPGASimulator.state * PerformanceMonitor.monitor :=
  let generated :=
    if String.eqb source "fpga" then
      let r := FPGASimulator.generate_random_bytes d size_bytes st in (Some r.1, r.2)
    else if String.eqb source "anu" then (Some anu_reply, st)
    else (None, st) in
  match generated with
  | (None, st1) => (GenerateRoutes.ErrorStatus 400, st1, m)
  | (Some (Raised _), st1) => (GenerateRoutes.ErrorStatus 500, st1, m)
  | (Some (Ok random_data), st1) =>
      match PerformanceMonitor.py_div (inject_Z (size_bytes * 8))
                                      (generation_time * 1000000) with
      | Raised _ => (GenerateRoutes.ErrorStatus 500, st1, m)
      | Ok throughput_mbps =>
          match PerformanceMonitor.record_generation
                  now size_bytes generation_time source m with
          | (Raised _, m1) => (GenerateRoutes.ErrorStatus 500, st1, m1)
          | (Ok _, m1) => (GenerateRoutes.Results random_data, st1, m1)
          end
      end
  end.

(** The dictionary of [generate_rsa_seed] as [jsonify] sees it.  Its
    entries for the quality assessment and the time stamp hold floats and
    text and are left out. *)
Definition rsa_seed_dict (seed : CryptoUtils.rsa_seed) : json :=
  JsonDict
    ([("seed_p", JsonBytes (CryptoUtils.seed_p seed));
      ("seed_q", JsonBytes (CryptoUtils.seed_q seed));
      ("auxiliary_entropy", JsonBytes (CryptoUtils.auxiliary_entropy seed))]
     ++ match CryptoUtils.algorithm_recommendation seed with
        | Some name => [("algorithm_recommendation", JsonText name)]
        | None => []
        end).

(** Lines 110 to 116: a [bytes] key is written as hex text, base64 text or
    a list of ints; anything else is passed on as it is.  [hex] is
    [bytes.hex], [b64encode] is [base64.b64encode(...).decode('utf-8')]. *)
Definition format_key (hex b64encode : list byte -> string)
    (format_type : string) (key_data : key_material) : json :=
  match key_data with
  | KeyBytes key =>
      if String.eqb format_type "hex" then JsonText (hex key)
      else if String.eqb format_type "base64" then JsonText (b64encode key)
      else JsonInts (map byte_value key)
  | RsaSeed seed => rsa_seed_dict seed
  end.

(** [generate_crypto_keys()] for the fields [key_size_bits], [type] and
    [format]: the answer and the simulator afterwards.  The bytes are
    taken from the simulator before the key type is looked at.  A
    [TypeError] of [jsonify] ends in the [except] clause like every other
    exception. *)
Definition generate_crypto_keys
    (hmac_sha256 : list byte -> list byte -> list byte)
    (hex b64encode : list byte -> string)
    (d : FPGASimulator.draws) (c : FPGAPacing.clock) (os : nat -> nat -> byte)
    (key_size_bits : Z) (key_type format_type : string) (st : FPGASimulator.state)
    : key_answer * FPGASimulator.state :=
  let key_bytes := key_size_bits / 8 in
  match FPGAPacing.generate_random_bytes d c key_bytes st with
  | (Raised _, st1) => (KeyError 500, st1)
  | (Ok random_data, st1) =>
      let key_data :=
        if String.eqb key_type "symmetric" || String.eqb key_type "aes" then
          Some (key ← CryptoUtils.generate_symmetric_key hmac_sha256 os
                        random_data key_size_bits;
                mret (KeyBytes key))
        else if String.eqb key_type "rsa_seed" then
          Some (seed ← CryptoUtils.generate_rsa_seed hmac_sha256 os random_data 64;
                mret (RsaSeed seed))
        else None in
      match key_data with
      | None => (KeyError 400, st1)
      | Some (Raised _) => (KeyError 500, st1)
      | Some (Ok key_data) =>
          let formatted_key := format_key hex b64encode format_type key_data in
          if serializable formatted_key then (Key formatted_key, st1)
          else (KeyError 500, st1)
      end
  end.

End ApiRoutes.

(* ===================================================================== *)
(** * anu_api.py *)
(* ===================================================================== *)

Module ANUQuantumAPI.

Import Builtins.
Local Open Scope string_scope.
Local Open Scope list_scope.
Local Open Scope Z_scope.

(** What a call returns: a value, or an exception that escapes.  The
    module raises and catches plain [Exception]s, whose kind plays no
    role. *)
Inductive outcome (A : Type) : Type :=
| Returned (a : A)
| Failed.
Arguments Returned {A} a.
Arguments Failed {A}.

(** What [session.get] and the decoding of the answer can do. *)
Inductive reply : Type :=
| NoAnswer                       (** [session.get] raises *)
| HttpStatus (status_code : Z)   (** an answer whose status is not 200, or whose
                                     body [response.json()] cannot decode *)
| ApiData (success : bool) (values : list Z).
                                 (** status 200 with the fields [success] and [data] *)

(** The clock readings of one pass through [_single_request], in the
    order in which the code takes them. *)
Record readings : Type := {
  t_start : Q;     (** line 91 *)
  t_lookup : Q;    (** line 163, read when the key is in the cache *)
  t_replied : Q;   (** line 121 *)
  t_stored : Q;    (** line 173 *)
  t_cleanup : Q;   (** line 176 *)
  t_success : Q    (** line 143 *)
}.

(** The attributes of an [ANUQuantumAPI] object that the generation path
    reads or writes.  The cache key [f"random_{size}"] is identified with
    [size].  The ISO time stamp in [stats] is left out. *)
Record api : Type := {
  last_request_time : Q;
  cache : gmap Z (list byte * Q);
  _last_successful_request : option Q;
  total_requests : Z;
  successful_requests : Z;
  failed_requests : Z;
  cache_hits : Z;
  total_bytes_received : Z;
  average_response_time : Q;
  api_status : string
}.

(** [ANUQuantumAPI()] *)
Definition __init__ : api :=
  {| last_request_time := 0;
     cache := ∅;
     _last_successful_request := None;
     total_requests := 0;
     successful_requests := 0;
     failed_requests := 0;
     cache_hits := 0;
     total_bytes_received := 0;
     average_response_time := 0;
     api_status := "unknown" |}.

Definition cache_ttl : Q := 300.

(** [x < y] on floats *)
Definition Qltb (x y : Q) : bool := negb (Qle_bool y x).

Definition set_cache (c : gmap Z (list byte * Q)) (a : api) : api :=
  {| last_request_time := last_request_time a;
     cache := c;
     _last_successful_request := _last_successful_request a;
     total_requests := total_requests a;
     successful_requests := successful_requests a;
     failed_requests := failed_requests a;
     cache_hits := cache_hits a;
     total_bytes_received := total_bytes_received a;
     average_response_time := average_response_time a;
     api_status := api_status a |}.

(** [self.stats['cache_hits'] += 1] *)
Definition count_cache_hit (a : api) : api :=
  {| last_request_time := last_request_time a;
     cache := cache a;
     _last_successful_request := _last_successful_request a;
     total_requests := total_requests a;
     successful_requests := successful_requests a;
     failed_requests := failed_requests a;
     cache_hits := cache_hits a + 1;
     total_bytes_received := total_bytes_received a;
     average_response_time := average_response_time a;
     api_status := api_status a |}.

(** [self.stats['total_requests'] += 1] *)
Definition count_request (a : api) : api :=
  {| last_request_time := last_request_time a;
     cache := cache a;
     _last_successful_request := _last_successful_request a;
     total_requests := total_requests a + 1;
     successful_requests := successful_requests a;
     failed_requests := failed_requests a;
     cache_hits := cache_hits a;
     total_bytes_received := total_bytes_received a;
     average_response_time := average_response_time a;
     api_status := api_status a |}.

(** [self.stats['failed_requests'] += 1] *)
Definition count_failure (a : api) : api :=
  {| last_request_time := last_request_time a;
     cache := cache a;
     _last_successful_request := _last_successful_request a;
     total_requests := total_requests a;
     successful_requests := successful_requests a;
     failed_requests := failed_requests a + 1;
     cache_hits := cache_hits a;
     total_bytes_received := total_bytes_received a;
     average_response_time := average_response_time a;
     api_status := api_status a |}.

(** [self.stats['api_status'] = status] *)
Definition set_api_status (status : string) (a : api) : api :=
  {| last_request_time := last_request_time a;
     cache := cache a;
     _last_successful_request := _last_successful_request a;
     total_requests := total_requests a;
     successful_requests := successful_requests a;
     failed_requests := failed_requests a;
     cache_hits := cache_hits a;
     total_bytes_received := total_bytes_received a;
     average_response_time := average_response_time a;
     api_status := status |}.

(** [self.last_request_time = now] *)
Definition set_last_request_time (now : Q) (a : api) : api :=
  {| last_request_time := now;
     cache := cache a;
     _last_successful_request := _last_successful_request a;
     total_requests := total_requests a;
     successful_requests := successful_requests a;
     failed_requests := failed_requests a;
     cache_hits := cache_hits a;
     total_bytes_received := total_bytes_received a;
     average_response_time := average_response_time a;
     api_status := api_status a |}.

(** Lines 139 to 143: the bookkeeping of a successful request. *)
Definition count_success (received : Z) (now : Q) (a : api) : api :=
  {| last_request_time := last_request_time a;
     cache := cache a;
     _last_successful_request := Some now;
     total_requests := total_requests a;
     successful_requests := successful_requests a + 1;
     failed_requests := failed_requests a;
     cache_hits := cache_hits a;
     total_bytes_received := total_bytes_received a + received;
     average_response_time := average_response_time a;
     api_status := "operational" |}.

(** [_get_cached_data(key)] when the clock reads [now]: an expired entry
    is removed. *)
Definition _get_cached_data (now : Q) (key : Z) (a : api)
    : option (list byte) * api :=
  match cache a !! key with
  | Some (data, timestamp) =>
      if Qltb (now - timestamp) cache_ttl then (Some data, a)
      else (None, set_cache (delete key (cache a)) a)
  | None => (None, a)
  end.

(** [_cache_data(key, data)]: the entry is stored with the reading
    [stored], then every entry that has expired at the reading [cleanup]
    is deleted. *)
Definition _cache_data (stored cleanup : Q) (key : Z) (data : list byte) (a : api)
    : api :=
  let c := <[key := (data, stored)]> (cache a) in
  set_cache (filter (fun entry => Is_true (Qltb (cleanup - entry.2.2) cache_ttl)) c) a.

(** [_update_response_time_stats(response_time)] *)
Definition _update_response_time_stats (response_time : Q) (a : api) : api :=
  let average :=
    if successful_requests a =? 0 then response_time
    else
      let n := inject_Z (successful_requests a) in
      ((average_response_time a * (n - 1) + response_time) / n)%Q in
  {| last_request_time := last_request_time a;
     cache := cache a;
     _last_successful_request := _last_successful_request a;
     total_requests := total_requests a;
     successful_requests := successful_requests a;
     failed_requests := failed_requests a;
     cache_hits := cache_hits a;
     total_bytes_received := total_bytes_received a;
     average_response_time := average;
     api_status := api_status a |}.

(** [bytes(random_values)]: [None] stands for the [ValueError] of a value
    outside [range(256)]. *)
Definition bytes_of_values (values : list Z) : option (list byte) :=
  mapM (fun v => if (0 <=? v) && (v <? 256) then Byte.of_N (Z.to_N v) else None) values.

(** [bool(data)] for a bytes object *)
Definition nonempty (data : list byte) : bool :=
  match data with [] => false | _ :: _ => true end.

(** Lines 152 to 156: the [except] clause of [_single_request]. *)
Definition request_failed {A : Type} (a : api) : outcome A * api :=
  (Failed, set_api_status "error" (count_failure a)).

(** Lines 101 to 150 of [_single_request], with its [except] clause: the
    request to the service and what follows it.  The rate-limiting sleep
    changes nothing in the object. *)
Definition fetch (r : readings) (rp : reply) (cache_key : Z) (a : api)
    : outcome (list byte) * api :=
  let a := count_request a in
  match rp with
  | NoAnswer => request_failed a
  | HttpStatus status_code =>
      let a := set_last_request_time (t_replied r) a in
      let a := _update_response_time_stats (t_replied r - t_start r) a in
      request_failed a
  | ApiData success values =>
      let a := set_last_request_time (t_replied r) a in
      let a := _update_response_time_stats (t_replied r - t_start r) a in
      if success then
        match bytes_of_values values with
        | None => request_failed a
        | Some random_bytes =>
            let a := _cache_data (t_stored r) (t_cleanup r) cache_key random_bytes a in
            (Returned random_bytes,
             count_success (Z.of_nat (length random_bytes)) (t_success r) a)
        end
      else request_failed a
  end.

(** [_single_request(size, timeout)] with the readings [r] and the
    answer [rp] of the service: a cached, non-empty entry is returned
    without a request. *)
Definition _single_request (r : readings) (rp : reply) (size : Z) (a : api)
    : outcome (list byte) * api :=
  let cache_key := size in
  let '(cached_data, a) := _get_cached_data (t_lookup r) cache_key a in
  match cached_data with
  | Some data =>
      if nonempty data then (Returned data, count_cache_hit a)
      else fetch r rp cache_key a
  | None => fetch r rp cache_key a
  end.

(** Lines 70 to 78: the [while remaining > 0] loop.  Every round takes at
    least one byte off [remaining], so [fuel] rounds are enough when
    [remaining <= fuel]. *)
Fixpoint chunk_loop (env : nat -> readings * reply) (fuel : nat) (round : nat)
    (remaining : Z) (result : list byte) (a : api) : outcome (list byte) * api :=
  if remaining >? 0 then
    match fuel with
    | O => (Failed, a)
    | S fuel' =>
        let chunk_size := Z.min remaining 1024 in
        match _single_request (env round).1 (env round).2 chunk_size a with
        | (Returned chunk_data, a1) =>
            chunk_loop env fuel' (S round) (remaining - chunk_size)
                       (result ++ chunk_data) a1
        | (Failed, a1) => (Failed, a1)
        end
    end
  else (Returned result, a).

(** [generate_random_bytes(size)] entered when the clock reads [entered];
    [env k] holds the readings and the answer of the service for the
    [k]-th pass through [_single_request]. *)
Definition generate_random_bytes (entered : Q) (env : nat -> readings * reply)
    (size : Z) (a : api) : outcome (list byte) * api :=
  let cooling :=
    match _last_successful_request a with
    | Some last => Qltb (entered - last) 70
    | None => false
    end in
  let attempt :=
    if cooling then (Failed, a)
    else if size >? 1024 then chunk_loop env (Z.to_nat size) 0 size [] a
    else _single_request (env 0%nat).1 (env 0%nat).2 size a in
  match attempt with
  | (Returned data, a1) => (Returned data, a1)
  | (Failed, a1) => (Failed, count_failure a1)
  end.

End ANUQuantumAPI.

(* ===================================================================== *)
(** * Properties of the debiaser *)
(* ===================================================================== *)

Section Debiaser.

Import Py Numpy FPGASimulator Reference.

(** Induction over a list two elements at a time. *)
Lemma pair_induction {A : Type} (P : list A -> Prop) :
    P [] -> (forall a, P [a]) ->
    (forall a b rest, P rest -> P (a :: b :: rest)) ->
    forall l, P l.
Proof.
    intros Hnil Hone Hstep.
    assert (Hboth : forall l, P l /\ forall a, P (a :: l)).
    { induction l as [|b l [IH1 IH2]]; split; auto. }
    intros l. apply Hboth.
Qed.

Lemma unpack_byte_length (b : byte) : length (unpack_byte b) = 8.
Proof.
    unfold unpack_byte.
    destruct (Byte.to_bits b) as (b0 & b1 & b2 & b3 & b4 & b5 & b6 & b7).
    reflexivity.
Qed.

Lemma unpackbits_length (a : list byte) : length (unpackbits a) = 8 * length a.
Proof.
    unfold unpackbits. induction a as [|b a IH]; [reflexivity|].
    cbn [map concat]. rewrite length_app, unpack_byte_length, IH. cbn [length]. lia.
Qed.


Lemma scan_pairs_length (bits : list bool) :
    2 * length (scan_pairs bits) <= length bits.
Proof.
    induction bits as [| b | b0 b1 rest IH] using pair_induction; cbn [scan_pairs length]; try lia.
    destruct b0, b1; cbn [length]; lia.
Qed.

(** The [while] loop over indices computes the pair scan of what lies at
    and after index [i], appended to what was emitted before. *)
Lemma von_neumann_loop_scan (bits : list bool) (i : nat) (emitted : list bool) :
    von_neumann_loop bits i emitted = emitted ++ scan_pairs (drop i bits).
Proof.
    funelim (von_neumann_loop bits i emitted).
    - match goal with IH : von_neumann_loop _ _ _ = _ ++ _ |- _ => rewrite IH end.
      pose proof (proj1 (Z.ltb_lt _ _) Hlt) as Hi.
      destruct (lookup_lt_is_Some_2 bits i ltac:(lia)) as [b0 Hb0].
      destruct (lookup_lt_is_Some_2 bits (i + 1) ltac:(lia)) as [b1 Hb1].
      rewrite Hb0, Hb1. cbn [default from_option id].
      rewrite (drop_S bits b0 i Hb0).
      rewrite (drop_S bits b1 (S i)) by (rewrite <- Hb1; f_equal; lia).
      replace (i + 2) with (S (S i)) by lia.
      cbn [scan_pairs].
      destruct b0, b1; rewrite <- ?app_assoc; reflexivity.
    - match goal with
      | Hge : (_ <? _)%Z = false |- _ => pose proof (proj1 (Z.ltb_ge _ _) Hge) as Hi
      end.
      assert (Hlen : length (drop i bits) <= 1) by (rewrite length_drop; lia).
      destruct (drop i bits) as [|b [|b' rest]]; cbn [length] in Hlen; try lia;
        cbn [scan_pairs]; rewrite app_nil_r; reflexivity.
Qed.

(** The padding loop pads to the next multiple of 8. *)
Lemma pad_loop_pads (bits : list bool) :
    pad_loop bits = pad_to_byte_boundary bits.
Proof.
    unfold pad_to_byte_boundary.
    funelim (pad_loop bits).
    - match goal with
      | Hz : (_ =? 0) = true |- _ => rewrite (proj1 (Nat.eqb_eq _ _) Hz)
      end.
      cbn. rewrite app_nil_r. reflexivity.
    - match goal with IH : pad_loop _ = _ ++ replicate _ _ |- _ => rewrite IH end.
      pose proof (proj1 (Nat.eqb_neq _ _) Hne) as Hnz.
      rewrite length_app. cbn [length].
      pose proof (Nat.mod_upper_bound (length debiased_bits) 8 ltac:(lia)) as Hr.
      rewrite (Nat.Div0.add_mod (length debiased_bits) 1 8).
      remember (length debiased_bits mod 8) as r.
      assert (Hcases : r = 1 \/ r = 2 \/ r = 3 \/ r = 4 \/ r = 5 \/ r = 6 \/ r = 7) by lia.
      rewrite <- app_assoc. f_equal.
      clear -Hcases.
      destruct Hcases as [->|[->|[->|[->|[->|[->| ->]]]]]]; reflexivity.
Qed.

Lemma pad_to_byte_boundary_length (bits : list bool) :
    length (pad_to_byte_boundary bits) = 8 * ((length bits + 7) / 8).
Proof.
    unfold pad_to_byte_boundary. rewrite length_app, length_replicate.
    pose proof (Nat.div_mod_eq (length bits) 8) as Hdm.
    pose proof (Nat.mod_upper_bound (length bits) 8 ltac:(lia)) as Hr.
    remember (length bits / 8) as q. remember (length bits mod 8) as r.
    rewrite Hdm.
    destruct (Nat.eq_dec r 0) as [->|Hr0].
    - replace (8 * q + 0 + 7) with (7 + q * 8) by lia.
      rewrite Nat.div_add by lia. cbn. lia.
    - replace (8 * q + r + 7) with ((r - 1) + (q + 1) * 8) by lia.
      rewrite Nat.div_add by lia.
      rewrite (Nat.div_small (r - 1) 8) by lia.
      rewrite (Nat.mod_small (8 - r) 8) by lia. lia.
Qed.

Lemma pack_groups_length (n : nat) (bits : list bool) :
    length (pack_groups n bits) = n.
Proof.
    revert bits. induction n as [|n IH]; intros bits; cbn [pack_groups length]; auto.
Qed.

Lemma packbits_length (bits : list bool) :
    length (packbits bits) = (length bits + 7) / 8.
Proof. apply pack_groups_length. Qed.




(** What [_apply_debiasing] computes, with its loops resolved. *)
Lemma _apply_debiasing_unfold (data : list byte) :
    _apply_debiasing data =
    match scan_pairs (unpackbits data) with
    | [] => take (length data / 2) data
    | emitted => packbits (pad_to_byte_boundary emitted)
    end.
Proof.
    unfold _apply_debiasing, _apply_debiasing_body, try_except, frombuffer, tobytes.
    rewrite von_neumann_loop_scan, drop_0, app_nil_l, pad_loop_pads.
    destruct (scan_pairs (unpackbits data)) as [|b emitted]; reflexivity.
Qed.

Lemma _apply_debiasing_length (data : list byte) :
    length (_apply_debiasing data) =
    match length (scan_pairs (unpackbits data)) with
    | 0 => length data / 2
    | S e => (S e + 7) / 8
    end.
Proof.
    rewrite _apply_debiasing_unfold.
    destruct (scan_pairs (unpackbits data)) as [|b emitted].
    - cbn [length]. rewrite length_take.
      pose proof (Nat.Div0.div_le_upper_bound (length data) 2 (length data)). lia.
    - rewrite packbits_length, pad_to_byte_boundary_length.
      replace (8 * ((length (b :: emitted) + 7) / 8) + 7)
        with (7 + ((length (b :: emitted) + 7) / 8) * 8) by lia.
      rewrite Nat.div_add by lia. reflexivity.
Qed.

(** The scan emits at most four bits per input byte. *)
Lemma emitted_bound (data : list byte) :
    length (scan_pairs (unpackbits data)) <= 4 * length data.
Proof.
    pose proof (scan_pairs_length (unpackbits data)) as H.
    rewrite unpackbits_length in H. lia.
Qed.

(** The embedding on small inputs.  [0x40 0x9c] is [01000000 10011100]:
    the pairs 01, 10 and 01 emit 0, 1, 0, padded to [01000000]. *)
Example unpackbits_two_bytes :
  unpackbits [x01; x80] =
  [false; false; false; false; false; false; false; true;
   true; false; false; false; false; false; false; false].
Proof. reflexivity. Qed.

Example von_neumann_loop_two_bytes :
  von_neumann_loop (unpackbits [x40; x9c]) 0 [] = [false; true; false].
Proof. vm_compute. reflexivity. Qed.

Example _apply_debiasing_two_bytes : _apply_debiasing [x40; x9c] = [x40].
Proof. vm_compute. reflexivity. Qed.

Example _apply_debiasing_whole_byte :
  _apply_debiasing [x55; xaa; x55; xaa] = [x0f; x0f].
Proof. vm_compute. reflexivity. Qed.

Example _apply_debiasing_empty : _apply_debiasing [] = [].
Proof. vm_compute. reflexivity. Qed.



(** The value returned by [_apply_debiasing] is at most as long as its
    input. *)
Lemma _apply_debiasing_le (data : list byte) :
  length (_apply_debiasing data) <= length data.
Proof.
  rewrite _apply_debiasing_length.
  pose proof (emitted_bound data) as Hb.
  destruct (length (scan_pairs (unpackbits data))) as [|e].
  - apply Nat.Div0.div_le_upper_bound. lia.
  - assert ((S e + 7) / 8 < S (length data)); [|lia].
    apply Nat.Div0.div_lt_upper_bound. lia.
Qed.

(** C5.  Debiasing never expands its input: the value returned by
    [_apply_debiasing] is at most as long as [data], and so is what the
    [except] clause would return for any exception. *)
Theorem debias_never_expands (data : list byte) :
  length (_apply_debiasing data) <= length data /\
  forall e r, _apply_debiasing_handler data e = Ok r -> length r <= length data.
Proof.
  split.
  - apply _apply_debiasing_le.
  - intros e r Hr. injection Hr as <-. lia.
Qed.

(** C6.  When the scan emits no bit, [_apply_debiasing] returns the first
    [len(data) // 2] bytes of its input, unchanged. *)
Theorem debias_degenerate_returns_first_half (data : list byte) :
    von_neumann_loop (unpackbits (frombuffer data)) 0 [] = [] ->
    _apply_debiasing data = take (length data / 2) data.
Proof.
    intros Hnone.
    rewrite von_neumann_loop_scan, drop_0, app_nil_l in Hnone.
    unfold frombuffer in Hnone.
    rewrite _apply_debiasing_unfold, Hnone. reflexivity.
Qed.

Lemma debias_degenerate_returns_first_half_witness :
    _apply_debiasing [x00; xff; xc3; x3c] = [x00; xff].
Proof.
    apply (debias_degenerate_returns_first_half [x00; xff; xc3; x3c]).
    vm_compute. reflexivity.
Defined.

End Debiaser.

(* ===================================================================== *)
(** * Properties of the noise source and the entropy buffer *)
(* ===================================================================== *)

Section EntropyBuffer.

Import Py Numpy FPGASimulator Reference Scenarios.

Lemma token_bytes_length (stream : nat -> byte) (size : Z) (r : list byte) :
  token_bytes stream size = Ok r -> length r = Z.to_nat size.
Proof.
  unfold token_bytes. destruct (size <? 0)%Z; [discriminate|].
  destruct (sys_maxsize <? size)%Z; [discriminate|].
  intros [= <-]. rewrite length_map, length_seq. reflexivity.
Qed.

Lemma quantum_data_length (d : draws) (size : Z) :
  length (quantum_data d size) = Z.to_nat size.
Proof. unfold quantum_data. rewrite length_imap, length_map, length_seq. reflexivity. Qed.

(** The regular path of [_generate_quantum_noise]. *)
Lemma _generate_quantum_noise_regular (d : draws) (size : Z) :
  (0 <= size <= sys_maxsize)%Z -> sampling_raises d = false ->
  _generate_quantum_noise d size = Ok (_apply_debiasing (quantum_data d size)).
Proof.
  intros Hsize Hok.
  unfold _generate_quantum_noise, token_bytes, perturb, quantum_data, frombuffer, tobytes.
  destruct (size <? 0)%Z eqn:Hneg; [apply Z.ltb_lt in Hneg; lia|].
  destruct (sys_maxsize <? size)%Z eqn:Hbig; [apply Z.ltb_lt in Hbig; lia|].
  cbn [mbind exc_bind try_except]. rewrite Hok. reflexivity.
Qed.

(** Whatever the draws, the noise source returns at most [size] bytes. *)
Lemma _generate_quantum_noise_length (d : draws) (size : Z) (r : list byte) :
  _generate_quantum_noise d size = Ok r -> length r <= Z.to_nat size.
Proof.
  unfold _generate_quantum_noise, perturb, frombuffer, tobytes.
  destruct (token_bytes (base_random d) size) as [base|e] eqn:Hbase;
    cbn [mbind exc_bind try_except].
  - destruct (sampling_raises d); cbn [mbind exc_bind try_except mret exc_ret].
    + intros Hr. apply token_bytes_length in Hr. lia.
    + intros [= <-].
      pose proof (_apply_debiasing_le (imap (quantum_byte d) base)) as Hle.
      rewrite length_imap in Hle. apply token_bytes_length in Hbase. lia.
  - intros Hr. apply token_bytes_length in Hr. lia.
Qed.

Lemma target_divisor_nonzero (target : Q) :
  ~ (target == 0)%Q -> Qeq_bool (target * 1000000) 0 = false.
Proof.
  intros Hne. destruct (Qeq_bool (target * 1000000) 0) eqn:Heq; [|reflexivity].
  apply Qeq_bool_iff in Heq. apply Qmult_integral in Heq.
  destruct Heq as [Heq|Heq]; [contradiction | discriminate].
Qed.

Example slice_to_examples :
  slice_to [x01; x02; x03] 2 = [x01; x02] /\
  slice_to [x01; x02; x03] 5 = [x01; x02; x03] /\
  slice_to [x01; x02; x03] (-1) = [x01; x02] /\
  del_slice_to [x01; x02; x03] 2 = [x03].
Proof. repeat split. Qed.

(** C1.  On the on-demand path the result is the debiased noise, which is
    shorter than the request: for every request of at least two bytes that
    the buffer cannot serve (and with the samplers and the pacing division
    not raising), [generate_random_bytes(size)] returns fewer than [size]
    bytes, where the specification asks for exactly [size]. *)
Theorem generate_random_bytes_short_on_fallback (d : draws) (size : Z) (st : state) :
  (2 <= size <= sys_maxsize)%Z ->
  (Z.of_nat (length (random_buffer st)) < size)%Z ->
  sampling_raises d = false ->
  ~ (target_throughput_mbps st == 0)%Q ->
  exists result,
    (generate_random_bytes d size st).1 = Ok result /\
    (Z.of_nat (length result) < size)%Z.
Proof.
  intros Hsize Hmiss Hsampling Htarget.
  exists (_apply_debiasing (quantum_data d size)). split.
  - unfold generate_random_bytes.
    destruct (size <=? Z.of_nat (length (random_buffer st)))%Z eqn:Hhit;
      [apply Z.leb_le in Hhit; lia|].
    rewrite _generate_quantum_noise_regular by (assumption || lia).
    unfold expected_time. cbn [target_throughput_mbps update_statistics].
    rewrite (target_divisor_nonzero _ Htarget). reflexivity.
  - rewrite _apply_debiasing_length.
    pose proof (emitted_bound (quantum_data d size)) as Hbound.
    rewrite quantum_data_length in *.
    destruct (length (scan_pairs (unpackbits (quantum_data d size)))) as [|e].
    + assert (Z.to_nat size / 2 < Z.to_nat size); [|lia].
      apply Nat.Div0.div_lt_upper_bound. lia.
    + assert ((S e + 7) / 8 < Z.to_nat size); [|lia].
      apply Nat.Div0.div_lt_upper_bound. lia.
Qed.

Lemma generate_random_bytes_short_on_fallback_witness :
  exists result,
    (generate_random_bytes zero_draws 2 (__init__ 50)).1 = Ok result /\
    (Z.of_nat (length result) < 2)%Z.
Proof.
  apply (generate_random_bytes_short_on_fallback zero_draws 2 (__init__ 50)).
  - unfold sys_maxsize. lia.
  - cbn. lia.
  - reflexivity.
  - cbn. discriminate.
Defined.

(** A request that the buffer can serve takes its first bytes, in order. *)
Example generate_random_bytes_hit :
  generate_random_bytes zero_draws 2
    (set_random_buffer [x0a; x0b; x0c] (__init__ 50)) =
  (Ok [x0a; x0b],
   update_statistics 2 (set_random_buffer [x0c] (__init__ 50))).
Proof. reflexivity. Qed.

(** On an empty buffer a request for two bytes returns one. *)
Example generate_random_bytes_miss :
  (generate_random_bytes zero_draws 2 (__init__ 50)).1 = Ok [x00].
Proof. vm_compute. reflexivity. Qed.

(** C8.  A call that the buffer cannot serve leaves the buffer contents as
    they were. *)
Theorem generate_random_bytes_miss_keeps_buffer (d : draws) (size : Z) (st : state) :
  (Z.of_nat (length (random_buffer st)) < size)%Z ->
  random_buffer (generate_random_bytes d size st).2 = random_buffer st.
Proof.
  intros Hmiss. unfold generate_random_bytes.
  destruct (size <=? Z.of_nat (length (random_buffer st)))%Z eqn:Hhit;
    [apply Z.leb_le in Hhit; lia|].
  destruct (_generate_quantum_noise d size) as [result|e]; [|reflexivity].
  destruct (expected_time size (update_statistics size st)); reflexivity.
Qed.

Lemma generate_random_bytes_miss_keeps_buffer_witness :
  random_buffer
    (generate_random_bytes zero_draws 3
       (set_random_buffer [x01; x02] (__init__ 50))).2 = [x01; x02].
Proof.
  apply (generate_random_bytes_miss_keeps_buffer zero_draws 3
           (set_random_buffer [x01; x02] (__init__ 50))).
  cbn. lia.
Defined.

(** [generate_random_bytes] only ever removes bytes from the buffer. *)
Lemma generate_random_bytes_buffer (d : draws) (size : Z) (st : state) :
  buffer_size (generate_random_bytes d size st).2 = buffer_size st /\
  length (random_buffer (generate_random_bytes d size st).2) <= length (random_buffer st).
Proof.
  unfold generate_random_bytes.
  destruct (size <=? Z.of_nat (length (random_buffer st)))%Z.
  - destruct (expected_time size _);
      cbn [snd random_buffer buffer_size update_statistics set_random_buffer];
      unfold del_slice_to; rewrite length_drop; split; (reflexivity || lia).
  - destruct (_generate_quantum_noise d size) as [result|e].
    + destruct (expected_time size _); cbn; split; (reflexivity || lia).
    + cbn. split; (reflexivity || lia).
Qed.

(** The producer appends a whole chunk whenever the level is below the
    capacity, so the level stays below capacity plus one chunk. *)
Lemma step_soft_bound (st st' : state) :
  step st st' ->
  buffer_size st = (1024 * 1024)%Z /\
    (Z.of_nat (length (random_buffer st)) <= buffer_size st + 1023)%Z ->
  buffer_size st' = (1024 * 1024)%Z /\
    (Z.of_nat (length (random_buffer st')) <= buffer_size st' + 1023)%Z.
Proof.
  intros Hstep [Hcap Hlevel].
  destruct Hstep as [d st Hrun | d size st | mbps st | st | st].
  - unfold buffer_worker_iteration.
    destruct (Z.of_nat (length (random_buffer st)) <? buffer_size st)%Z eqn:Hbelow;
      [|split; assumption].
    apply Z.ltb_lt in Hbelow.
    destruct (_generate_quantum_noise d 1024) as [new_data|e] eqn:Hnoise;
      [|split; assumption].
    apply _generate_quantum_noise_length in Hnoise.
    cbn [buffer_size random_buffer set_random_buffer].
    rewrite length_app. split; [assumption|].
    change (Z.to_nat 1024) with (Pos.to_nat 1024) in Hnoise. lia.
  - destruct (generate_random_bytes_buffer d size st) as [Hsame Hle].
    rewrite Hsame. split; [assumption | lia].
  - split; assumption.
  - split; assumption.
  - split; assumption.
Qed.

(** C3, as the code has it.  In every reachable state the fill level is at
    most [buffer_size + 1023]: the producer appends a whole chunk of up to
    1024 bytes whenever the level is below [buffer_size], and
    [generate_random_bytes] only removes bytes. *)
Theorem fill_level_below_capacity_plus_chunk (target : Q) (st : state) :
  reachable target st ->
  (Z.of_nat (length (random_buffer st)) <= buffer_size st + 1023)%Z.
Proof.
  intros Hreach.
  enough (buffer_size st = (1024 * 1024)%Z /\
          (Z.of_nat (length (random_buffer st)) <= buffer_size st + 1023)%Z) by tauto.
  unfold reachable in Hreach.
  refine (rtc_ind_r
            (fun s => buffer_size s = (1024 * 1024)%Z /\
                      (Z.of_nat (length (random_buffer s)) <= buffer_size s + 1023)%Z)
            (__init__ target) _ _ st Hreach).
  - cbn. split; [reflexivity | lia].
  - intros st1 st2 _ Hstep IH. exact (step_soft_bound st1 st2 Hstep IH).
Qed.

Lemma fill_level_below_capacity_plus_chunk_witness :
  (Z.of_nat (length (random_buffer (buffer_worker_iteration zero_draws (__init__ 50))))
   <= buffer_size (buffer_worker_iteration zero_draws (__init__ 50)) + 1023)%Z.
Proof.
  apply (fill_level_below_capacity_plus_chunk 50).
  unfold reachable. eapply rtc_l; [|apply rtc_refl].
  apply step_buffer_worker. reflexivity.
Defined.

(** A chunk of the producer, by the number of bits its scan emits. *)
Lemma chunk_length (d : draws) :
  sampling_raises d = false ->
  exists chunk,
    _generate_quantum_noise d 1024 = Ok chunk /\
    length chunk =
    match length (scan_pairs (unpackbits (quantum_data d 1024))) with
    | 0 => length (quantum_data d 1024) / 2
    | S e => (S e + 7) / 8
    end.
Proof.
  intros Hok. exists (_apply_debiasing (quantum_data d 1024)). split.
  - apply _generate_quantum_noise_regular; [unfold sys_maxsize; lia | assumption].
  - apply _apply_debiasing_length.
Qed.

Lemma one_bit_chunk :
  exists chunk, _generate_quantum_noise one_bit_draws 1024 = Ok chunk /\ length chunk = 1.
Proof.
  destruct (chunk_length one_bit_draws eq_refl) as (chunk & Hchunk & Hlen).
  exists chunk. split; [assumption|]. rewrite Hlen. vm_compute. reflexivity.
Qed.

Lemma zero_chunk :
  exists chunk, _generate_quantum_noise zero_draws 1024 = Ok chunk /\ length chunk = 512.
Proof.
  destruct (chunk_length zero_draws eq_refl) as (chunk & Hchunk & Hlen).
  exists chunk. split; [assumption|]. rewrite Hlen. vm_compute. reflexivity.
Qed.

Lemma producer_run_level (k : nat) :
  k <= 2048 ->
  reachable 50 (producer_run k) /\
  is_running (producer_run k) = true /\
  buffer_size (producer_run k) = (1024 * 1024)%Z /\
  Z.of_nat (length (random_buffer (producer_run k))) = (1 + 512 * Z.of_nat k)%Z.
Proof.
  induction k as [|k IH]; intros Hk.
  - unfold producer_run. cbn [Nat.iter nat_rect].
    destruct one_bit_chunk as (chunk & Hchunk & Hlen).
    assert (Hstate : buffer_worker_iteration one_bit_draws (__init__ 50) =
                     set_random_buffer chunk (__init__ 50)).
    { unfold buffer_worker_iteration. rewrite Hchunk. reflexivity. }
    split; [|rewrite Hstate; cbn [is_running buffer_size random_buffer set_random_buffer __init__];
             rewrite Hlen; repeat split; reflexivity].
    unfold reachable. eapply rtc_l; [|apply rtc_refl].
    apply step_buffer_worker. reflexivity.
  - destruct (IH ltac:(lia)) as (Hreach & Hrun & Hcap & Hlevel).
    unfold producer_run in *. rewrite Nat.iter_succ.
    set (st := Nat.iter k (buffer_worker_iteration zero_draws)
                 (buffer_worker_iteration one_bit_draws (__init__ 50))) in *.
    destruct zero_chunk as (chunk & Hchunk & Hlen).
    assert (Hstate : buffer_worker_iteration zero_draws st =
                     set_random_buffer (random_buffer st ++ chunk) st).
    { unfold buffer_worker_iteration. rewrite Hchunk.
      destruct (Z.of_nat (length (random_buffer st)) <? buffer_size st)%Z eqn:Hbelow;
        [reflexivity|].
      apply Z.ltb_ge in Hbelow. lia. }
    split; [|rewrite Hstate; cbn [is_running buffer_size random_buffer set_random_buffer];
             rewrite length_app, Hlen; repeat split; (assumption || lia)].
    unfold reachable in *. eapply rtc_r; [exact Hreach|].
    apply step_buffer_worker. assumption.
Qed.

(** C3 as the specification states it fails: after 2049 iterations of the
    producer a freshly constructed simulator holds 1048577 bytes, one more
    than [buffer_size]. *)
Lemma fill_level_exceeds_capacity :
  reachable 50 (producer_run 2048) /\
  (buffer_size (producer_run 2048) < Z.of_nat (length (random_buffer (producer_run 2048))))%Z.
Proof.
  destruct (producer_run_level 2048 (le_n _)) as (Hreach & _ & Hcap & Hlevel).
  split; [assumption|]. rewrite Hcap, Hlevel. lia.
Qed.

End EntropyBuffer.

(* ===================================================================== *)
(** * Properties of the validation suite *)
(* ===================================================================== *)

Section ValidationSuite.

Import Py Numpy QuantumRandomGenerator Reference Scenarios.
Local Open Scope string_scope.
Local Open Scope nat_scope.

Lemma run_tests_entries
    (ft rt ct et : list byte -> list (string * pyval))
    (cc : list byte -> list byte -> float) (data : list byte) :
  run_tests ft rt ct et cc data =
  [("frequency_test", PyDict (ft data));
   ("runs_test", PyDict (rt data));
   ("chi_square_test", PyDict (ct data));
   ("entropy", PyDict (et data));
   ("serial_correlation", PyDict (_serial_correlation_test cc data))].
Proof. reflexivity. Qed.

(** Fewer than two bytes: the correlation test reports an error marker. *)
Lemma _serial_correlation_test_short
    (cc : list byte -> list byte -> float) (data : list byte) :
  length data < 2 ->
  is_error_marker (PyDict (_serial_correlation_test cc data)) = true.
Proof.
  intros Hshort. unfold _serial_correlation_test.
  destruct (length data <? 2) eqn:Hlt; [reflexivity|].
  apply Nat.ltb_ge in Hlt. lia.
Qed.

(** The aggregate of five dict results, by which of them count as passed. *)
Lemma overall_quality_five (n1 n2 n3 n4 n5 : string) (d1 d2 d3 d4 d5 : list (string * pyval)) :
  let o := overall_quality
             [(n1, PyDict d1); (n2, PyDict d2); (n3, PyDict d3); (n4, PyDict d4);
              (n5, PyDict d5)] in
  total_tests o = 5%Z /\
  quality_score o =
    PyFloat (PrimFloat.div (float_of_int (passed_tests o)) (float_of_int 5)) /\
  assessment o =
    assessment_of_score (PrimFloat.div (float_of_int (passed_tests o)) (float_of_int 5)).
Proof.
  unfold overall_quality, dict_values.
  cbn [map snd List.filter isinstance_dict length total_tests passed_tests
       quality_score assessment].
  destruct (counts_as_passed (PyDict d1)), (counts_as_passed (PyDict d2)),
           (counts_as_passed (PyDict d3)), (counts_as_passed (PyDict d4)),
           (counts_as_passed (PyDict d5));
    cbv zeta; repeat split; vm_compute; reflexivity.
Qed.

(** C2, as the code has it.  Every sub-test result is a dict, an error
    marker included, so the denominator is always five: [quality_score] is
    [passed_tests / 5], an errored sub-test counting as not passed; the
    label is GOOD when that score is at least 0.8, FAIR when at least 0.6,
    POOR otherwise. *)
Theorem quality_score_counts_all_five_tests
    (ft rt ct et : list byte -> list (string * pyval))
    (cc : list byte -> list byte -> float) (data : list byte) :
  let o := validate_randomness ft rt ct et cc data in
  total_tests o = 5%Z /\
  quality_score o =
    PyFloat (PrimFloat.div (float_of_int (passed_tests o)) (float_of_int 5)) /\
  assessment o =
    assessment_of_score (PrimFloat.div (float_of_int (passed_tests o)) (float_of_int 5)).
Proof.
  unfold validate_randomness. rewrite run_tests_entries. apply overall_quality_five.
Qed.

(** C2 as the specification states it fails: on the report of a one-byte
    input the correlation test is an error marker, four sub-tests are valid
    and two of them pass, yet the score is 2/5 and not 2/4. *)
Lemma quality_score_keeps_errored_test :
  is_error_marker (dict_get single_byte_report "serial_correlation" PyNone) = true /\
  passed_tests (overall_quality single_byte_report) = 2%Z /\
  valid_tests single_byte_report = 4%Z /\
  quality_score (overall_quality single_byte_report) <>
    PyFloat (PrimFloat.div
               (float_of_int (passed_tests (overall_quality single_byte_report)))
               (float_of_int (valid_tests single_byte_report))).
Proof.
  repeat split; try (vm_compute; reflexivity).
  intros Heq.
  apply (f_equal (fun v => match v with
                           | PyFloat f => PrimFloat.ltb f f0_5
                           | _ => false
                           end)) in Heq.
  vm_compute in Heq. discriminate.
Qed.

(** C10.  For the empty byte string no operation of [get_quality_metrics]
    raises, so the [except] clause is not reached: the divisions by the
    zero length give NaN, and the value returned is
    [{entropy: -0.0, ones_ratio: nan, uniformity_score: nan}], which is not
    the fallback [{entropy: 0.0, ones_ratio: 0.5, uniformity_score: 0.0}]. *)
Theorem get_quality_metrics_empty_is_nan (log2 : float -> float) :
  get_quality_metrics log2 [] =
    Ok {| entropy := (-0)%float; ones_ratio := nan; uniformity_score := nan |} /\
  get_quality_metrics log2 [] <> Ok quality_fallback.
Proof.
  assert (Hval : get_quality_metrics log2 [] =
                 Ok {| entropy := (-0)%float; ones_ratio := nan; uniformity_score := nan |})
    by (vm_compute; reflexivity).
  split; [exact Hval|].
  rewrite Hval. intros Heq.
  apply (f_equal (fun r => match r with
                           | Ok m => PrimFloat.is_nan (ones_ratio m)
                           | Raised _ => false
                           end)) in Heq.
  vm_compute in Heq. discriminate.
Qed.

End ValidationSuite.

(* ===================================================================== *)
(** * Properties of the metrics aggregator *)
(* ===================================================================== *)

Section MetricsAggregator.

Import Py PerformanceMonitor Reference.
Local Open Scope Q_scope.

Lemma is_positive_true (x : Q) : is_positive x = true -> 0 < x.
Proof.
  unfold is_positive. destruct (Qle_bool x 0) eqn:Hle; [discriminate|]. intros _.
  apply Qnot_le_lt. intros Hx. apply Qle_bool_iff in Hx. congruence.
Qed.

Lemma is_positive_false (x : Q) : x <= 0 -> is_positive x = false.
Proof.
  intros Hx. unfold is_positive. apply Qle_bool_iff in Hx. rewrite Hx. reflexivity.
Qed.

(** A positive number of seconds scaled to microseconds is a divisor that
    [py_div] accepts. *)
Lemma py_div_positive (a x : Q) :
  is_positive x = true -> py_div a (x * 1000000) = Ok (a / (x * 1000000)).
Proof.
  intros Hpos. apply is_positive_true in Hpos. unfold py_div.
  destruct (Qeq_bool (x * 1000000) 0) eqn:Heq; [|reflexivity].
  apply Qeq_bool_iff in Heq. apply Qmult_integral in Heq.
  destruct Heq as [Heq|Heq]; [|discriminate].
  rewrite Heq in Hpos. exfalso. exact (Qlt_irrefl 0 Hpos).
Qed.

(** Line 93 never raises, and gives what [event_of] records. *)
Lemma compute_throughput_ok (now size : Z) (t : Q) (src : string) :
  compute_throughput size t = Ok (throughput_mbps (event_of (now, size, t, src))).
Proof.
  unfold compute_throughput, event_of. cbn [throughput_mbps].
  destruct (is_positive t) eqn:Hpos; [|reflexivity].
  apply py_div_positive. assumption.
Qed.

Lemma refresh_average_ok (st : SourceStats) :
  exists st',
    refresh_average st = Ok st' /\
    requests st' = requests st /\
    bytes_generated st' = bytes_generated st /\
    total_time st' = total_time st.
Proof.
  unfold refresh_average.
  destruct (is_positive (total_time st)) eqn:Hpos.
  - rewrite (py_div_positive _ _ Hpos). cbn [mbind exc_bind mret exc_ret].
    eexists. split; [reflexivity|]. cbn. repeat split.
  - exists st. cbn [mret exc_ret]. repeat split.
Qed.

(** What one call of [record_generation] does to the monitor. *)
Lemma record_generation_effect (now size : Z) (t : Q) (src : string) (m : monitor) :
  let ev := event_of (now, size, t, src) in
  exists m',
    record_generation now size t src m = (Ok tt, m') /\
    history_size m' = history_size m /\
    generation_history m' = deque_append (history_size m) ev (generation_history m) /\
    throughput_history m' =
      deque_append (history_size m) (throughput_mbps ev) (throughput_history m) /\
    latency_history m' = deque_append (history_size m) (t * 1000) (latency_history m) /\
    total_requests m' = (total_requests m + 1)%Z /\
    total_bytes_generated m' = (total_bytes_generated m + size)%Z /\
    requests <$> (source_stats m' !! src) =
      Some (requests (default default_source_stats (source_stats m !! src)) + 1)%Z.
Proof.
  intros ev. unfold record_generation.
  rewrite (compute_throughput_ok now size t src).
  change (event_of (now, size, t, src)) with ev.
  set (stats := add_request size t
                  (default default_source_stats
                     (source_stats
                        (append_histories
                           {| timestamp := now; size_bytes := size; generation_time := t;
                              throughput_mbps := throughput_mbps ev; source := src |} m)
                      !! src))).
  destruct (refresh_average_ok stats) as (stats' & Hrefresh & Hreq & _ & _).
  rewrite Hrefresh. eexists. split; [reflexivity|].
  cbn [history_size generation_history throughput_history latency_history
       total_requests total_bytes_generated source_stats
       count_request set_source_stats append_histories].
  repeat split.
  rewrite lookup_insert_eq. cbn [fmap option_fmap option_map]. rewrite Hreq. reflexivity.
Qed.

(** An append to a non-empty-capacity deque puts the element at the right
    end. *)
Lemma deque_append_last {A : Type} (maxlen : nat) (x : A) (q : list A) :
  (0 < maxlen)%nat -> last (deque_append maxlen x q) = Some x.
Proof.
  intros Hpos. unfold deque_append.
  destruct (maxlen <? length (q ++ [x]))%nat eqn:Hfull.
  - destruct q as [|y q]; [|cbn [app drop]; rewrite drop_0; apply last_snoc].
    apply Nat.ltb_lt in Hfull. cbn in Hfull. lia.
  - apply last_snoc.
Qed.

(** Within the float range the conversions of line 93 and of lines 115
    to 118 return, and the call is the one described by
    [PerformanceMonitor.record_generation]. *)
Lemma record_generation_in_range (now size : Z) (t : Q) (src : string) (m : monitor) :
  MonitorOverflow.within_range size src m = true ->
  MonitorOverflow.record_generation now size t src m = record_generation now size t src m.
Proof.
  unfold MonitorOverflow.within_range. intros Hrange.
  apply andb_prop in Hrange as [Hsize Htotal].
  unfold MonitorOverflow.record_generation, record_generation.
  assert (Hthroughput : MonitorOverflow.compute_throughput size t = compute_throughput size t).
  { unfold MonitorOverflow.compute_throughput, compute_throughput,
      FloatRange.int_truediv_float, py_div.
    rewrite Hsize. reflexivity. }
  rewrite Hthroughput.
  destruct (compute_throughput size t) as [throughput|e]; [|reflexivity].
  cbn [source_stats append_histories].
  set (stats := add_request size t (default default_source_stats (source_stats m !! src))).
  assert (Haverage : MonitorOverflow.refresh_average stats = refresh_average stats).
  { unfold MonitorOverflow.refresh_average, refresh_average,
      FloatRange.int_truediv_float, py_div.
    assert (Hbytes : bytes_generated stats =
                     (bytes_generated (default default_source_stats (source_stats m !! src))
                      + size)%Z) by reflexivity.
    rewrite Hbytes, Htotal. reflexivity. }
  rewrite Haverage. reflexivity.
Qed.

(** C9, amended.  [record_generation] returns normally for every duration
    and source label and for every size such that [size_bytes * 8] and the
    per-source byte total times 8 convert to a float.  The event is then
    appended to the three histories and counted in the global and
    per-source counters, and a duration that is not positive is recorded
    with throughput 0. *)
Theorem record_generation_returns_within_float_range
    (now size : Z) (t : Q) (src : string) (m : monitor) :
  MonitorOverflow.within_range size src m = true ->
  exists (ev : GenerationEvent) (m' : monitor),
    MonitorOverflow.record_generation now size t src m = (Ok tt, m') /\
    (timestamp ev = now /\ size_bytes ev = size /\ generation_time ev = t /\
     source ev = src) /\
    (t <= 0 -> throughput_mbps ev = 0) /\
    generation_history m' = deque_append (history_size m) ev (generation_history m) /\
    throughput_history m' =
      deque_append (history_size m) (throughput_mbps ev) (throughput_history m) /\
    latency_history m' = deque_append (history_size m) (t * 1000) (latency_history m) /\
    ((0 < history_size m)%nat ->
     last (generation_history m') = Some ev /\
     last (throughput_history m') = Some (throughput_mbps ev) /\
     last (latency_history m') = Some (t * 1000)) /\
    total_requests m' = (total_requests m + 1)%Z /\
    total_bytes_generated m' = (total_bytes_generated m + size)%Z /\
    requests <$> (source_stats m' !! src) =
      Some (requests (default default_source_stats (source_stats m !! src)) + 1)%Z.
Proof.
  intros Hrange. rewrite (record_generation_in_range now size t src m Hrange).
  destruct (record_generation_effect now size t src m)
    as (m' & Hcall & _ & Hgen & Hthr & Hlat & Hreq & Hbytes & Hsrc).
  exists (event_of (now, size, t, src)), m'.
  split; [exact Hcall|].
  split; [repeat split|].
  split.
  { intros Ht. cbn [event_of throughput_mbps]. rewrite (is_positive_false t Ht). reflexivity. }
  split; [exact Hgen|]. split; [exact Hthr|]. split; [exact Hlat|].
  split.
  { intros Hpos. rewrite Hgen, Hthr, Hlat. repeat split; apply deque_append_last; exact Hpos. }
  repeat split; assumption.
Qed.

(** A call with a negative duration on a fresh monitor. *)
Lemma record_generation_returns_within_float_range_witness :
  exists (ev : GenerationEvent) (m' : monitor),
    MonitorOverflow.record_generation 0 32 (-1) "fpga" (__init__ 1000) = (Ok tt, m') /\
    throughput_mbps ev = 0 /\
    generation_history m' = [ev] /\
    total_requests m' = 1%Z.
Proof.
  destruct (record_generation_returns_within_float_range
              0 32 (-1) "fpga" (__init__ 1000))
    as (ev & m' & Hcall & _ & Hzero & Hgen & _ & _ & _ & Hreq & _).
  - vm_compute. reflexivity.
  - exists ev, m'. split; [exact Hcall|]. split; [apply Hzero; discriminate|].
    split; [exact Hgen | exact Hreq].
Defined.

(** C9 as the specification states it fails: a call with a size of
    [10^400] bytes and a duration of one second raises [OverflowError] at
    line 93, where [size_bytes * 8] is converted to a float, and nothing
    is appended or counted. *)
Lemma record_generation_rejects_huge_size :
  MonitorOverflow.record_generation 0 (10 ^ 400) 1 "fpga" (__init__ 1000)
    = (Raised OverflowError, __init__ 1000) /\
  generation_history
    (MonitorOverflow.record_generation 0 (10 ^ 400) 1 "fpga" (__init__ 1000)).2 = [] /\
  total_requests
    (MonitorOverflow.record_generation 0 (10 ^ 400) 1 "fpga" (__init__ 1000)).2 = 0%Z.
Proof.
  assert (Hcall : MonitorOverflow.record_generation 0 (10 ^ 400) 1 "fpga" (__init__ 1000)
                  = (Raised OverflowError, __init__ 1000)).
  { unfold MonitorOverflow.record_generation, MonitorOverflow.compute_throughput,
      FloatRange.int_truediv_float.
    replace (is_positive 1) with true by reflexivity.
    replace (FloatRange.fits_float (10 ^ 400 * 8)) with false
      by (vm_compute; reflexivity).
    reflexivity. }
  rewrite Hcall. repeat split; reflexivity.
Qed.

Example deque_append_examples :
  deque_append 2 3%Z [1%Z; 2%Z] = [2%Z; 3%Z] /\
  deque_append 2 2%Z [1%Z] = [1%Z; 2%Z] /\
  deque_append 0 1%Z [] = [].
Proof. repeat split. Qed.

Lemma deque_append_length {A : Type} (maxlen : nat) (x : A) (q : list A) :
  (length q <= maxlen)%nat -> (length (deque_append maxlen x q) <= maxlen)%nat.
Proof.
  intros Hle. unfold deque_append.
  destruct (maxlen <? length (q ++ [x]))%nat eqn:Hfull.
  - rewrite length_drop, length_app. cbn [length]. lia.
  - apply Nat.ltb_ge in Hfull. exact Hfull.
Qed.

(** A window that holds the last [maxlen] elements of what was inserted
    holds, after an append, the last [maxlen] elements again. *)
Lemma deque_append_window {A : Type} (maxlen : nat) (x : A) (seen : list A) :
  deque_append maxlen x (drop (length seen - maxlen) seen) =
  drop (length (seen ++ [x]) - maxlen) (seen ++ [x]).
Proof.
  unfold deque_append. rewrite !length_app, length_drop. cbn [length].
  destruct (maxlen <? length seen - (length seen - maxlen) + 1)%nat eqn:Hfull.
  - apply Nat.ltb_lt in Hfull.
    rewrite <- (drop_app_le seen [x] (length seen - maxlen)) by lia.
    rewrite drop_drop. f_equal. lia.
  - apply Nat.ltb_ge in Hfull.
    replace (length seen - maxlen)%nat with 0%nat by lia.
    replace (length seen + 1 - maxlen)%nat with 0%nat by lia.
    reflexivity.
Qed.

Lemma record_request_windows (M : nat) (seen : list request) (r : request) (m : monitor) :
  windows_hold M seen m -> windows_hold M (seen ++ [r]) (record_request m r).
Proof.
  intros (Hsize & Hgen & Hthr & Hlat).
  destruct r as [[[now size] t] src].
  destruct (record_generation_effect now size t src m)
    as (m' & Hcall & Hsize' & Hgen' & Hthr' & Hlat' & _).
  unfold record_request. rewrite Hcall. cbn [snd].
  unfold windows_hold.
  rewrite Hsize', Hgen', Hthr', Hlat', Hsize, Hgen, Hthr, Hlat.
  rewrite !fmap_app. cbn [fmap list_fmap].
  split; [reflexivity|].
  pose proof (deque_append_window M (event_of (now, size, t, src)) (event_of <$> seen)) as Wg.
  pose proof (deque_append_window M (throughput_mbps (event_of (now, size, t, src)))
                ((fun r => throughput_mbps (event_of r)) <$> seen)) as Wt.
  pose proof (deque_append_window M (t * 1000)
                ((fun r => generation_time (event_of r) * 1000) <$> seen)) as Wl.
  rewrite !length_app, !length_fmap in *. cbn [length] in *.
  repeat split; assumption.
Qed.

Lemma record_requests_windows (M : nat) (reqs seen : list request) (m : monitor) :
  windows_hold M seen m ->
  windows_hold M (seen ++ reqs) (fold_left record_request reqs m).
Proof.
  revert seen m. induction reqs as [|r reqs IH]; intros seen m Hm.
  - rewrite app_nil_r. exact Hm.
  - cbn [fold_left]. replace (seen ++ r :: reqs) with ((seen ++ [r]) ++ reqs)
      by (rewrite <- app_assoc; reflexivity).
    apply IH. apply record_request_windows. exact Hm.
Qed.

(** C7.  After any number of [record_generation] calls on a monitor built
    with [history_size = M], none of the three histories is longer than
    [M]; and after [M + k] calls each history holds the most recent [M]
    inserted elements in insertion order, the oldest [k] being gone. *)
Theorem rolling_windows_bounded_fifo (M : nat) (reqs : list request) :
  let m := fold_left record_request reqs (__init__ M) in
  ((length (generation_history m) <= M)%nat /\
   (length (throughput_history m) <= M)%nat /\
   (length (latency_history m) <= M)%nat) /\
  forall k : nat,
    length reqs = (M + k)%nat ->
    (generation_history m = drop k (event_of <$> reqs) /\
     length (generation_history m) = M) /\
    (throughput_history m = drop k ((fun r => throughput_mbps (event_of r)) <$> reqs) /\
     length (throughput_history m) = M) /\
    (latency_history m = drop k ((fun r => generation_time (event_of r) * 1000) <$> reqs) /\
     length (latency_history m) = M).
Proof.
  cbv zeta.
  assert (Hinit : windows_hold M [] (__init__ M)) by (repeat split).
  pose proof (record_requests_windows M reqs [] (__init__ M) Hinit) as H.
  rewrite app_nil_l in H. destruct H as (_ & Hgen & Hthr & Hlat).
  rewrite Hgen, Hthr, Hlat. split.
  - rewrite !length_drop, !length_fmap. lia.
  - intros k Hk. replace (length reqs - M)%nat with k by lia.
    rewrite !length_drop, !length_fmap. repeat split; lia.
Qed.

(** Three requests into a window of two: the first one is evicted. *)
Lemma rolling_windows_bounded_fifo_witness :
  throughput_history
    (fold_left record_request
       [(0%Z, 1%Z, 1, "fpga"); (1%Z, 2%Z, 1, "fpga"); (2%Z, 3%Z, 1, "anu")]
       (__init__ 2)) =
  [inject_Z (2 * 8) / (1 * 1000000); inject_Z (3 * 8) / (1 * 1000000)].
Proof.
  pose proof (rolling_windows_bounded_fifo 2
                [(0%Z, 1%Z, 1, "fpga"); (1%Z, 2%Z, 1, "fpga"); (2%Z, 3%Z, 1, "anu")]) as H.
  cbv zeta in H. destruct H as [_ H].
  destruct (H 1%nat eq_refl) as (_ & [Hthr _] & _).
  exact Hthr.
Defined.

(** The windows stay bounded when resets are interleaved. *)
Lemma windows_bounded_under_calls (M : nat) (cs : list call) :
  let m := run_calls cs (__init__ M) in
  (length (generation_history m) <= M)%nat /\
  (length (throughput_history m) <= M)%nat /\
  (length (latency_history m) <= M)%nat.
Proof.
  cbv zeta. unfold run_calls.
  assert (Hgen : forall cs m,
            history_size m = M ->
            (length (generation_history m) <= M)%nat /\
            (length (throughput_history m) <= M)%nat /\
            (length (latency_history m) <= M)%nat ->
            let m' := fold_left (fun m c => run_call c m) cs m in
            (length (generation_history m') <= M)%nat /\
            (length (throughput_history m') <= M)%nat /\
            (length (latency_history m') <= M)%nat).
  { clear cs. induction cs as [|c cs IH]; intros m Hsize Hm; [exact Hm|].
    cbn [fold_left]. apply IH.
    - destruct c as [now size t src|]; [|exact Hsize].
      cbn [run_call].
      destruct (record_generation_effect now size t src m) as (m' & Hcall & Hsize' & _).
      rewrite Hcall. cbn [snd]. congruence.
    - destruct c as [now size t src|]; [|cbn; lia].
      cbn [run_call].
      destruct (record_generation_effect now size t src m)
        as (m' & Hcall & _ & Hg & Ht & Hl & _).
      rewrite Hcall. cbn [snd]. rewrite Hg, Ht, Hl, Hsize.
      destruct Hm as (H1 & H2 & H3).
      repeat split; apply deque_append_length; assumption. }
  apply Hgen; [reflexivity | cbn; lia].
Qed.

End MetricsAggregator.


(* ===================================================================== *)
(** * Further properties of the simulator *)
(* ===================================================================== *)

Section SimulatorOperations.

Import Py Numpy FPGASimulator FPGAOperations Reference Scenarios.

Lemma expected_time_ok (size : Z) (st : state) :
  ~ (target_throughput_mbps st == 0)%Q ->
  exists t, expected_time size st = Ok t.
Proof.
  intros Htarget. unfold expected_time.
  rewrite (target_divisor_nonzero _ Htarget). eexists. reflexivity.
Qed.

Lemma expected_time_zero_target (size : Z) (st : state) :
  (target_throughput_mbps st == 0)%Q ->
  expected_time size st = Raised ZeroDivisionError.
Proof.
  intros Htarget. unfold expected_time.
  assert (Hz : Qeq_bool (target_throughput_mbps st * 1000000) 0 = true).
  { apply Qeq_bool_iff. rewrite Htarget. reflexivity. }
  rewrite Hz. reflexivity.
Qed.

Lemma slice_stop_nonneg {A : Type} (l : list A) (size : Z) :
  (0 <= size <= Z.of_nat (length l))%Z -> slice_stop l size = Z.to_nat size.
Proof.
  intros Hsize. unfold slice_stop.
  destruct (size <? 0)%Z eqn:Hneg; [apply Z.ltb_lt in Hneg; lia|].
  f_equal. lia.
Qed.


(** What a call does when the buffer holds at least [size] bytes and the
    pacing division does not raise. *)
Lemma generate_random_bytes_served (d : draws) (size : Z) (st : state) :
  (size <= Z.of_nat (length (random_buffer st)))%Z ->
  ~ (target_throughput_mbps st == 0)%Q ->
  generate_random_bytes d size st =
  (Ok (slice_to (random_buffer st) size),
   update_statistics size
     (set_random_buffer (del_slice_to (random_buffer st) size) st)).
Proof.
  intros Hhit Htarget. unfold generate_random_bytes.
  destruct (size <=? Z.of_nat (length (random_buffer st)))%Z eqn:Hle;
    [|apply Z.leb_gt in Hle; lia].
  destruct (expected_time_ok size
              (update_statistics size
                 (set_random_buffer (del_slice_to (random_buffer st) size) st)))
    as [t Ht]; [exact Htarget|].
  rewrite Ht. reflexivity.
Qed.



(** With a target throughput of zero the pacing division raises after the
    buffer and the counters were updated: every call then returns the
    [size] bytes of the [except] clause, and a request that the buffer could
    have served has still consumed its first [size] bytes. *)
Theorem generate_random_bytes_zero_target (d : draws) (size : Z) (st : state) :
  (target_throughput_mbps st == 0)%Q ->
  (0 <= size <= sys_maxsize)%Z ->
  (generate_random_bytes d size st).1 =
    Ok (map (generate_fallback d) (seq 0 (Z.to_nat size))) /\
  ((size <= Z.of_nat (length (random_buffer st)))%Z ->
   random_buffer (generate_random_bytes d size st).2 =
     drop (Z.to_nat size) (random_buffer st)).
Proof.
  intros Htarget Hsize.
  assert (Hfallback : token_bytes (generate_fallback d) size =
                      Ok (map (generate_fallback d) (seq 0 (Z.to_nat size)))).
  { unfold token_bytes.
    destruct (size <? 0)%Z eqn:Hneg; [apply Z.ltb_lt in Hneg; lia|].
    destruct (sys_maxsize <? size)%Z eqn:Hbig; [apply Z.ltb_lt in Hbig; lia|].
    reflexivity. }
  unfold generate_random_bytes.
  destruct (size <=? Z.of_nat (length (random_buffer st)))%Z eqn:Hhit.
  - rewrite expected_time_zero_target by exact Htarget.
    cbn [fst snd random_buffer update_statistics set_random_buffer].
    split; [exact Hfallback|]. intros _.
    apply Z.leb_le in Hhit.
    unfold del_slice_to. rewrite slice_stop_nonneg by lia. reflexivity.
  - apply Z.leb_gt in Hhit.
    destruct (_generate_quantum_noise d size) as [result|e].
    + rewrite expected_time_zero_target by exact Htarget.
      split; [exact Hfallback | intros; lia].
    + split; [exact Hfallback | intros; lia].
Qed.

Lemma generate_random_bytes_zero_target_witness :
  (generate_random_bytes zero_draws 2
     (set_target_throughput 0 (set_random_buffer [x0a; x0b; x0c] (__init__ 50)))).1 =
    Ok [x00; x00] /\
  random_buffer
    (generate_random_bytes zero_draws 2
       (set_target_throughput 0 (set_random_buffer [x0a; x0b; x0c] (__init__ 50)))).2 =
    [x0c].
Proof.
  destruct (generate_random_bytes_zero_target zero_draws 2
              (set_target_throughput 0
                 (set_random_buffer [x0a; x0b; x0c] (__init__ 50))))
    as [Hres Hbuf]; [reflexivity | unfold sys_maxsize; lia |].
  split; [exact Hres | apply Hbuf; cbn; lia].
Defined.

(** Whatever the random sources do, the noise source returns normally for
    every size that fits a length. *)
Lemma _generate_quantum_noise_returns (d : draws) (size : Z) :
  (0 <= size <= sys_maxsize)%Z ->
  exists chunk, _generate_quantum_noise d size = Ok chunk.
Proof.
  intros Hsize.
  unfold _generate_quantum_noise, token_bytes, perturb.
  destruct (size <? 0)%Z eqn:Hneg; [apply Z.ltb_lt in Hneg; lia|].
  destruct (sys_maxsize <? size)%Z eqn:Hbig; [apply Z.ltb_lt in Hbig; lia|].
  cbn [mbind exc_bind try_except].
  destruct (sampling_raises d); cbn [mbind exc_bind try_except mret exc_ret];
    eexists; reflexivity.
Qed.



(** Debiasing at least halves its input, rounding up, and an input of two
    bytes or more never debiases to the empty string. *)
Theorem debias_output_between_one_byte_and_half (data : list byte) :
  length (_apply_debiasing data) <= (length data + 1) / 2 /\
  (2 <= length data -> 1 <= length (_apply_debiasing data)).
Proof.
  rewrite _apply_debiasing_length.
  pose proof (emitted_bound data) as Hb.
  destruct (length (scan_pairs (unpackbits data))) as [|e].
  - split.
    + apply Nat.Div0.div_le_mono. lia.
    + intros Hlen. apply (Nat.div_le_lower_bound (length data) 2 1); lia.
  - split.
    + assert (Hhalf : (4 * length data + 7) / 8 <= (length data + 1) / 2).
      { apply Nat.div_le_lower_bound; [lia|].
        pose proof (Nat.div_mod_eq (4 * length data + 7) 8) as Hdm.
        pose proof (Nat.mod_upper_bound (4 * length data + 7) 8 ltac:(lia)) as Hr.
        lia. }
      etransitivity; [|exact Hhalf]. apply Nat.Div0.div_le_mono. lia.
    + intros _. apply (Nat.div_le_lower_bound (S e + 7) 8 1); lia.
Qed.

Lemma debias_output_between_one_byte_and_half_witness :
  length (_apply_debiasing [x40; x9c; xff]) <= 2 /\
  1 <= length (_apply_debiasing [x40; x9c; xff]).
Proof.
  destruct (debias_output_between_one_byte_and_half [x40; x9c; xff]) as [Hle Hge].
  split; [exact Hle | apply Hge; cbn; lia].
Defined.

(** An iteration of the producer appends to the right end of the buffer
    (possibly nothing) and changes nothing else. *)
Lemma buffer_worker_appends (d : draws) (st : state) :
  exists chunk,
    buffer_worker_iteration d st = set_random_buffer (random_buffer st ++ chunk) st.
Proof.
  assert (Hsame : st = set_random_buffer (random_buffer st ++ []) st).
  { destruct st. unfold set_random_buffer. cbn. rewrite app_nil_r. reflexivity. }
  unfold buffer_worker_iteration.
  destruct (Z.of_nat (length (random_buffer st)) <? buffer_size st)%Z;
    [|exists []; exact Hsame].
  destruct (_generate_quantum_noise d 1024) as [new_data|e];
    [exists new_data; reflexivity | exists []; exact Hsame].
Qed.

(** One call counts one request and [size] bytes, whether or not that many
    bytes were returned. *)
Lemma generate_random_bytes_counts (d : draws) (size : Z) (st : state) :
  (0 <= size <= sys_maxsize)%Z ->
  generation_requests (generate_random_bytes d size st).2 =
    (generation_requests st + 1)%Z /\
  total_bytes_generated (generate_random_bytes d size st).2 =
    (total_bytes_generated st + size)%Z.
Proof.
  intros Hsize. unfold generate_random_bytes.
  destruct (size <=? Z.of_nat (length (random_buffer st)))%Z.
  - destruct (expected_time size _); split; reflexivity.
  - destruct (_generate_quantum_noise_returns d size Hsize) as [chunk ->].
    destruct (expected_time size _); split; reflexivity.
Qed.

(** After [reset_stats()], the request counter is the number of calls made
    since and the byte counter is the sum of the sizes that were asked for
    (not of the lengths that were returned). *)
Theorem generate_calls_counters (calls : list (draws * Z)) (st : state) :
  Forall (fun c : draws * Z => (0 <= c.2 <= sys_maxsize)%Z) calls ->
  generation_requests (generate_calls calls (reset_stats st)) =
    Z.of_nat (length calls) /\
  total_bytes_generated (generate_calls calls (reset_stats st)) =
    fold_right Z.add 0%Z (map snd calls).
Proof.
  intros Hcalls. unfold generate_calls.
  assert (Hgen : forall cs s,
            Forall (fun c : draws * Z => (0 <= c.2 <= sys_maxsize)%Z) cs ->
            generation_requests
              (fold_left (fun st c => (generate_random_bytes c.1 c.2 st).2) cs s) =
              (generation_requests s + Z.of_nat (length cs))%Z /\
            total_bytes_generated
              (fold_left (fun st c => (generate_random_bytes c.1 c.2 st).2) cs s) =
              (total_bytes_generated s + fold_right Z.add 0%Z (map snd cs))%Z).
  { induction cs as [|c cs IH]; intros s Hcs.
    - cbn. split; lia.
    - apply Forall_cons in Hcs as [Hc Hcs]. cbn [fold_left].
      destruct (IH (generate_random_bytes c.1 c.2 s).2 Hcs) as [IH1 IH2].
      destruct (generate_random_bytes_counts c.1 c.2 s Hc) as [H1 H2].
      rewrite IH1, IH2, H1, H2. cbn [length map fold_right]. split; lia. }
  destruct (Hgen calls (reset_stats st) Hcalls) as [H1 H2].
  rewrite H1, H2. cbn [generation_requests total_bytes_generated reset_stats].
  split; lia.
Qed.

Lemma generate_calls_counters_witness :
  generation_requests
    (generate_calls [(zero_draws, 2%Z); (one_bit_draws, 5%Z)]
       (reset_stats (__init__ 50))) = 2%Z /\
  total_bytes_generated
    (generate_calls [(zero_draws, 2%Z); (one_bit_draws, 5%Z)]
       (reset_stats (__init__ 50))) = 7%Z.
Proof.
  apply (generate_calls_counters [(zero_draws, 2%Z); (one_bit_draws, 5%Z)] (__init__ 50)).
  repeat constructor; cbn; unfold sys_maxsize; lia.
Defined.

Lemma generate_random_bytes_is_running (d : draws) (size : Z) (st : state) :
  is_running (generate_random_bytes d size st).2 = is_running st.
Proof.
  unfold generate_random_bytes.
  destruct (size <=? Z.of_nat (length (random_buffer st)))%Z.
  - destruct (expected_time size _); reflexivity.
  - destruct (_generate_quantum_noise d size) as [result|e]; [|reflexivity].
    destruct (expected_time size _); reflexivity.
Qed.

(** The characterisation of [configure_quantum_params] entry by entry, for
    an argument dict (its keys are distinct). *)
Lemma configure_quantum_params_lookup {V : Type}
    (params : list (string * V)) (q : gmap string V) (k : string) :
  NoDup params.*1 ->
  configure_quantum_params params q !! k =
  match q !! k with
  | Some old => Some (default old ((list_to_map params : gmap string V) !! k))
  | None => None
  end.
Proof.
  unfold configure_quantum_params.
  revert q. induction params as [|[k0 v0] params IH]; intros q Hnodup.
  - cbn. rewrite lookup_empty. destruct (q !! k); reflexivity.
  - rewrite fmap_cons in Hnodup. cbn [fst] in Hnodup.
    apply NoDup_cons in Hnodup as [Hfresh Hnodup].
    cbn [fold_left fst snd]. rewrite (IH _ Hnodup).
    rewrite list_to_map_cons.
    destruct (decide (k0 = k)) as [->|Hne].
    + rewrite lookup_insert_eq.
      rewrite (not_elem_of_list_to_map_1 (M := gmap string) params k Hfresh).
      destruct (q !! k) as [old|] eqn:Hq.
      * rewrite lookup_insert_eq. reflexivity.
      * rewrite Hq. reflexivity.
    + rewrite (lookup_insert_ne _ k0 k) by exact Hne.
      destruct (q !! k0) as [old0|]; [rewrite lookup_insert_ne by exact Hne|];
        reflexivity.
Qed.

(** [configure_quantum_params] never adds a parameter: an unknown key of
    the argument is ignored.  A known key takes the value the argument gives
    it and every other parameter keeps its value. *)
Theorem configure_quantum_params_updates_known_keys {V : Type}
    (params : list (string * V)) (q : gmap string V) :
  NoDup params.*1 ->
  dom (configure_quantum_params params q) = dom q /\
  (forall k v, (k, v) ∈ params -> is_Some (q !! k) ->
               configure_quantum_params params q !! k = Some v) /\
  (forall k, k ∉ params.*1 -> configure_quantum_params params q !! k = q !! k).
Proof.
  intros Hnodup. split; [|split].
  - apply set_eq. intros k. rewrite !elem_of_dom.
    rewrite (configure_quantum_params_lookup params q k Hnodup).
    destruct (q !! k); split; intros [x Hx]; eauto; discriminate.
  - intros k v Hin [old Hold].
    rewrite (configure_quantum_params_lookup params q k Hnodup), Hold.
    rewrite (elem_of_list_to_map_1 (M := gmap string) params k v Hnodup Hin).
    reflexivity.
  - intros k Hnotin.
    rewrite (configure_quantum_params_lookup params q k Hnodup).
    rewrite (not_elem_of_list_to_map_1 (M := gmap string) params k Hnotin).
    destruct (q !! k); reflexivity.
Qed.

Lemma configure_quantum_params_updates_known_keys_witness :
  configure_quantum_params
    [("thermal_noise_level"%string, 2%Z); ("gain"%string, 7%Z)]
    (<["thermal_noise_level"%string := 1%Z]>
       (<["shot_noise_factor"%string := 5%Z]> ∅)) !! "gain"%string = None /\
  configure_quantum_params
    [("thermal_noise_level"%string, 2%Z); ("gain"%string, 7%Z)]
    (<["thermal_noise_level"%string := 1%Z]>
       (<["shot_noise_factor"%string := 5%Z]> ∅)) !! "thermal_noise_level"%string
  = Some 2%Z.
Proof.
  assert (Hnodup : NoDup [("thermal_noise_level"%string, 2%Z); ("gain"%string, 7%Z)].*1).
  { apply (bool_decide_unpack _). vm_compute. reflexivity. }
  destruct (configure_quantum_params_updates_known_keys
              [("thermal_noise_level"%string, 2%Z); ("gain"%string, 7%Z)]
              (<["thermal_noise_level"%string := 1%Z]>
                 (<["shot_noise_factor"%string := 5%Z]> ∅)) Hnodup)
    as (Hdom & Hknown & _).
  split.
  - apply not_elem_of_dom. rewrite Hdom. apply not_elem_of_dom.
    vm_compute. reflexivity.
  - apply Hknown; [apply list_elem_of_here|]. rewrite lookup_insert_eq. eauto.
Defined.

End SimulatorOperations.

(* ===================================================================== *)
(** * The simulator with its pacing block and its worker thread *)
(* ===================================================================== *)

Section PacingOperations.

Import Py Numpy FloatRange FPGASimulator FPGAPacing Reference Scenarios.
Local Open Scope Z_scope.

Lemma Qltb_lt (x y : Q) : Qltb x y = true <-> (x < y)%Q.
Proof.
  unfold Qltb. rewrite negb_true_iff. split.
  - intros H. apply Qnot_le_lt. intros Hle. apply Qle_bool_iff in Hle. congruence.
  - intros H. destruct (Qle_bool y x) eqn:Hle; [|reflexivity].
    apply Qle_bool_iff in Hle. exfalso. apply (Qlt_not_le _ _ H). exact Hle.
Qed.

Lemma int_truediv_float_ok (n : Z) (d : Q) :
  fits_float n = true -> ~ (d == 0)%Q ->
  int_truediv_float n d = Ok (inject_Z n / d)%Q.
Proof.
  intros Hfits Hd. unfold int_truediv_float. rewrite Hfits.
  destruct (Qeq_bool d 0) eqn:Hz; [|reflexivity].
  apply Qeq_bool_iff in Hz. contradiction.
Qed.

Lemma scaled_nonzero (x : Q) : ~ (x == 0)%Q -> ~ (x * 1000000 == 0)%Q.
Proof.
  intros Hx Hz. apply Hx.
  apply (Qmult_integral_l 1000000); [discriminate|].
  rewrite Qmult_comm. exact Hz.
Qed.

(** Within the limits the statistics and pacing block returns. *)
Lemma pacing_returns (c : clock) (size : Z) (st st2 : state) :
  within_limits c size st = true ->
  ~ (target_throughput_mbps st == 0)%Q ->
  total_bytes_generated st2 = total_bytes_generated st + size ->
  target_throughput_mbps st2 = target_throughput_mbps st ->
  pacing c size st2 = Ok tt.
Proof.
  unfold within_limits. intros Hlimits Htarget Htotal Hsame.
  apply andb_prop in Hlimits as [Hlimits Hwait].
  apply andb_prop in Hlimits as [Huptime Hsize].
  unfold pacing. rewrite Htotal, Hsame.
  assert (Hfirst : (if Qltb 0 (uptime c)
                    then _ ← int_truediv_float ((total_bytes_generated st + size) * 8)
                                               (uptime c * 1000000)%Q;
                         mret tt
                    else mret tt) = Ok tt).
  { destruct (Qltb 0 (uptime c)) eqn:Hup; [|reflexivity].
    cbn [negb orb] in Huptime.
    rewrite int_truediv_float_ok; [reflexivity|exact Huptime|].
    apply scaled_nonzero. apply Qltb_lt in Hup.
    intros Hz. rewrite Hz in Hup. exact (Qlt_irrefl 0 Hup). }
  rewrite Hfirst. cbn [mbind exc_bind].
  rewrite int_truediv_float_ok by (try exact Hsize; apply scaled_nonzero; exact Htarget).
  cbn [mbind exc_bind].
  destruct (Qltb (generation_time c) _) eqn:Hslow; [|reflexivity].
  unfold sleep.
  apply Qltb_lt in Hslow.
  destruct (Qltb (_ - generation_time c) 0) eqn:Hneg.
  { apply Qltb_lt in Hneg. lra. }
  unfold Qltb in Hwait. apply negb_true_iff in Hwait. rewrite Hwait. reflexivity.
Qed.

(** The object after a call does not depend on how the pacing block
    ended. *)
Lemma generate_random_bytes_state (d : draws) (c : clock) (size : Z) (st : state) :
  (FPGAPacing.generate_random_bytes d c size st).2 =
  (FPGASimulator.generate_random_bytes d size st).2.
Proof.
  unfold FPGAPacing.generate_random_bytes, FPGASimulator.generate_random_bytes.
  destruct (size <=? Z.of_nat (length (random_buffer st))).
  - destruct (pacing c size _), (expected_time size _); reflexivity.
  - destruct (_generate_quantum_noise d size) as [result|e]; [|reflexivity].
    destruct (pacing c size _), (expected_time size _); reflexivity.
Qed.

(** Within the limits and with a non-zero target rate, the call returns
    what it obtained under the lock. *)
Lemma generate_random_bytes_within_limits (d : draws) (c : clock) (size : Z) (st : state) :
  within_limits c size st = true ->
  ~ (target_throughput_mbps st == 0)%Q ->
  FPGAPacing.generate_random_bytes d c size st =
  FPGASimulator.generate_random_bytes d size st.
Proof.
  intros Hlimits Htarget.
  unfold FPGAPacing.generate_random_bytes, FPGASimulator.generate_random_bytes.
  destruct (size <=? Z.of_nat (length (random_buffer st))).
  - rewrite (pacing_returns c size st) by (try assumption; reflexivity).
    destruct (expected_time_ok size
                (update_statistics size
                   (set_random_buffer (del_slice_to (random_buffer st) size) st)))
      as [t Ht]; [exact Htarget|].
    rewrite Ht. reflexivity.
  - destruct (_generate_quantum_noise d size) as [result|e]; [|reflexivity].
    rewrite (pacing_returns c size st) by (try assumption; reflexivity).
    destruct (expected_time_ok size (update_statistics size st)) as [t Ht];
      [exact Htarget|].
    rewrite Ht. reflexivity.
Qed.

(** The buffered path is first-in first-out: a request that the buffer can
    serve, with a non-zero target rate and within the limits of the
    statistics and pacing block, returns exactly [size] bytes, the oldest
    ones, and leaves the rest in place, nothing lost or reordered. *)
Theorem generate_random_bytes_hit_is_fifo
    (d : draws) (c : clock) (size : Z) (st : state) :
  0 <= size <= Z.of_nat (length (random_buffer st)) ->
  ~ (target_throughput_mbps st == 0)%Q ->
  within_limits c size st = true ->
  exists result,
    (FPGAPacing.generate_random_bytes d c size st).1 = Ok result /\
    Z.of_nat (length result) = size /\
    result ++ random_buffer (FPGAPacing.generate_random_bytes d c size st).2
      = random_buffer st.
Proof.
  intros Hsize Htarget Hlimits.
  rewrite generate_random_bytes_within_limits by assumption.
  rewrite generate_random_bytes_served by (try exact Htarget; lia).
  exists (slice_to (random_buffer st) size). cbn [fst snd].
  split; [reflexivity|].
  unfold slice_to, del_slice_to. rewrite slice_stop_nonneg by exact Hsize.
  cbn [random_buffer update_statistics set_random_buffer].
  split; [rewrite length_take; lia | apply take_drop].
Qed.

Lemma generate_random_bytes_hit_is_fifo_witness :
  (FPGAPacing.generate_random_bytes zero_draws
     {| generation_time := 0; uptime := 1 |} 2
     (set_random_buffer [x0a; x0b; x0c] (__init__ 50))).1 = Ok [x0a; x0b].
Proof.
  destruct (generate_random_bytes_hit_is_fifo zero_draws
              {| generation_time := 0; uptime := 1 |} 2
              (set_random_buffer [x0a; x0b; x0c] (__init__ 50)))
    as (result & Hresult & _ & _).
  - cbn. lia.
  - intros H. vm_compute in H. discriminate.
  - vm_compute. reflexivity.
  - rewrite Hresult. f_equal.
    vm_compute in Hresult. injection Hresult as <-. reflexivity.
Defined.

(** When the pacing wait is too long for [time.sleep] (a target rate that
    is positive but tiny), a request that the buffer could serve is
    answered from the [except] clause: the caller gets fresh
    [secrets.token_bytes(size)], and the buffered bytes that were taken for
    it are gone. *)
Theorem generate_random_bytes_overlong_wait_loses_bytes
    (d : draws) (c : clock) (size : Z) (st : state) :
  0 <= size <= Z.of_nat (length (random_buffer st)) ->
  size <= sys_maxsize ->
  (0 < target_throughput_mbps st)%Q ->
  (uptime c <= 0)%Q ->
  (inject_Z sleep_limit_ns <=
     (inject_Z (size * 8) / (target_throughput_mbps st * 1000000)
      - generation_time c) * 1000000000)%Q ->
  (FPGAPacing.generate_random_bytes d c size st).1 =
    Ok (map (generate_fallback d) (seq 0 (Z.to_nat size))) /\
  random_buffer (FPGAPacing.generate_random_bytes d c size st).2 =
    drop (Z.to_nat size) (random_buffer st).
Proof.
  intros Hsize Hmax Htarget Huptime Hwait.
  assert (Hfits : fits_float (size * 8) = true).
  { unfold fits_float, float_limit. apply Z.ltb_lt.
    unfold sys_maxsize in Hmax.
    assert (2 ^ 67 < 2 ^ 1024 - 2 ^ 970) by (vm_compute; reflexivity). lia. }
  assert (Hnz : ~ (target_throughput_mbps st * 1000000 == 0)%Q).
  { apply scaled_nonzero. intros Hz. rewrite Hz in Htarget. exact (Qlt_irrefl 0 Htarget). }
  unfold FPGAPacing.generate_random_bytes.
  destruct (size <=? Z.of_nat (length (random_buffer st))) eqn:Hhit;
    [|apply Z.leb_gt in Hhit; lia].
  assert (Hpacing : exists e,
            pacing c size
              (update_statistics size
                 (set_random_buffer (del_slice_to (random_buffer st) size) st))
            = Raised e).
  { unfold pacing. cbn [target_throughput_mbps update_statistics set_random_buffer].
    destruct (Qltb 0 (uptime c)) eqn:Hup.
    { apply Qltb_lt in Hup. exfalso. exact (Qlt_not_le _ _ Hup Huptime). }
    cbn [mbind exc_bind mret exc_ret].
    rewrite int_truediv_float_ok by assumption. cbn [mbind exc_bind].
    set (expected := (inject_Z (size * 8) / (target_throughput_mbps st * 1000000))%Q) in *.
    assert (Hpos : (0 < expected - generation_time c)%Q).
    { assert (Hlimit : (0 < inject_Z sleep_limit_ns)%Q) by reflexivity. lra. }
    assert (Hslow : Qltb (generation_time c) expected = true).
    { apply Qltb_lt. lra. }
    rewrite Hslow. unfold sleep.
    destruct (Qltb (expected - generation_time c) 0) eqn:Hneg; [eexists; reflexivity|].
    apply Qle_bool_iff in Hwait. rewrite Hwait. eexists. reflexivity. }
  destruct Hpacing as [e ->]. cbn [fst snd].
  cbn [random_buffer update_statistics set_random_buffer].
  unfold del_slice_to. rewrite slice_stop_nonneg by exact Hsize.
  split; [|reflexivity].
  unfold token_bytes.
  destruct (size <? 0) eqn:Hneg; [apply Z.ltb_lt in Hneg; lia|].
  destruct (sys_maxsize <? size) eqn:Hbig; [apply Z.ltb_lt in Hbig; lia|].
  reflexivity.
Qed.

Lemma generate_random_bytes_overlong_wait_loses_bytes_witness :
  (FPGAPacing.generate_random_bytes zero_draws
     {| generation_time := 0; uptime := 0 |} 2
     (set_random_buffer [x0a; x0b; x0c] (__init__ (1 # 1000000000000000)))).1
    = Ok [x00; x00] /\
  random_buffer
    (FPGAPacing.generate_random_bytes zero_draws
       {| generation_time := 0; uptime := 0 |} 2
       (set_random_buffer [x0a; x0b; x0c] (__init__ (1 # 1000000000000000)))).2
    = [x0c].
Proof.
  apply (generate_random_bytes_overlong_wait_loses_bytes zero_draws
           {| generation_time := 0; uptime := 0 |} 2
           (set_random_buffer [x0a; x0b; x0c] (__init__ (1 # 1000000000000000)))).
  - cbn. lia.
  - unfold sys_maxsize. lia.
  - reflexivity.
  - discriminate.
  - vm_compute. discriminate.
Defined.

Lemma thread_step_invariant (st st' : state) (w w' : worker) :
  thread_step (st, w) (st', w') ->
  is_running st = false ->
  is_running st' = false /\
  (length (random_buffer st') + pending w' <= length (random_buffer st) + pending w)%nat.
Proof.
  intros Hstep Hoff.
  inversion Hstep as [s | d s | d c size s w0 | mbps s w0 | s w0 | s w0]; subst.
  - split; [exact Hoff|]. rewrite Hoff. cbn [pending]. lia.
  - destruct (buffer_worker_appends d st) as [chunk Hchunk].
    unfold buffer_worker_iteration in *.
    destruct (Z.of_nat (length (random_buffer st)) <? buffer_size st);
      [|split; [exact Hoff|cbn [pending]; lia]].
    destruct (_generate_quantum_noise d 1024) as [new_data|e] eqn:Hnoise;
      [|split; [exact Hoff|cbn [pending]; lia]].
    apply _generate_quantum_noise_length in Hnoise.
    cbn [is_running random_buffer set_random_buffer pending].
    rewrite length_app. split; [exact Hoff|]. change (Z.to_nat 1024) with 1024%nat in Hnoise. lia.
  - rewrite generate_random_bytes_state, generate_random_bytes_is_running.
    destruct (generate_random_bytes_buffer d size st) as [_ Hshrink].
    split; [exact Hoff|lia].
  - split; [exact Hoff|cbn; lia].
  - split; [exact Hoff|cbn; lia].
  - split; [reflexivity|cbn; lia].
Qed.

(** After [stop()] the flag stays off, but the worker thread may be past
    its unlocked test of the flag: then one more chunk, of at most 1024
    bytes, is still appended.  In every state reached from a stopped
    simulator the buffer is longer by at most that chunk, and no longer
    at all once the worker is back at its test or has ended. *)
Theorem stopped_buffer_gains_at_most_one_chunk (st st' : state) (w w' : worker) :
  is_running st = false ->
  rtc thread_step (st, w) (st', w') ->
  is_running st' = false /\
  (length (random_buffer st') + pending w' <= length (random_buffer st) + pending w)%nat.
Proof.
  intros Hoff Hrun.
  refine (rtc_ind_r
            (fun s => is_running s.1 = false /\
                      (length (random_buffer s.1) + pending s.2
                       <= length (random_buffer st) + pending w)%nat)
            (st, w) _ _ (st', w') Hrun).
  - split; [exact Hoff|cbn [fst snd]; lia].
  - intros [s1 w1] [s2 w2] _ Hstep [Hoff1 Hle]. cbn [fst snd] in *.
    destruct (thread_step_invariant s1 s2 w1 w2 Hstep Hoff1) as [Hoff2 Hle2].
    split; [exact Hoff2|lia].
Qed.

Lemma stopped_buffer_gains_at_most_one_chunk_witness :
  is_running (buffer_worker_iteration zero_draws (stop (__init__ 50))) = false /\
  (length (random_buffer (buffer_worker_iteration zero_draws (stop (__init__ 50))))
     + pending AtTest <= 0 + pending InLoopBody)%nat.
Proof.
  apply (stopped_buffer_gains_at_most_one_chunk
           (stop (__init__ 50)) (buffer_worker_iteration zero_draws (stop (__init__ 50)))
           InLoopBody AtTest).
  - reflexivity.
  - eapply rtc_l; [apply step_body | apply rtc_refl].
Defined.

(** The chunk in flight is real: a worker that is past its test appends
    512 bytes to the empty buffer of a simulator that has been stopped. *)
Example append_after_stop :
  rtc thread_step (stop (__init__ 50), InLoopBody)
      (buffer_worker_iteration zero_draws (stop (__init__ 50)), AtTest) /\
  length (random_buffer (buffer_worker_iteration zero_draws (stop (__init__ 50))))
    = 512%nat.
Proof.
  split; [eapply rtc_l; [apply step_body | apply rtc_refl]|].
  unfold buffer_worker_iteration.
  change (Z.of_nat (length (random_buffer (stop (__init__ 50))))
            <? buffer_size (stop (__init__ 50))) with true.
  destruct zero_chunk as (chunk & -> & Hlen).
  cbn [random_buffer set_random_buffer stop __init__ app]. exact Hlen.
Qed.

End PacingOperations.

(* ===================================================================== *)
(** * Further properties of the metrics aggregator *)
(* ===================================================================== *)

Section MonitorOperations.

Import Py PerformanceMonitor MonitorQueries Reference.
Local Open Scope Q_scope.

(** The monitor after one call of [record_generation], written out. *)
Lemma record_generation_state (now size : Z) (t : Q) (src : string) (m : monitor) :
  exists stats,
    requests stats =
      (requests (default default_source_stats (source_stats m !! src)) + 1)%Z /\
    bytes_generated stats =
      (bytes_generated (default default_source_stats (source_stats m !! src)) + size)%Z /\
    total_time stats =
      total_time (default default_source_stats (source_stats m !! src)) + t /\
    record_generation now size t src m =
    (Ok tt,
     count_request now size
       (set_source_stats (<[src := stats]> (source_stats m))
          (append_histories (event_of (now, size, t, src)) m))).
Proof.
  unfold record_generation.
  rewrite (compute_throughput_ok now size t src).
  cbn [source_stats append_histories].
  destruct (refresh_average_ok
              (add_request size t
                 (default default_source_stats (source_stats m !! src))))
    as (stats & Hrefresh & Hreq & Hbytes & Htime).
  exists stats. rewrite Hrefresh, Hreq, Hbytes, Htime.
  repeat split.
Qed.

Lemma run_call_history_size (c : call) (m : monitor) :
  history_size (run_call c m) = history_size m.
Proof.
  destruct c as [now size t src|]; [|reflexivity].
  cbn [run_call].
  destruct (record_generation_state now size t src m) as (stats & _ & _ & _ & ->).
  reflexivity.
Qed.

Lemma run_calls_history_size (cs : list call) (m : monitor) :
  history_size (run_calls cs m) = history_size m.
Proof.
  unfold run_calls. revert m. induction cs as [|c cs IH]; intros m; [reflexivity|].
  cbn [fold_left]. rewrite IH. apply run_call_history_size.
Qed.

Lemma run_calls_app (cs cs' : list call) (m : monitor) :
  run_calls (cs ++ cs') m = run_calls cs' (run_calls cs m).
Proof. unfold run_calls. apply fold_left_app. Qed.

(** A reset forgets everything recorded before it: what follows behaves as
    on a monitor freshly built with the same [history_size]. *)
Theorem reset_statistics_forgets (M : nat) (cs cs' : list call) :
  run_calls (cs ++ ResetStatistics :: cs') (__init__ M) = run_calls cs' (__init__ M).
Proof.
  rewrite run_calls_app.
  change (run_calls (ResetStatistics :: cs') (run_calls cs (__init__ M)))
    with (run_calls cs' (reset_statistics (run_calls cs (__init__ M)))).
  f_equal. unfold reset_statistics, __init__.
  rewrite run_calls_history_size. reflexivity.
Qed.





Lemma py_max_upper (rest : list Q) (x : Q) :
  x <= py_max x rest /\ Forall (fun y => y <= py_max x rest) rest.
Proof.
  unfold py_max. revert x. induction rest as [|y rest IH]; intros x.
  - cbn. split; [apply Qle_refl | constructor].
  - cbn [fold_left].
    destruct (IH (if Qlt_le_dec x y then y else x)) as [Hbest Hrest].
    destruct (Qlt_le_dec x y) as [Hlt|Hle].
    + split; [|constructor; assumption].
      apply Qle_trans with y; [apply Qlt_le_weak|]; assumption.
    + split; [assumption|]. constructor; [|assumption].
      apply Qle_trans with x; assumption.
Qed.


Lemma count_succ (n : nat) (B : Q) :
  inject_Z (Z.of_nat (S n)) * B == B + inject_Z (Z.of_nat n) * B.
Proof.
  rewrite Nat2Z.inj_succ. unfold Z.succ. rewrite inject_Z_plus. ring.
Qed.

Lemma sum_at_most (l : list Q) (B : Q) :
  Forall (fun y => y <= B) l ->
  fold_right Qplus 0 l <= inject_Z (Z.of_nat (length l)) * B.
Proof.
  induction 1 as [|y l Hy Hl IH].
  - cbn [fold_right length]. change (inject_Z (Z.of_nat 0)) with 0. lra.
  - cbn [fold_right length]. rewrite count_succ.
    apply Qplus_le_compat; assumption.
Qed.

Lemma sum_at_least (l : list Q) (B : Q) :
  Forall (fun y => B <= y) l ->
  inject_Z (Z.of_nat (length l)) * B <= fold_right Qplus 0 l.
Proof.
  induction 1 as [|y l Hy Hl IH].
  - cbn [fold_right length]. change (inject_Z (Z.of_nat 0)) with 0. lra.
  - cbn [fold_right length]. rewrite count_succ.
    apply Qplus_le_compat; assumption.
Qed.

Lemma count_positive {A : Type} (l : list A) :
  l <> [] -> 0 < inject_Z (Z.of_nat (length l)).
Proof.
  intros Hne. destruct l as [|x l]; [congruence|].
  unfold Qlt. cbn. lia.
Qed.

(** The mean of a non-empty sequence lies between any bounds of its
    elements. *)
Lemma np_mean_at_most (l : list Q) (B : Q) :
  l <> [] -> Forall (fun y => y <= B) l -> np_mean l <= B.
Proof.
  intros Hne Hall. unfold np_mean.
  apply Qle_shift_div_r; [apply count_positive; exact Hne|].
  rewrite Qmult_comm. apply sum_at_most. exact Hall.
Qed.

Lemma np_mean_at_least (l : list Q) (B : Q) :
  l <> [] -> Forall (fun y => B <= y) l -> B <= np_mean l.
Proof.
  intros Hne Hall. unfold np_mean.
  apply Qle_shift_div_l; [apply count_positive; exact Hne|].
  rewrite Qmult_comm. apply sum_at_least. exact Hall.
Qed.

Lemma last_n_nonempty {A : Type} (n : nat) (l : list A) :
  (0 < n)%nat -> l <> [] -> last_n n l <> [].
Proof.
  intros Hn Hne Hnil. apply (f_equal length) in Hnil.
  unfold last_n in Hnil. rewrite length_drop in Hnil. cbn in Hnil.
  destruct l; [congruence|]. cbn [length] in Hnil. lia.
Qed.

Lemma py_max_elem_of (rest : list Q) (x : Q) : py_max x rest ∈ x :: rest.
Proof.
  unfold py_max. revert x. induction rest as [|y rest IH]; intros x.
  - apply list_elem_of_here.
  - cbn [fold_left]. destruct (Qlt_le_dec x y).
    + apply list_elem_of_further. apply IH.
    + specialize (IH x). apply elem_of_cons in IH as [Heq|Hin].
      * rewrite Heq. apply list_elem_of_here.
      * do 2 apply list_elem_of_further. exact Hin.
Qed.

(** After the metrics are derived from a non-empty throughput history, the
    peak is one of the throughputs in the window and bounds every one of
    them.  Nothing is said of the two averages, which numpy rounds. *)
Theorem peak_is_largest_throughput
    (current_time : Z) (m : monitor) (cm : real_time_metrics) :
  throughput_history m <> [] ->
  peak_throughput_mbps (_update_real_time_metrics current_time m cm)
    ∈ throughput_history m /\
  Forall (fun y => y <= peak_throughput_mbps (_update_real_time_metrics current_time m cm))
    (throughput_history m).
Proof.
  intros Hne. unfold _update_real_time_metrics.
  destruct (throughput_history m) as [|x rest] eqn:Hhist; [congruence|].
  cbn [peak_throughput_mbps fst snd].
  destruct (py_max_upper rest x) as [Hx Hrest].
  split; [apply py_max_elem_of|]. constructor; assumption.
Qed.

Lemma peak_is_largest_throughput_witness :
  peak_throughput_mbps
    (_update_real_time_metrics 0
       (fold_left record_request
          [(0%Z, 1%Z, 1, "fpga"); (1%Z, 3%Z, 1, "fpga")] (__init__ 5))
       zero_metrics)
  ∈ throughput_history
      (fold_left record_request
         [(0%Z, 1%Z, 1, "fpga"); (1%Z, 3%Z, 1, "fpga")] (__init__ 5)).
Proof.
  apply (peak_is_largest_throughput 0
           (fold_left record_request
              [(0%Z, 1%Z, 1, "fpga"); (1%Z, 3%Z, 1, "fpga")] (__init__ 5))
           zero_metrics).
  vm_compute. discriminate.
Defined.

Lemma run_calls_request_timestamps (M : nat) (cs : list call) :
  (length (request_timestamps (run_calls cs (__init__ M))) <= 60)%nat.
Proof.
  unfold run_calls.
  assert (Hinit : (length (request_timestamps (__init__ M)) <= 60)%nat) by (cbn; lia).
  revert Hinit. generalize (__init__ M).
  induction cs as [|c cs IH]; intros m Hm; [exact Hm|].
  cbn [fold_left]. apply IH.
  destruct c as [now size t src|]; [|cbn; lia].
  cbn [run_call].
  destruct (record_generation_state now size t src m) as (stats & _ & _ & _ & ->).
  cbn [snd request_timestamps count_request set_source_stats append_histories].
  apply deque_append_length. exact Hm.
Qed.

(** Only the last 60 request timestamps are kept, so the derived
    [requests_per_second], their count within the last minute divided by
    60, never exceeds 1 however many requests were recorded. *)
Theorem requests_per_second_at_most_one
    (M : nat) (cs : list call) (current_time : Z) (cm : real_time_metrics) :
  0 <= requests_per_second
         (_update_real_time_metrics current_time (run_calls cs (__init__ M)) cm) /\
  requests_per_second
    (_update_real_time_metrics current_time (run_calls cs (__init__ M)) cm) <= 1.
Proof.
  unfold _update_real_time_metrics. cbn [requests_per_second].
  pose proof (run_calls_request_timestamps M cs) as Hkept.
  pose proof (filter_length_le (within_last_minute current_time)
                (request_timestamps (run_calls cs (__init__ M)))) as Hrecent.
  set (n := length (List.filter (within_last_minute current_time)
                      (request_timestamps (run_calls cs (__init__ M))))) in *.
  split.
  - apply Qle_shift_div_l; [reflexivity|]. unfold Qle. cbn. lia.
  - apply Qle_shift_div_r; [reflexivity|]. unfold Qle. cbn. lia.
Qed.

(** The chart data after a run of recorded requests on a monitor built
    with [history_size = M]: the points of the last [min(60, M)] requests,
    in the order they were recorded. *)
Theorem historical_data_is_recent_window (M : nat) (reqs : list request) :
  historical_data (fold_left record_request reqs (__init__ M)) =
  (fun r => chart_point (event_of r)) <$> last_n (Nat.min 60 M) reqs.
Proof.
  assert (Hinit : windows_hold M [] (__init__ M)) by (repeat split).
  pose proof (record_requests_windows M reqs [] (__init__ M) Hinit) as H.
  rewrite app_nil_l in H. destruct H as (_ & Hgen & _ & _).
  unfold historical_data, last_n. rewrite Hgen.
  rewrite length_drop, length_fmap, drop_drop, <- fmap_drop, <- list_fmap_compose.
  f_equal. f_equal. lia.
Qed.

Lemma at_most_one_bounds (a : Q) : at_most_one a <= 1 /\ (0 <= a -> 0 <= at_most_one a).
Proof.
  unfold at_most_one. destruct (Qlt_le_dec 1 a); split; intros; lra.
Qed.

Lemma at_least_zero_bounds (a : Q) : 0 <= at_least_zero a /\ (a <= 1 -> at_least_zero a <= 1).
Proof.
  unfold at_least_zero. destruct (Qlt_le_dec a 0); split; intros; lra.
Qed.

(** The health score stays within [0, 1] as long as the averages it is
    derived from are not negative: the throughput term is only capped from
    above and the latency term only from below, so the inputs matter. *)
Theorem health_score_within_unit_interval
    (current_time : Z) (m : monitor) (cm : real_time_metrics)
    (entropy_scores : list Q) :
  0 <= average_throughput_mbps cm ->
  0 <= average_latency_ms cm ->
  Forall (fun e => 0 <= e) entropy_scores ->
  0 <= overall_health_score (get_system_health current_time m cm entropy_scores) /\
  overall_health_score (get_system_health current_time m cm entropy_scores) <= 1.
Proof.
  intros Hthr Hlat Hent. unfold get_system_health. cbn [overall_health_score].
  assert (Hratio : 0 <= average_throughput_mbps cm / 50)
    by (apply Qle_shift_div_l; [reflexivity | lra]).
  assert (Hdelay : 0 <= average_latency_ms cm / 1000)
    by (apply Qle_shift_div_l; [reflexivity | lra]).
  destruct (at_most_one_bounds (average_throughput_mbps cm / 50)) as [Ht1 Ht0].
  destruct (at_least_zero_bounds (1 - average_latency_ms cm / 1000)) as [Hl0 Hl1].
  specialize (Ht0 Hratio). specialize (Hl1 ltac:(lra)).
  set (th := at_most_one (average_throughput_mbps cm / 50)) in *.
  set (lh := at_least_zero (1 - average_latency_ms cm / 1000)) in *.
  assert (Hq : 0 <= match entropy_scores with
                    | [] => 1
                    | _ :: _ => at_most_one (np_mean (last_n 10 entropy_scores) / 8)
                    end <= 1).
  { destruct entropy_scores as [|e rest] eqn:Hscores; [lra|].
    rewrite <- Hscores in *.
    destruct (at_most_one_bounds (np_mean (last_n 10 entropy_scores) / 8)) as [Hq1 Hq0].
    split; [|exact Hq1]. apply Hq0.
    apply Qle_shift_div_l; [reflexivity|].
    assert (0 <= np_mean (last_n 10 entropy_scores)); [|lra].
    apply np_mean_at_least.
    - apply last_n_nonempty; [lia | rewrite Hscores; discriminate].
    - unfold last_n. apply Forall_drop. exact Hent. }
  set (qh := match entropy_scores with
             | [] => 1
             | _ :: _ => at_most_one (np_mean (last_n 10 entropy_scores) / 8)
             end) in *.
  split.
  - apply Qle_shift_div_l; [reflexivity | lra].
  - apply Qle_shift_div_r; [reflexivity | lra].
Qed.

Lemma health_score_within_unit_interval_witness :
  0 <= overall_health_score (get_system_health 0 (__init__ 10) zero_metrics [7; 8]) /\
  overall_health_score (get_system_health 0 (__init__ 10) zero_metrics [7; 8]) <= 1.
Proof.
  apply (health_score_within_unit_interval 0 (__init__ 10) zero_metrics [7; 8]).
  - cbn. lra.
  - cbn. lra.
  - repeat constructor; lra.
Defined.




End MonitorOperations.

(* ===================================================================== *)
(** * Further properties of the validation suite *)
(* ===================================================================== *)

Section ValidationOperations.

Import Py Numpy QuantumRandomGenerator Reference.
Local Open Scope string_scope.
Local Open Scope nat_scope.

(** In every report the number of passed sub-tests is at most the number
    of sub-tests counted, which is at most the number of entries: only a
    dict can count as passed, and this holds whatever the entries are. *)
Theorem passed_tests_at_most_total_tests (tests : list (string * pyval)) :
  (0 <= passed_tests (overall_quality tests)
     <= total_tests (overall_quality tests))%Z /\
  (total_tests (overall_quality tests) <= Z.of_nat (length tests))%Z.
Proof.
  unfold overall_quality, dict_values. cbn [passed_tests total_tests].
  assert (Hle : forall vs : list pyval,
            length (List.filter counts_as_passed vs) <=
            length (List.filter isinstance_dict vs)).
  { induction vs as [|v vs IH]; [reflexivity|].
    cbn [List.filter]. destruct v; cbn [counts_as_passed isinstance_dict length]; try lia.
    destruct (truthy _); cbn [length]; lia. }
  pose proof (Hle (map snd tests)) as H1.
  pose proof (filter_length_le isinstance_dict (map snd tests)) as H2.
  rewrite length_map in H2. lia.
Qed.

Lemma is_nan_spec_float (c : float) :
  PrimFloat.is_nan c = true -> Prim2SF c = S754_nan.
Proof.
  unfold PrimFloat.is_nan. rewrite FloatAxioms.eqb_spec. unfold SFeqb.
  destruct (Prim2SF c) as [s|s| |s m e]; cbn [SFcompare negb].
  - discriminate.
  - destruct s; discriminate.
  - reflexivity.
  - rewrite Z.compare_refl.
    change (PosDef.Pos.compare_cont Eq m m) with (Pos.compare m m).
    rewrite Pos.compare_refl. destruct s; discriminate.
Qed.

(** A NaN never passes the threshold comparison. *)
Lemma nan_is_not_below_threshold (c : float) :
  PrimFloat.is_nan c = true -> PrimFloat.ltb (PrimFloat.abs c) f0_1 = false.
Proof.
  intros Hnan. rewrite FloatAxioms.ltb_spec, FloatAxioms.abs_spec.
  rewrite (is_nan_spec_float c Hnan). reflexivity.
Qed.

(** The correlation sub-test on at least two bytes returns a record, not
    an error marker, and the correlation it reports is never NaN: a NaN
    coefficient (constant data) is reported as 0.0, and the sub-test then
    does not pass although the reported value is below the threshold. *)
Theorem _serial_correlation_test_never_reports_nan
    (cc : list byte -> list byte -> float) (data : list byte) :
  2 <= length data ->
  is_error_marker (PyDict (_serial_correlation_test cc data)) = false /\
  exists c,
    dict_get (_serial_correlation_test cc data) "correlation" PyNone = PyFloat c /\
    PrimFloat.is_nan c = false /\
    (PrimFloat.is_nan (cc (slice_to data (-1)) (drop 1 data)) = true ->
     c = 0%float /\
     counts_as_passed (PyDict (_serial_correlation_test cc data)) = false).
Proof.
  intros Hlen. unfold _serial_correlation_test.
  destruct (length data <? 2) eqn:Hshort; [apply Nat.ltb_lt in Hshort; lia|].
  set (corr := cc (slice_to data (-1)) (drop 1 data)).
  split; [reflexivity|].
  destruct (PrimFloat.is_nan corr) eqn:Hnan.
  - exists 0%float. split; [reflexivity|]. split; [reflexivity|].
    intros _. split; [reflexivity|].
    cbn [counts_as_passed dict_get String.eqb Ascii.eqb Bool.eqb truthy].
    apply nan_is_not_below_threshold. exact Hnan.
  - exists corr. split; [reflexivity|]. split; [exact Hnan|].
    intros Habs. discriminate.
Qed.

Lemma _serial_correlation_test_never_reports_nan_witness :
  exists c,
    dict_get (_serial_correlation_test (fun _ _ => nan) [x07; x07; x07])
      "correlation" PyNone = PyFloat c /\
    PrimFloat.is_nan c = false.
Proof.
  destruct (_serial_correlation_test_never_reports_nan
              (fun _ _ => nan) [x07; x07; x07])
    as (_ & c & Hc & Hnan & _); [cbn; lia|].
  exists c. split; assumption.
Defined.

(** On fewer than two bytes the correlation sub-test answers with its
    error marker, which never counts as passed: such an input can pass at
    most four of the five sub-tests. *)
Theorem short_input_passes_at_most_four
    (ft rt ct et : list byte -> list (string * pyval))
    (cc : list byte -> list byte -> float) (data : list byte) :
  length data < 2 ->
  _serial_correlation_test cc data =
    [("error", PyStr "Insufficient data for correlation test")] /\
  (passed_tests (validate_randomness ft rt ct et cc data) <= 4)%Z.
Proof.
  intros Hshort.
  assert (Herr : _serial_correlation_test cc data =
                 [("error", PyStr "Insufficient data for correlation test")]).
  { unfold _serial_correlation_test.
    destruct (length data <? 2) eqn:Hlt; [reflexivity|].
    apply Nat.ltb_ge in Hlt. lia. }
  split; [exact Herr|].
  unfold validate_randomness. rewrite run_tests_entries, Herr.
  unfold overall_quality, dict_values.
  cbn [map snd List.filter passed_tests].
  destruct (counts_as_passed (PyDict (ft data))), (counts_as_passed (PyDict (rt data))),
           (counts_as_passed (PyDict (ct data))), (counts_as_passed (PyDict (et data)));
    vm_compute; discriminate.
Qed.

Lemma short_input_passes_at_most_four_witness :
  (passed_tests
     (validate_randomness
        (fun _ => [("passed", PyBool true)]) (fun _ => [("passed", PyBool true)])
        (fun _ => [("passed", PyBool true)]) (fun _ => [("passed", PyBool true)])
        (fun _ _ => 0%float) [x55]) <= 4)%Z.
Proof.
  apply (short_input_passes_at_most_four
           (fun _ => [("passed", PyBool true)]) (fun _ => [("passed", PyBool true)])
           (fun _ => [("passed", PyBool true)]) (fun _ => [("passed", PyBool true)])
           (fun _ _ => 0%float) [x55]).
  cbn. lia.
Defined.

End ValidationOperations.

(* ===================================================================== *)
(** * Properties of the generation routes *)
(* ===================================================================== *)

Section RouteOperations.

Import Py Builtins Numpy FloatRange FPGASimulator FPGAPacing GenerateRoutes BitOrder Reference.
Local Open Scope string_scope.
Local Open Scope list_scope.
Local Open Scope Z_scope.

Lemma rev_unpack_byte_lookup (b : byte) (k : nat) :
  (k < 8)%nat -> rev (unpack_byte b) !! k = Some (bit_at b k).
Proof.
  intros Hk.
  do 8 (destruct k as [|k]; [destruct b; vm_compute; reflexivity|]).
  lia.
Qed.

Lemma bits_lsb_first_length (bs : list byte) :
  length (bits_lsb_first bs) = (8 * length bs)%nat.
Proof.
  unfold bits_lsb_first. induction bs as [|b bs IH]; [reflexivity|].
  cbn [map concat length]. rewrite length_app, length_rev, unpack_byte_length, IH. lia.
Qed.

Lemma bits_lsb_first_lookup (bs : list byte) (n : nat) (b : byte) :
  bs !! (n / 8)%nat = Some b ->
  bits_lsb_first bs !! n = Some (bit_at b (n mod 8)).
Proof.
  revert n. induction bs as [|b0 bs IH]; intros n Hb; [discriminate|].
  unfold bits_lsb_first. cbn [map concat]. fold (bits_lsb_first bs).
  destruct (Nat.lt_ge_cases n 8) as [Hlt|Hge].
  - rewrite Nat.div_small in Hb by exact Hlt. injection Hb as <-.
    rewrite lookup_app_l by (rewrite length_rev, unpack_byte_length; exact Hlt).
    rewrite Nat.mod_small by exact Hlt. apply rev_unpack_byte_lookup. exact Hlt.
  - rewrite lookup_app_r by (rewrite length_rev, unpack_byte_length; exact Hge).
    rewrite length_rev, unpack_byte_length.
    replace n with ((n - 8) + 1 * 8)%nat in Hb at 1 by lia.
    rewrite Nat.div_add in Hb by lia.
    replace (((n - 8) / 8 + 1)%nat) with (S ((n - 8) / 8)) in Hb by lia.
    cbn [lookup list_lookup] in Hb.
    rewrite (IH (n - 8)%nat Hb). f_equal. f_equal.
    replace n with ((n - 8) + 1 * 8)%nat at 2 by lia.
    rewrite Nat.Div0.mod_add. reflexivity.
Qed.

Lemma getitem_nat {A : Type} (l : list A) (n : nat) :
  getitem l (Z.of_nat n) = l !! n.
Proof.
  unfold getitem. destruct (Z.of_nat n <? 0) eqn:Hneg; [apply Z.ltb_lt in Hneg; lia|].
  rewrite Nat2Z.id. reflexivity.
Qed.

Lemma boolean_round_some (random_bytes : list byte) (n : nat) :
  (n < 8 * length random_bytes)%nat ->
  boolean_round random_bytes (Some (take n (bits_lsb_first random_bytes))) (Z.of_nat n) =
  Some (take (S n) (bits_lsb_first random_bytes)).
Proof.
  intros Hn. unfold boolean_round. cbn [mbind option_bind].
  change 8 with (Z.of_nat 8). rewrite <- Nat2Z.inj_div, <- Nat2Z.inj_mod, getitem_nat.
  destruct (random_bytes !! (n / 8)%nat) as [b|] eqn:Hb.
  - cbn [mbind option_bind]. fold (bit_at b (n mod 8)).
    rewrite (take_S_r _ _ _ (bits_lsb_first_lookup _ _ _ Hb)). reflexivity.
  - apply lookup_ge_None in Hb.
    assert (n / 8 < length random_bytes)%nat; [|lia].
    apply Nat.Div0.div_lt_upper_bound. lia.
Qed.

Lemma boolean_rounds_none (random_bytes : list byte) (idx : list Z) :
  fold_left (boolean_round random_bytes) idx None = None.
Proof. induction idx as [|i idx IH]; [reflexivity|exact IH]. Qed.

Lemma boolean_rounds_prefix (random_bytes : list byte) (n : nat) :
  (n <= 8 * length random_bytes)%nat ->
  fold_left (boolean_round random_bytes) (map Z.of_nat (seq 0 n)) (Some []) =
  Some (take n (bits_lsb_first random_bytes)).
Proof.
  induction n as [|n IH]; intros Hn; [reflexivity|].
  rewrite seq_S, map_app, fold_left_app, IH by lia. cbn [map fold_left Nat.add].
  apply boolean_round_some. lia.
Qed.

Lemma extract_booleans_spec (count : Z) (random_bytes : list byte) :
  extract_booleans count random_bytes =
  if count <=? 8 * Z.of_nat (length random_bytes)
  then Some (take (Z.to_nat count) (bits_lsb_first random_bytes))
  else None.
Proof.
  unfold extract_booleans, range.
  destruct (count <=? 8 * Z.of_nat (length random_bytes)) eqn:Hle.
  - apply Z.leb_le in Hle. apply boolean_rounds_prefix. lia.
  - apply Z.leb_gt in Hle.
    set (full := (8 * length random_bytes)%nat).
    replace (Z.to_nat count) with (full + S (Z.to_nat count - full - 1))%nat by lia.
    rewrite seq_app, map_app, fold_left_app, boolean_rounds_prefix by (unfold full; lia).
    cbn [seq map fold_left Nat.add].
    replace (boolean_round random_bytes _ (Z.of_nat full)) with (@None (list bool)).
    + apply boolean_rounds_none.
    + unfold boolean_round. cbn [mbind option_bind].
      change 8 with (Z.of_nat 8). rewrite <- Nat2Z.inj_div, getitem_nat.
      unfold full. rewrite Nat.mul_comm, Nat.div_mul by lia.
      rewrite (proj2 (lookup_ge_None random_bytes (length random_bytes))) by lia.
      reflexivity.
Qed.

Lemma get_random_bytes_fpga (s : sources) (size : Z) (st : state) :
  get_random_bytes s size "fpga" st =
  let r := FPGAPacing.generate_random_bytes (fpga_draws s) (fpga_clock s) size st in
  (data ← r.1; mret (data, plain_metadata), r.2).
Proof.
  unfold get_random_bytes.
  replace (bool_decide ("fpga" ∈ TECHNIQUES)) with true by (vm_compute; reflexivity).
  cbn [negb String.eqb Ascii.eqb Bool.eqb].
  destruct (FPGAPacing.generate_random_bytes (fpga_draws s) (fpga_clock s) size st)
    as [[data|e] st1]; reflexivity.
Qed.

(** A call that finds fewer than [size] bytes in the buffer, with working
    samplers and a non-zero target rate, returns the debiased fresh noise. *)
Lemma generate_random_bytes_fresh_noise (d : draws) (size : Z) (st : state) :
  Z.of_nat (length (random_buffer st)) < size -> size <= sys_maxsize ->
  sampling_raises d = false ->
  ~ (target_throughput_mbps st == 0)%Q ->
  FPGASimulator.generate_random_bytes d size st =
  (Ok (_apply_debiasing (quantum_data d size)), update_statistics size st).
Proof.
  intros Hmiss Hmax Hok Htarget. unfold FPGASimulator.generate_random_bytes.
  destruct (size <=? Z.of_nat (length (random_buffer st))) eqn:Hle;
    [apply Z.leb_le in Hle; lia|].
  rewrite _generate_quantum_noise_regular by (try exact Hok; lia).
  destruct (expected_time_ok size (update_statistics size st)) as [t Ht]; [exact Htarget|].
  rewrite Ht. reflexivity.
Qed.

Lemma _apply_debiasing_bits (data : list byte) :
  (8 * length (_apply_debiasing data) <= 4 * length data + 7)%nat.
Proof.
  rewrite _apply_debiasing_length.
  pose proof (emitted_bound data) as Hb.
  destruct (length (scan_pairs (unpackbits data))) as [|e].
  - pose proof (Nat.Div0.mul_div_le (length data) 2). lia.
  - pose proof (Nat.Div0.mul_div_le (S e + 7) 8). lia.
Qed.

(** Within its range a call is recorded. *)
Lemma record_generation_recorded (now size : Z) (t : Q) (src : string)
    (m : PerformanceMonitor.monitor) :
  MonitorOverflow.within_range size src m = true ->
  exists m',
    MonitorOverflow.record_generation now size t src m = (Ok tt, m') /\
    PerformanceMonitor.total_bytes_generated m' =
      PerformanceMonitor.total_bytes_generated m + size.
Proof.
  intros Hrange. rewrite record_generation_in_range by exact Hrange.
  destruct (record_generation_effect now size t src m)
    as (m' & Hrec & _ & _ & _ & _ & _ & Hbytes & _).
  exists m'. split; [exact Hrec|exact Hbytes].
Qed.

(** A request for more than eight booleans that finds the buffer short of
    bytes is answered with status 500 (with working samplers, a non-zero
    target rate and a call within the limits of the pacing block): the
    noise source hands back the debiased chunk, which holds fewer bits
    than were asked for, and the extraction loop runs past its end.  The
    simulator has counted the request, the monitor has not. *)
Theorem generate_boolean_fails_on_buffer_miss
    (s : sources) (now : Z) (elapsed : Q) (count_field : Z)
    (st : state) (m : PerformanceMonitor.monitor) :
  8 < count_field ->
  Z.of_nat (length (random_buffer st)) < (Z.min count_field 100 + 7) / 8 ->
  sampling_raises (fpga_draws s) = false ->
  ~ (target_throughput_mbps st == 0)%Q ->
  within_limits (fpga_clock s) ((Z.min count_field 100 + 7) / 8) st = true ->
  generate_boolean s now elapsed count_field "fpga" st m =
  (ErrorStatus 500, update_statistics ((Z.min count_field 100 + 7) / 8) st, m).
Proof.
  intros Hcount Hmiss Hok Htarget Hlimits. unfold generate_boolean.
  set (count := Z.min count_field 100) in *.
  set (bytes_needed := (count + 7) / 8) in *.
  assert (Hc : 9 <= count <= 100) by (unfold count; lia).
  assert (Hn : 8 * bytes_needed <= count + 7 < 8 * bytes_needed + 8).
  { unfold bytes_needed. pose proof (Z.div_mod (count + 7) 8).
    pose proof (Z.mod_pos_bound (count + 7) 8). lia. }
  rewrite get_random_bytes_fpga.
  rewrite generate_random_bytes_within_limits by assumption.
  rewrite generate_random_bytes_fresh_noise
    by (try assumption; unfold sys_maxsize; lia).
  cbn [fst snd mbind exc_bind mret exc_ret].
  rewrite extract_booleans_spec.
  pose proof (_apply_debiasing_bits (quantum_data (fpga_draws s) bytes_needed)) as Hlen.
  rewrite quantum_data_length in Hlen.
  destruct (count <=? _) eqn:Hle; [|reflexivity].
  apply Z.leb_le in Hle. lia.
Qed.

Lemma generate_boolean_fails_on_buffer_miss_witness :
  (generate_boolean
     {| fpga_draws := Scenarios.zero_draws;
        fpga_clock := {| generation_time := 0; uptime := 1 |};
        retry_draws := Scenarios.zero_draws;
        retry_clock := {| generation_time := 0; uptime := 1 |};
        anu_reply := fun _ => Raised ValueError;
        anu_validation := None;
        os_random := fun _ => x00 |}
     0 0 100 "fpga" (__init__ 100) (PerformanceMonitor.__init__ 10)).1.1
  = ErrorStatus 500.
Proof.
  rewrite (generate_boolean_fails_on_buffer_miss
             {| fpga_draws := Scenarios.zero_draws;
                fpga_clock := {| generation_time := 0; uptime := 1 |};
                retry_draws := Scenarios.zero_draws;
                retry_clock := {| generation_time := 0; uptime := 1 |};
                anu_reply := fun _ => Raised ValueError;
                anu_validation := None;
                os_random := fun _ => x00 |}
             0 0 100 (__init__ 100) (PerformanceMonitor.__init__ 10)).
  - reflexivity.
  - lia.
  - vm_compute. reflexivity.
  - reflexivity.
  - intros H. vm_compute in H. discriminate.
  - vm_compute. reflexivity.
Defined.

Lemma append_rounds {A B : Type} (f : B -> A) (idx : list B) (acc : list A) :
  fold_left (fun results i => results ++ [f i]) idx acc = acc ++ map f idx.
Proof.
  revert acc. induction idx as [|i idx IH]; intros acc; cbn [fold_left map].
  - rewrite app_nil_r. reflexivity.
  - rewrite IH, <- app_assoc. reflexivity.
Qed.

Lemma integer_rounds (min_val range_size : Z) (random_bytes : list byte) (count : Z) :
  fold_left (integer_round min_val range_size random_bytes) (range count) [] =
  map (fun i => min_val +
                int_from_bytes_big (slice random_bytes (i * 4) (i * 4 + 4)) mod range_size)
      (range count).
Proof. unfold integer_round. rewrite append_rounds. reflexivity. Qed.


Lemma slice_past_end {A : Type} (l : list A) (start stop : Z) :
  Z.of_nat (length l) <= start -> slice l start stop = [].
Proof.
  intros Hstart. unfold slice. apply drop_ge. rewrite length_take.
  unfold slice_stop at 2.
  destruct (start <? 0) eqn:Hneg; [apply Z.ltb_lt in Hneg; lia|]. lia.
Qed.


(** An integer request that finds the buffer short of bytes (with working
    samplers, a non-zero target rate, a call within the limits of the
    pacing block and a monitor within its range) is answered with status
    200, but the debiased chunk covers at most the first half of the
    numbers: every number in the second half is [min]. *)
Theorem generate_number_integer_miss_repeats_minimum
    (s : sources) (now : Z) (elapsed : Q) (count_field min_val max_val : Z)
    (st : state) (m : PerformanceMonitor.monitor) :
  0 < count_field -> min_val < max_val ->
  Z.of_nat (length (random_buffer st)) < 4 * Z.min count_field 100 ->
  sampling_raises (fpga_draws s) = false ->
  ~ (target_throughput_mbps st == 0)%Q ->
  within_limits (fpga_clock s) (Z.min count_field 100 * 4) st = true ->
  MonitorOverflow.within_range (Z.min count_field 100 * 4) "fpga" m = true ->
  exists rs,
    (generate_number_integer s now elapsed count_field min_val max_val
       "fpga" st m).1.1 = Results rs /\
    forall i : nat,
      (Z.to_nat (Z.min count_field 100) <= 2 * i)%nat ->
      (i < Z.to_nat (Z.min count_field 100))%nat ->
      rs !! i = Some min_val.
Proof.
  intros Hcount Hrange Hmiss Hok Htarget Hlimits Hmonitor. unfold generate_number_integer.
  set (count := Z.min count_field 100) in *.
  destruct (min_val >=? max_val) eqn:Hge; [apply Z.geb_le in Hge; lia|].
  rewrite get_random_bytes_fpga.
  rewrite generate_random_bytes_within_limits by assumption.
  rewrite generate_random_bytes_fresh_noise
    by (try assumption; unfold sys_maxsize; lia).
  cbn [fst snd mbind exc_bind mret exc_ret].
  destruct (record_generation_recorded now (count * 4) elapsed "fpga" m Hmonitor)
    as (m' & Hrec & _).
  rewrite Hrec. cbn [jsonify_returns validation_passed plain_metadata fst].
  rewrite integer_rounds.
  eexists. split; [reflexivity|].
  intros i Hhalf Hi. unfold range.
  rewrite list_lookup_fmap, list_lookup_fmap, lookup_seq_lt by exact Hi.
  cbn [fmap option_fmap option_map Nat.add]. f_equal.
  pose proof (_apply_debiasing_bits (quantum_data (fpga_draws s) (count * 4))) as Hlen.
  rewrite quantum_data_length in Hlen.
  rewrite slice_past_end by lia.
  cbn [int_from_bytes_big fold_left]. rewrite Z.mod_0_l by lia. lia.
Qed.

Lemma generate_number_integer_miss_repeats_minimum_witness :
  exists rs,
    (generate_number_integer
       {| fpga_draws := Scenarios.zero_draws;
          fpga_clock := {| generation_time := 0; uptime := 1 |};
          retry_draws := Scenarios.zero_draws;
          retry_clock := {| generation_time := 0; uptime := 1 |};
          anu_reply := fun _ => Raised ValueError;
          anu_validation := None;
          os_random := fun _ => x00 |}
       0 0 4 1 6 "fpga" (__init__ 100) (PerformanceMonitor.__init__ 10)).1.1
      = Results rs /\
    rs !! 3%nat = Some 1.
Proof.
  destruct (generate_number_integer_miss_repeats_minimum
              {| fpga_draws := Scenarios.zero_draws;
                 fpga_clock := {| generation_time := 0; uptime := 1 |};
                 retry_draws := Scenarios.zero_draws;
                 retry_clock := {| generation_time := 0; uptime := 1 |};
                 anu_reply := fun _ => Raised ValueError;
                 anu_validation := None;
                 os_random := fun _ => x00 |}
              0 0 4 1 6 (__init__ 100) (PerformanceMonitor.__init__ 10))
    as (rs & Hrs & Hmin).
  - lia.
  - lia.
  - cbn. lia.
  - reflexivity.
  - intros H. vm_compute in H. discriminate.
  - vm_compute. reflexivity.
  - vm_compute. reflexivity.
  - exists rs. split; [exact Hrs|]. apply Hmin; cbn; lia.
Defined.

Lemma custom_rounds {A : Type} (options : list A) (random_bytes : list byte)
    (idx : list Z) (acc : list A) :
  options <> [] ->
  Forall (fun r => r ∈ options) acc ->
  exists rs,
    fold_left (custom_round options random_bytes) idx (Some acc) = Some rs /\
    length rs = (length acc + length idx)%nat /\
    Forall (fun r => r ∈ options) rs.
Proof.
  intros Hne. revert acc. induction idx as [|i idx IH]; intros acc Hacc.
  - exists acc. cbn [fold_left length]. repeat split; [lia|exact Hacc].
  - cbn [fold_left]. unfold custom_round at 2. cbn [mbind option_bind].
    set (k := int_from_bytes_big _ mod _).
    assert (Hk : 0 <= k < Z.of_nat (length options)).
    { apply Z.mod_pos_bound. destruct options; [congruence|cbn [length]; lia]. }
    unfold getitem. destruct (k <? 0) eqn:Hneg; [apply Z.ltb_lt in Hneg; lia|].
    destruct (lookup_lt_is_Some_2 options (Z.to_nat k)) as [choice Hchoice]; [lia|].
    rewrite Hchoice. cbn [mbind option_bind].
    destruct (IH (acc ++ [choice])) as (rs & Hrs & Hlen & Hall).
    + apply Forall_app. split; [exact Hacc|].
      apply Forall_singleton. eapply list_elem_of_lookup_2. exact Hchoice.
    + exists rs. split; [exact Hrs|]. split; [|exact Hall].
      rewrite Hlen, length_app. cbn [length]. lia.
Qed.



Lemma paced_generate_returns (d : draws) (c : clock) (size : Z) (st : state) :
  0 <= size <= sys_maxsize ->
  exists data, (FPGAPacing.generate_random_bytes d c size st).1 = Ok data.
Proof.
  intros Hsize.
  assert (Hfallback : exists data, token_bytes (generate_fallback d) size = Ok data).
  { unfold token_bytes.
    destruct (size <? 0) eqn:Hneg; [apply Z.ltb_lt in Hneg; lia|].
    destruct (sys_maxsize <? size) eqn:Hbig; [apply Z.ltb_lt in Hbig; lia|].
    eexists. reflexivity. }
  destruct Hfallback as [fallback Hfallback].
  unfold FPGAPacing.generate_random_bytes.
  destruct (size <=? Z.of_nat (length (random_buffer st))).
  - destruct (pacing c size _); [eexists; reflexivity|].
    rewrite Hfallback. eexists. reflexivity.
  - destruct (_generate_quantum_noise_returns d size Hsize) as [chunk ->].
    destruct (pacing c size _); [eexists; reflexivity|].
    rewrite Hfallback. eexists. reflexivity.
Qed.

(** With the hybrid technique and an ANU service that answers the
    validation, a custom request whose generator and monitor calls return
    is answered with status 500 all the same: the monitor has recorded
    the request, and [jsonify] raises on the metadata. *)
Theorem generate_custom_hybrid_answers_500
    (strip : string -> string) (s : sources) (now : Z) (elapsed : Q)
    (options : list string) (count_field : Z) (passed : bool)
    (st : state) (m : PerformanceMonitor.monitor) :
  0 <= count_field ->
  anu_validation s = Some passed ->
  Exists (fun opt => strip opt <> EmptyString) options ->
  MonitorOverflow.within_range (Z.min count_field 50 * 4) "hybrid" m = true ->
  (generate_custom strip s now elapsed options count_field "hybrid" st m).1.1
    = ErrorStatus 500 /\
  PerformanceMonitor.total_bytes_generated
    (generate_custom strip s now elapsed options count_field "hybrid" st m).2
    = PerformanceMonitor.total_bytes_generated m + Z.min count_field 50 * 4.
Proof.
  intros Hcount Hanswered Hoptions Hmonitor. unfold generate_custom.
  destruct (bool_decide (options = [])) eqn:Hnone.
  { apply bool_decide_eq_true in Hnone. subst options. inversion Hoptions. }
  set (cleaned := List.filter _ (map strip options)).
  assert (Hcleaned : cleaned <> []).
  { apply Exists_exists in Hoptions as (opt & Hin & Hne).
    assert (In (strip opt) cleaned).
    { apply filter_In. split.
      - apply in_map. apply list_elem_of_In. exact Hin.
      - cbn. destruct (strip opt); [congruence|reflexivity]. }
    intros Hnil. rewrite Hnil in H. exact H. }
  destruct (length cleaned =? 0)%nat eqn:Hempty.
  { apply Nat.eqb_eq in Hempty. destruct cleaned; [congruence|discriminate]. }
  set (total := Z.min count_field 50 * 4) in *.
  assert (Hget : exists data st1,
            get_random_bytes s total "hybrid" st = (Ok (data, hybrid_metadata s), st1)).
  { unfold get_random_bytes.
    replace (bool_decide ("hybrid" ∈ TECHNIQUES)) with true by (vm_compute; reflexivity).
    cbn [negb String.eqb Ascii.eqb Bool.eqb].
    destruct (paced_generate_returns (fpga_draws s) (fpga_clock s) total st)
      as [data Hdata]; [unfold total, sys_maxsize; lia|].
    destruct (FPGAPacing.generate_random_bytes (fpga_draws s) (fpga_clock s) total st)
      as [r st1].
    cbn [fst] in Hdata. subst r. exists data, st1. reflexivity. }
  destruct Hget as (data & st1 & ->).
  destruct (custom_rounds cleaned data (range (Z.min count_field 50)) [])
    as (rs & Hrs & _); [exact Hcleaned|constructor|].
  rewrite Hrs.
  destruct (record_generation_recorded now total elapsed "hybrid" m Hmonitor)
    as (m' & Hrec & Hbytes).
  rewrite Hrec. unfold jsonify_returns, hybrid_metadata. cbn [validation_passed].
  rewrite Hanswered. cbn [fst snd]. split; [reflexivity|exact Hbytes].
Qed.

Lemma generate_custom_hybrid_answers_500_witness :
  (generate_custom (fun opt => opt)
     {| fpga_draws := Scenarios.zero_draws;
        fpga_clock := {| generation_time := 0; uptime := 1 |};
        retry_draws := Scenarios.zero_draws;
        retry_clock := {| generation_time := 0; uptime := 1 |};
        anu_reply := fun _ => Raised ValueError;
        anu_validation := Some true;
        os_random := fun _ => x00 |}
     0 0 ["a"; "b"] 1 "hybrid" (__init__ 100) (PerformanceMonitor.__init__ 10)).1.1
  = ErrorStatus 500.
Proof.
  apply (generate_custom_hybrid_answers_500 (fun opt => opt)
           {| fpga_draws := Scenarios.zero_draws;
              fpga_clock := {| generation_time := 0; uptime := 1 |};
              retry_draws := Scenarios.zero_draws;
              retry_clock := {| generation_time := 0; uptime := 1 |};
              anu_reply := fun _ => Raised ValueError;
              anu_validation := Some true;
              os_random := fun _ => x00 |}
           0 0 ["a"; "b"] 1 true (__init__ 100) (PerformanceMonitor.__init__ 10)).
  - lia.
  - reflexivity.
  - apply Exists_cons_hd. discriminate.
  - vm_compute. reflexivity.
Defined.

(** For a size between 0 and the largest length, [get_random_bytes]
    returns data whatever the technique: a generator that raises is
    replaced by the simulator, which does not raise.  A technique that is
    not listed is served by the simulator as well. *)
Theorem get_random_bytes_always_returns
    (s : sources) (size : Z) (technique : string) (st : state) :
  0 <= size <= sys_maxsize ->
  exists data md, (get_random_bytes s size technique st).1 = Ok (data, md).
Proof.
  intros Hsize. unfold get_random_bytes.
  set (attempt := if negb (bool_decide (technique ∈ TECHNIQUES)) then _ else _).
  cbv zeta. destruct attempt as [[[data md]|e] st1] eqn:Hattempt;
    [exists data, md; reflexivity|].
  unfold attempt in Hattempt.
  destruct (paced_generate_returns (retry_draws s) (retry_clock s) size st1 Hsize)
    as [data Hdata].
  destruct (negb (technique =? "fpga")%string) eqn:Hfpga.
  - cbn [fst]. rewrite Hdata. exists data, plain_metadata. reflexivity.
  - apply negb_false_iff, String.eqb_eq in Hfpga. subst technique.
    replace (bool_decide ("fpga" ∈ TECHNIQUES)) with true in Hattempt
      by (vm_compute; reflexivity).
    cbn [negb String.eqb Ascii.eqb Bool.eqb] in Hattempt.
    destruct (paced_generate_returns (fpga_draws s) (fpga_clock s) size st Hsize)
      as [data' Hdata'].
    destruct (FPGAPacing.generate_random_bytes (fpga_draws s) (fpga_clock s) size st)
      as [r st0].
    cbn [fst] in Hdata'. subst r. cbn in Hattempt. discriminate.
Qed.

Lemma get_random_bytes_always_returns_witness :
  exists data md,
    (get_random_bytes
       {| fpga_draws := Scenarios.zero_draws;
          fpga_clock := {| generation_time := 0; uptime := 1 |};
          retry_draws := Scenarios.zero_draws;
          retry_clock := {| generation_time := 0; uptime := 1 |};
          anu_reply := fun _ => Raised ValueError;
          anu_validation := None;
          os_random := fun _ => x00 |}
       4 "anu" (__init__ 100)).1 = Ok (data, md).
Proof.
  apply (get_random_bytes_always_returns
           {| fpga_draws := Scenarios.zero_draws;
              fpga_clock := {| generation_time := 0; uptime := 1 |};
              retry_draws := Scenarios.zero_draws;
              retry_clock := {| generation_time := 0; uptime := 1 |};
              anu_reply := fun _ => Raised ValueError;
              anu_validation := None;
              os_random := fun _ => x00 |}
           4 "anu" (__init__ 100)).
  unfold sys_maxsize. lia.
Defined.

Lemma bits_lsb_first_take (n : nat) (bs : list byte) :
  bits_lsb_first (take n bs) = take (8 * n) (bits_lsb_first bs).
Proof.
  revert bs. induction n as [|n IH]; intros bs; [reflexivity|].
  destruct bs as [|b bs]; [reflexivity|].
  unfold bits_lsb_first. cbn [take map concat]. fold (bits_lsb_first (take n bs)).
  fold (bits_lsb_first bs). rewrite IH.
  replace (8 * S n)%nat with (length (rev (unpack_byte b)) + 8 * n)%nat
    by (rewrite length_rev, unpack_byte_length; lia).
  rewrite take_app_add. reflexivity.
Qed.

(** A boolean request that the buffer can serve (with a non-zero target
    rate, a call within the limits of the pacing block and a monitor
    within its range) is answered with the bits of the oldest buffered
    bytes, each byte read from its least significant bit upwards (the
    debiaser packs them most significant first), and removes exactly
    [(count + 7) // 8] bytes from the buffer. *)
Theorem generate_boolean_hit_reads_lsb_first
    (s : sources) (now : Z) (elapsed : Q) (count_field : Z)
    (st : state) (m : PerformanceMonitor.monitor) :
  0 <= count_field ->
  (Z.min count_field 100 + 7) / 8 <= Z.of_nat (length (random_buffer st)) ->
  ~ (target_throughput_mbps st == 0)%Q ->
  within_limits (fpga_clock s) ((Z.min count_field 100 + 7) / 8) st = true ->
  MonitorOverflow.within_range ((Z.min count_field 100 + 7) / 8) "fpga" m = true ->
  (generate_boolean s now elapsed count_field "fpga" st m).1.1 =
    Results (take (Z.to_nat (Z.min count_field 100)) (bits_lsb_first (random_buffer st))) /\
  random_buffer (generate_boolean s now elapsed count_field "fpga" st m).1.2 =
    drop (Z.to_nat ((Z.min count_field 100 + 7) / 8)) (random_buffer st).
Proof.
  intros Hcount Hhit Htarget Hlimits Hmonitor. unfold generate_boolean.
  set (count := Z.min count_field 100) in *.
  set (bytes_needed := (count + 7) / 8) in *.
  assert (Hn : 8 * bytes_needed <= count + 7 < 8 * bytes_needed + 8).
  { unfold bytes_needed. pose proof (Z.div_mod (count + 7) 8).
    pose proof (Z.mod_pos_bound (count + 7) 8). lia. }
  rewrite get_random_bytes_fpga.
  rewrite generate_random_bytes_within_limits by assumption.
  rewrite generate_random_bytes_served by (try exact Htarget; lia).
  cbn [fst snd mbind exc_bind mret exc_ret].
  unfold slice_to, del_slice_to. rewrite slice_stop_nonneg by (unfold count in *; lia).
  rewrite extract_booleans_spec, length_take.
  destruct (count <=? _) eqn:Hle; [|apply Z.leb_gt in Hle; unfold count in *; lia].
  destruct (record_generation_recorded now bytes_needed elapsed "fpga" m Hmonitor)
    as (m' & Hrec & _).
  rewrite Hrec.
  cbn [jsonify_returns validation_passed plain_metadata fst snd random_buffer
       update_statistics set_random_buffer].
  split; [|reflexivity].
  rewrite bits_lsb_first_take, take_take. do 2 f_equal. unfold count in *. lia.
Qed.

Lemma generate_boolean_hit_reads_lsb_first_witness :
  (generate_boolean
     {| fpga_draws := Scenarios.zero_draws;
        fpga_clock := {| generation_time := 0; uptime := 1 |};
        retry_draws := Scenarios.zero_draws;
        retry_clock := {| generation_time := 0; uptime := 1 |};
        anu_reply := fun _ => Raised ValueError;
        anu_validation := None;
        os_random := fun _ => x00 |}
     0 0 3 "fpga"
     (set_random_buffer [x06; xff] (__init__ 100))
     (PerformanceMonitor.__init__ 10)).1.1 = Results [false; true; true].
Proof.
  apply (generate_boolean_hit_reads_lsb_first
           {| fpga_draws := Scenarios.zero_draws;
              fpga_clock := {| generation_time := 0; uptime := 1 |};
              retry_draws := Scenarios.zero_draws;
              retry_clock := {| generation_time := 0; uptime := 1 |};
              anu_reply := fun _ => Raised ValueError;
              anu_validation := None;
              os_random := fun _ => x00 |}
           0 0 3 (set_random_buffer [x06; xff] (__init__ 100))
           (PerformanceMonitor.__init__ 10)).
  - lia.
  - vm_compute. discriminate.
  - intros H. vm_compute in H. discriminate.
  - vm_compute. reflexivity.
  - vm_compute. reflexivity.
Defined.

End RouteOperations.

(* ===================================================================== *)
(** * Properties of the key utilities and of the key routes *)
(* ===================================================================== *)

Section CryptoOperations.

Import Py Builtins FPGASimulator CryptoUtils ApiRoutes.
Local Open Scope string_scope.
Local Open Scope list_scope.
Local Open Scope Z_scope.

Variable hmac_sha256 : list byte -> list byte -> list byte.
Hypothesis hmac_sha256_length : forall key msg, length (hmac_sha256 key msg) = 32%nat.

Lemma bytes_of_int_ok (v : Z) :
  0 <= v < 256 -> exists b, bytes_of_int v = Ok [b].
Proof.
  intros Hv. unfold bytes_of_int.
  destruct (0 <=? v) eqn:H0; [|apply Z.leb_gt in H0; lia].
  destruct (v <? 256) eqn:H1; [|apply Z.ltb_ge in H1; lia].
  cbn [andb].
  destruct (Byte.of_N (Z.to_N v)) as [b|] eqn:Hb; [exists b; reflexivity|].
  apply Byte.of_N_None_iff in Hb. lia.
Qed.

Lemma bytes_of_int_raises (v : Z) :
  256 <= v -> bytes_of_int v = Raised ValueError.
Proof.
  intros Hv. unfold bytes_of_int.
  destruct (v <? 256) eqn:H1; [apply Z.ltb_lt in H1; lia|].
  rewrite andb_false_r. reflexivity.
Qed.

Lemma expand_rounds_raised (prk : list byte) (e : exn) (idx : list Z) :
  fold_left (expand_round hmac_sha256 prk) idx (Raised e) = Raised e.
Proof. induction idx as [|i idx IH]; [reflexivity|exact IH]. Qed.

(** The first [n] rounds of the expand loop, [n] at most 255: each round
    appends one digest to the output of the rounds before it. *)
Lemma expand_rounds_ok (prk : list byte) (n : nat) :
  (n <= 255)%nat ->
  exists okm previous,
    fold_left (expand_round hmac_sha256 prk) (range (Z.of_nat n)) (Ok ([], []))
      = Ok (okm, previous) /\
    length okm = (32 * n)%nat /\
    forall k, (k <= n)%nat ->
      exists okm' previous',
        fold_left (expand_round hmac_sha256 prk) (range (Z.of_nat k)) (Ok ([], []))
          = Ok (okm', previous') /\
        okm' = take (32 * k) okm.
Proof.
  unfold range. rewrite Nat2Z.id.
  induction n as [|n IH]; intros Hn.
  - exists [], []. split; [reflexivity|]. split; [reflexivity|].
    intros k Hk. replace k with 0%nat by lia. rewrite Nat2Z.id.
    exists [], []. split; reflexivity.
  - destruct IH as (okm & previous & Hfold & Hlen & Hprefix); [lia|].
    rewrite seq_S, map_app, fold_left_app, Hfold. cbn [map fold_left Nat.add].
    unfold expand_round at 1. cbn [mbind exc_bind].
    destruct (bytes_of_int_ok (Z.of_nat n + 1)) as [b Hb]; [lia|].
    rewrite Hb. cbn [mbind exc_bind mret exc_ret fst snd].
    set (block := hmac_sha256 prk (previous ++ info ++ [b])).
    exists (okm ++ block), block. split; [reflexivity|]. split.
    + rewrite length_app, Hlen. unfold block. rewrite hmac_sha256_length. lia.
    + intros k Hk. destruct (Nat.eq_dec k (S n)) as [->|Hne].
      * rewrite Nat2Z.id, seq_S, map_app, fold_left_app, Hfold.
        cbn [map fold_left Nat.add]. unfold expand_round at 1. cbn [mbind exc_bind].
        rewrite Hb. cbn [mbind exc_bind mret exc_ret fst snd].
        exists (okm ++ block), block. split; [reflexivity|].
        rewrite take_ge; [reflexivity|].
        rewrite length_app, Hlen. unfold block. rewrite hmac_sha256_length. lia.
      * destruct (Hprefix k) as (okm' & previous' & Hk' & Htake); [lia|].
        exists okm', previous'. split; [exact Hk'|].
        rewrite take_app_le by lia. exact Htake.
Qed.

Lemma expand_rounds_overflow (prk : list byte) (n : Z) :
  255 < n ->
  fold_left (expand_round hmac_sha256 prk) (range n) (Ok ([], [])) = Raised ValueError.
Proof.
  intros Hn. unfold range.
  replace (Z.to_nat n) with (255 + S (Z.to_nat n - 256))%nat by lia.
  rewrite seq_app, map_app, fold_left_app.
  destruct (expand_rounds_ok prk 255) as (okm & previous & Hfold & _); [lia|].
  unfold range in Hfold. rewrite Nat2Z.id in Hfold. rewrite Hfold.
  cbn [seq map fold_left Nat.add].
  unfold expand_round at 2. cbn [mbind exc_bind].
  rewrite bytes_of_int_raises by lia. cbn [mbind exc_bind].
  apply expand_rounds_raised.
Qed.

Lemma rounds_needed (output_size : Z) :
  0 <= output_size ->
  let n := (output_size + 32 - 1) / 32 in
  0 <= n /\ output_size <= 32 * n < output_size + 32.
Proof.
  intros Hsize n. unfold n.
  pose proof (Z.div_mod (output_size + 32 - 1) 32).
  pose proof (Z.mod_pos_bound (output_size + 32 - 1) 32). lia.
Qed.

Lemma _expand_entropy_body_ok (seed : list byte) (output_size : Z) :
  0 <= output_size <= 8160 ->
  exists okm previous,
    fold_left (expand_round hmac_sha256 (hmac_sha256 salt seed))
      (range ((output_size + 32 - 1) / 32)) (Ok ([], [])) = Ok (okm, previous) /\
    _expand_entropy_body hmac_sha256 seed output_size
      = Ok (take (Z.to_nat output_size) okm) /\
    (Z.to_nat output_size <= length okm)%nat.
Proof.
  intros Hsize.
  destruct (rounds_needed output_size) as [Hn0 Hn]; [lia|].
  set (n := (output_size + 32 - 1) / 32) in *.
  destruct (expand_rounds_ok (hmac_sha256 salt seed) (Z.to_nat n))
    as (okm & previous & Hfold & Hlen & _); [lia|].
  rewrite Z2Nat.id in Hfold by lia.
  exists okm, previous. split; [exact Hfold|].
  unfold _expand_entropy_body. fold n. rewrite Hfold.
  cbn [mbind exc_bind mret exc_ret fst]. unfold slice_to.
  rewrite slice_stop_nonneg by lia. split; [reflexivity|lia].
Qed.

Lemma _expand_entropy_spec
    (os : nat -> byte) (seed : list byte) (output_size : Z) :
  0 <= output_size <= sys_maxsize ->
  exists out,
    _expand_entropy hmac_sha256 os seed output_size = Ok out /\
    length out = Z.to_nat output_size /\
    (output_size <= 8160 ->
     _expand_entropy_body hmac_sha256 seed output_size = Ok out) /\
    (8160 < output_size -> out = map os (seq 0 (Z.to_nat output_size))).
Proof.
  intros Hsize. unfold _expand_entropy.
  destruct (Z.le_gt_cases output_size 8160) as [Hsmall|Hbig].
  - destruct (_expand_entropy_body_ok seed output_size) as (okm & previous & _ & Hbody & Hlen);
      [lia|].
    rewrite Hbody. cbn [try_except].
    exists (take (Z.to_nat output_size) okm).
    split; [reflexivity|]. split; [rewrite length_take; lia|].
    split; [reflexivity|lia].
  - destruct (rounds_needed output_size) as [Hn0 Hn]; [lia|].
    unfold _expand_entropy_body.
    rewrite expand_rounds_overflow by lia.
    cbn [mbind exc_bind try_except]. unfold token_bytes.
    destruct (output_size <? 0) eqn:Hneg; [apply Z.ltb_lt in Hneg; lia|].
    destruct (sys_maxsize <? output_size) eqn:Hmax; [apply Z.ltb_lt in Hmax; lia|].
    eexists. split; [reflexivity|].
    split; [rewrite length_map, length_seq; reflexivity|].
    split; [lia|reflexivity].
Qed.

(** The expansion of one seed to fewer bytes is a prefix of its expansion
    to more bytes, up to 8160 bytes. *)
Lemma _expand_entropy_body_prefix (seed : list byte) (a b : Z) :
  0 <= a <= b -> b <= 8160 ->
  exists out,
    _expand_entropy_body hmac_sha256 seed b = Ok out /\
    _expand_entropy_body hmac_sha256 seed a = Ok (take (Z.to_nat a) out).
Proof.
  intros Hab Hb.
  destruct (rounds_needed a) as [Ha0 Hna]; [lia|].
  destruct (rounds_needed b) as [Hb0 Hnb]; [lia|].
  set (na := (a + 32 - 1) / 32) in *. set (nb := (b + 32 - 1) / 32) in *.
  destruct (expand_rounds_ok (hmac_sha256 salt seed) (Z.to_nat nb))
    as (okm & previous & Hfold & Hlen & Hprefix); [lia|].
  destruct (Hprefix (Z.to_nat na)) as (okm' & previous' & Hfold' & Htake).
  { lia. }
  rewrite Z2Nat.id in Hfold, Hfold' by lia.
  exists (take (Z.to_nat b) okm). unfold _expand_entropy_body. fold na nb.
  rewrite Hfold, Hfold'. cbn [mbind exc_bind mret exc_ret fst]. unfold slice_to.
  assert (Hlen' : length okm' = (32 * Z.to_nat na)%nat).
  { rewrite Htake, length_take. apply Nat.min_l. rewrite Hlen.
    lia. }
  rewrite !slice_stop_nonneg by lia.
  split; [reflexivity|]. f_equal.
  rewrite Htake, !take_take. f_equal. lia.
Qed.

(** [_expand_entropy] returns exactly [output_size] bytes.  Up to 8160
    bytes they are the HKDF-like expansion of the seed and do not depend
    on the OS randomness; beyond that the round counter no longer fits a
    byte, the [except] clause takes over and the result is fresh OS
    randomness that does not depend on the seed. *)
Theorem _expand_entropy_exact_length
    (os : nat -> byte) (seed : list byte) (output_size : Z) :
  0 <= output_size <= sys_maxsize ->
  exists out,
    _expand_entropy hmac_sha256 os seed output_size = Ok out /\
    length out = Z.to_nat output_size /\
    (output_size <= 8160 ->
     forall os', _expand_entropy hmac_sha256 os' seed output_size = Ok out) /\
    (8160 < output_size ->
     out = map os (seq 0 (Z.to_nat output_size)) /\
     forall seed', _expand_entropy hmac_sha256 os seed' output_size = Ok out).
Proof.
  intros Hsize.
  destruct (_expand_entropy_spec os seed output_size Hsize)
    as (out & Hout & Hlen & Hsmall & Hbig).
  exists out. split; [exact Hout|]. split; [exact Hlen|]. split.
  - intros Hle os'. unfold _expand_entropy. rewrite (Hsmall Hle). reflexivity.
  - intros Hgt. split; [exact (Hbig Hgt)|].
    intros seed'.
    destruct (_expand_entropy_spec os seed' output_size Hsize)
      as (out' & Hout' & _ & _ & Hbig').
    rewrite Hout'. f_equal. rewrite (Hbig Hgt), (Hbig' Hgt). reflexivity.
Qed.

(** Expanding one seed to fewer bytes gives a prefix of expanding it to
    more bytes, up to 8160 bytes, whatever the OS streams. *)
Theorem _expand_entropy_prefix
    (os os' : nat -> byte) (seed : list byte) (a b : Z) :
  0 <= a <= b -> b <= 8160 ->
  exists out,
    _expand_entropy hmac_sha256 os seed b = Ok out /\
    _expand_entropy hmac_sha256 os' seed a = Ok (take (Z.to_nat a) out).
Proof.
  intros Hab Hb.
  destruct (_expand_entropy_body_prefix seed a b Hab Hb) as (out & Hout & Htake).
  exists out. unfold _expand_entropy. rewrite Hout, Htake. split; reflexivity.
Qed.

Lemma paced_generate_length_le (d : draws) (c : FPGAPacing.clock) (size : Z)
    (st : state) (data : list byte) :
  0 <= size ->
  (FPGAPacing.generate_random_bytes d c size st).1 = Ok data ->
  (length data <= Z.to_nat size)%nat.
Proof.
  intros Hsize. unfold FPGAPacing.generate_random_bytes.
  destruct (size <=? Z.of_nat (length (random_buffer st))) eqn:Hhit.
  - apply Z.leb_le in Hhit.
    destruct (FPGAPacing.pacing c size _); cbn [fst].
    + intros [= <-]. unfold slice_to. rewrite length_take.
      rewrite slice_stop_nonneg by lia. lia.
    + intros Hfallback. apply token_bytes_length in Hfallback. lia.
  - destruct (_generate_quantum_noise d size) as [chunk|e] eqn:Hnoise.
    + destruct (FPGAPacing.pacing c size _); cbn [fst].
      * intros [= <-]. apply _generate_quantum_noise_length in Hnoise. exact Hnoise.
      * intros Hfallback. apply token_bytes_length in Hfallback. lia.
    + cbn [fst]. intros Hfallback. apply token_bytes_length in Hfallback. lia.
Qed.

Lemma slice_from_past_end {A : Type} (l : list A) (start : Z) :
  Z.of_nat (length l) <= start -> slice_from l start = [].
Proof.
  intros Hstart. unfold slice_from, slice_stop.
  destruct (start <? 0) eqn:Hneg; [apply Z.ltb_lt in Hneg; lia|].
  apply drop_ge. lia.
Qed.

(** A symmetric key always has exactly [key_size_bits // 8] bytes, also
    when the simulator handed back fewer bytes than that: the shortfall is
    made up by expansion.  The answer is that key in the requested format.
    When the buffer can serve the request, with a non-zero target rate and
    within the limits of the pacing block, the key is the oldest buffered
    bytes, unchanged. *)
Theorem generate_crypto_keys_symmetric_length
    (hex b64encode : list byte -> string)
    (d : draws) (c : FPGAPacing.clock) (os : nat -> nat -> byte)
    (key_size_bits : Z) (format_type : string) (st : state) :
  0 <= key_size_bits -> key_size_bits / 8 <= sys_maxsize ->
  exists key,
    (generate_crypto_keys hmac_sha256 hex b64encode d c os key_size_bits
       "symmetric" format_type st).1
      = Key (format_key hex b64encode format_type (KeyBytes key)) /\
    length key = Z.to_nat (key_size_bits / 8) /\
    (key_size_bits / 8 <= Z.of_nat (length (random_buffer st)) ->
     ~ (target_throughput_mbps st == 0)%Q ->
     FPGAPacing.within_limits c (key_size_bits / 8) st = true ->
     key = take (Z.to_nat (key_size_bits / 8)) (random_buffer st)).
Proof.
  intros Hbits Hmax. unfold generate_crypto_keys.
  set (key_bytes := key_size_bits / 8) in *.
  assert (Hkb : 0 <= key_bytes) by (unfold key_bytes; apply Z.div_pos; lia).
  destruct (paced_generate_returns d c key_bytes st) as [data Hdata]; [lia|].
  pose proof (paced_generate_length_le d c key_bytes st data Hkb Hdata) as Hle.
  destruct (FPGAPacing.generate_random_bytes d c key_bytes st) as [r st1] eqn:Hgen.
  cbn [fst] in Hdata. subst r. cbn [String.eqb Ascii.eqb Bool.eqb orb].
  assert (Hformat : forall key,
            serializable (format_key hex b64encode format_type (KeyBytes key)) = true).
  { intros key. unfold format_key.
    destruct (format_type =? "hex")%string; [reflexivity|].
    destruct (format_type =? "base64")%string; reflexivity. }
  unfold generate_symmetric_key. fold key_bytes.
  destruct (Z.of_nat (length data) >=? key_bytes) eqn:Henough.
  - rewrite Z.geb_leb in Henough. apply Z.leb_le in Henough.
    cbn [try_except mbind exc_bind mret exc_ret]. rewrite Hformat. cbn [fst].
    exists (slice_to data key_bytes).
    split; [reflexivity|].
    unfold slice_to. rewrite slice_stop_nonneg by lia.
    split; [rewrite length_take; lia|].
    intros Hhit Htarget Hlimits.
    rewrite generate_random_bytes_within_limits in Hgen by assumption.
    rewrite generate_random_bytes_served in Hgen by assumption.
    injection Hgen as <- _. unfold slice_to. rewrite slice_stop_nonneg by lia.
    rewrite take_take. f_equal. lia.
  - rewrite Z.geb_leb in Henough. apply Z.leb_gt in Henough.
    destruct (_expand_entropy_spec (os 0%nat) data key_bytes)
      as (out & Hout & Hlen & _); [lia|].
    rewrite Hout. cbn [try_except mbind exc_bind mret exc_ret].
    rewrite Hformat. cbn [fst]. exists out.
    split; [reflexivity|]. split; [exact Hlen|].
    intros Hhit Htarget Hlimits.
    rewrite generate_random_bytes_within_limits in Hgen by assumption.
    rewrite generate_random_bytes_served in Hgen by assumption.
    injection Hgen as <- _. unfold slice_to in Henough.
    rewrite length_take, slice_stop_nonneg in Henough by lia. lia.
Qed.

(** The seed dictionary always holds [bytes] objects, so it cannot be
    written as JSON. *)
Lemma rsa_seed_dict_not_serializable (seed : rsa_seed) :
  serializable (rsa_seed_dict seed) = false.
Proof. reflexivity. Qed.

Lemma generate_crypto_keys_rsa_seed_status
    (hex b64encode : list byte -> string)
    (d : draws) (c : FPGAPacing.clock) (os : nat -> nat -> byte)
    (key_size_bits : Z) (format_type : string) (st : state) :
  (generate_crypto_keys hmac_sha256 hex b64encode d c os key_size_bits
     "rsa_seed" format_type st).1 = KeyError 500.
Proof.
  unfold generate_crypto_keys.
  destruct (FPGAPacing.generate_random_bytes d c (key_size_bits / 8) st)
    as [[random_data|e] st1]; [|reflexivity].
  cbn [String.eqb Ascii.eqb Bool.eqb orb].
  destruct (generate_rsa_seed hmac_sha256 os random_data 64) as [seed|e];
    cbn [mbind exc_bind mret exc_ret]; [|reflexivity].
  cbn [format_key]. rewrite rsa_seed_dict_not_serializable. reflexivity.
Qed.

(** An [rsa_seed] request is never answered with a seed: the dictionary
    of [bytes] makes [jsonify] raise, and the answer is status 500 after
    the bytes have been taken from the simulator.  For a key size below
    520 bits the seed that was built and could not be sent has a [seed_q]
    and an [auxiliary_entropy] that do not depend on the random data: the
    simulator returns at most 64 bytes, the slices past byte 64 are
    empty, and both fields are the expansion of the empty seed, the
    second a prefix of the first. *)
Theorem generate_crypto_keys_rsa_seed_answers_500
    (hex b64encode : list byte -> string)
    (d : draws) (c : FPGAPacing.clock) (os : nat -> nat -> byte)
    (key_size_bits : Z) (format_type : string) (st : state) :
  0 <= key_size_bits < 520 ->
  (generate_crypto_keys hmac_sha256 hex b64encode d c os key_size_bits
     "rsa_seed" format_type st).1 = KeyError 500 /\
  (generate_crypto_keys hmac_sha256 hex b64encode d c os key_size_bits
     "rsa_seed" format_type st).2
    = (FPGAPacing.generate_random_bytes d c (key_size_bits / 8) st).2 /\
  exists random_data seed,
    (FPGAPacing.generate_random_bytes d c (key_size_bits / 8) st).1 = Ok random_data /\
    generate_rsa_seed hmac_sha256 os random_data 64 = Ok seed /\
    _expand_entropy_body hmac_sha256 [] 64 = Ok (seed_q seed) /\
    auxiliary_entropy seed = take 32 (seed_q seed).
Proof.
  intros Hbits. split; [apply generate_crypto_keys_rsa_seed_status|].
  set (key_bytes := key_size_bits / 8) in *.
  assert (Hkb : 0 <= key_bytes <= 64).
  { unfold key_bytes. split; [apply Z.div_pos; lia|].
    apply Z.lt_succ_r. apply Z.div_lt_upper_bound; lia. }
  destruct (paced_generate_returns d c key_bytes st) as [data Hdata];
    [unfold sys_maxsize; lia|].
  pose proof (paced_generate_length_le d c key_bytes st data (proj1 Hkb) Hdata) as Hle.
  assert (Hseed : exists seed,
            generate_rsa_seed hmac_sha256 os data 64 = Ok seed /\
            _expand_entropy_body hmac_sha256 [] 64 = Ok (seed_q seed) /\
            auxiliary_entropy seed = take 32 (seed_q seed)).
  { unfold generate_rsa_seed.
    rewrite !slice_from_past_end by lia.
    destruct (_expand_entropy_spec (os 0%nat) data 64) as (p & Hp & _);
      [unfold sys_maxsize; lia|].
    destruct (_expand_entropy_body_prefix [] 32 64) as (q & Hq & Haux); [lia|lia|].
    rewrite Hp. unfold _expand_entropy. rewrite Hq, Haux.
    cbn [mbind exc_bind mret exc_ret try_except].
    eexists. split; [reflexivity|]. cbn [seed_q auxiliary_entropy].
    split; reflexivity. }
  destruct Hseed as (seed & Hseed & Hq & Haux).
  split.
  - unfold generate_crypto_keys. fold key_bytes.
    destruct (FPGAPacing.generate_random_bytes d c key_bytes st) as [[data'|e] st1];
      [|reflexivity].
    cbn [String.eqb Ascii.eqb Bool.eqb orb].
    destruct (generate_rsa_seed hmac_sha256 os data' 64) as [seed'|e];
      cbn [mbind exc_bind mret exc_ret]; [|reflexivity].
    cbn [format_key]. rewrite rsa_seed_dict_not_serializable. reflexivity.
  - exists data, seed. repeat split; assumption.
Qed.

(** A [/random] request whose measured generation time is zero is
    answered with status 500, after the bytes have been taken from the
    buffer and before the monitor has been told: the throughput division
    raises. *)
Theorem generate_random_zero_time_loses_bytes
    (d : draws) (anu_reply : exc (list byte)) (now : Z) (generation_time : Q)
    (size_bytes : Z) (st : state) (m : PerformanceMonitor.monitor) :
  (generation_time == 0)%Q ->
  0 <= size_bytes <= Z.of_nat (length (random_buffer st)) ->
  ~ (target_throughput_mbps st == 0)%Q ->
  generate_random d anu_reply now generation_time size_bytes "fpga" st m =
  (GenerateRoutes.ErrorStatus 500,
   update_statistics size_bytes
     (set_random_buffer (drop (Z.to_nat size_bytes) (random_buffer st)) st),
   m).
Proof.
  intros Hzero Hsize Htarget. unfold generate_random.
  cbn [String.eqb Ascii.eqb Bool.eqb].
  rewrite generate_random_bytes_served by (try exact Htarget; lia).
  cbn [fst snd]. unfold PerformanceMonitor.py_div.
  assert (Hz : Qeq_bool (generation_time * 1000000) 0 = true).
  { apply Qeq_bool_iff. rewrite Hzero. reflexivity. }
  rewrite Hz. unfold del_slice_to. rewrite slice_stop_nonneg by lia. reflexivity.
Qed.

End CryptoOperations.

Lemma _expand_entropy_exact_length_witness :
  exists out,
    CryptoUtils._expand_entropy (fun _ _ => replicate 32 x00) (fun _ => x01)
      [x07] 9000 = Py.Ok out /\
    length out = Z.to_nat 9000.
Proof.
  destruct (_expand_entropy_exact_length (fun _ _ => replicate 32 x00)
              (fun _ _ => eq_refl) (fun _ => x01) [x07] 9000)
    as (out & Hout & Hlen & _).
  - unfold Py.sys_maxsize. lia.
  - exists out. split; [exact Hout|exact Hlen].
Defined.

Lemma _expand_entropy_prefix_witness :
  exists out,
    CryptoUtils._expand_entropy (fun _ _ => replicate 32 x00) (fun _ => x01)
      [x07] 64 = Py.Ok out /\
    CryptoUtils._expand_entropy (fun _ _ => replicate 32 x00) (fun _ => x02)
      [x07] 32 = Py.Ok (take 32 out).
Proof.
  apply (_expand_entropy_prefix (fun _ _ => replicate 32 x00)
           (fun _ _ => eq_refl) (fun _ => x01) (fun _ => x02) [x07] 32 64); lia.
Defined.

Lemma generate_crypto_keys_symmetric_length_witness :
  exists key,
    (ApiRoutes.generate_crypto_keys (fun _ _ => replicate 32 x00)
       (fun _ => "00"%string) (fun _ => "AA=="%string)
       Scenarios.zero_draws
       {| FPGAPacing.generation_time := 0; FPGAPacing.uptime := 1 |}
       (fun _ _ => x01) 256 "symmetric" "raw"
       (FPGASimulator.__init__ 100)).1
      = ApiRoutes.Key (ApiRoutes.JsonInts (map Builtins.byte_value key)) /\
    length key = 32%nat.
Proof.
  destruct (generate_crypto_keys_symmetric_length (fun _ _ => replicate 32 x00)
              (fun _ _ => eq_refl) (fun _ => "00"%string) (fun _ => "AA=="%string)
              Scenarios.zero_draws
              {| FPGAPacing.generation_time := 0; FPGAPacing.uptime := 1 |}
              (fun _ _ => x01) 256 "raw"%string
              (FPGASimulator.__init__ 100))
    as (key & Hkey & Hlen & _).
  - lia.
  - vm_compute. discriminate.
  - exists key. split; [exact Hkey|exact Hlen].
Defined.

Lemma generate_crypto_keys_rsa_seed_answers_500_witness :
  (ApiRoutes.generate_crypto_keys (fun _ _ => replicate 32 x00)
     (fun _ => "00"%string) (fun _ => "AA=="%string)
     Scenarios.zero_draws
     {| FPGAPacing.generation_time := 0; FPGAPacing.uptime := 1 |}
     (fun _ _ => x01) 256 "rsa_seed" "hex"
     (FPGASimulator.__init__ 100)).1 = ApiRoutes.KeyError 500.
Proof.
  apply (generate_crypto_keys_rsa_seed_answers_500
           (fun _ _ => replicate 32 x00) (fun _ _ => eq_refl)
           (fun _ => "00"%string) (fun _ => "AA=="%string)
           Scenarios.zero_draws
           {| FPGAPacing.generation_time := 0; FPGAPacing.uptime := 1 |}
           (fun _ _ => x01) 256 "hex"%string (FPGASimulator.__init__ 100)).
  lia.
Defined.

Lemma generate_random_zero_time_loses_bytes_witness :
  (ApiRoutes.generate_random Scenarios.zero_draws (Py.Raised Py.ValueError) 0 0 2 "fpga"
     (FPGASimulator.set_random_buffer [x01; x02; x03] (FPGASimulator.__init__ 100))
     (PerformanceMonitor.__init__ 10)).1.1 = GenerateRoutes.ErrorStatus 500.
Proof.
  rewrite (generate_random_zero_time_loses_bytes Scenarios.zero_draws
             (Py.Raised Py.ValueError) 0 0 2
             (FPGASimulator.set_random_buffer [x01; x02; x03] (FPGASimulator.__init__ 100))
             (PerformanceMonitor.__init__ 10)).
  - reflexivity.
  - reflexivity.
  - cbn. lia.
  - intros H. vm_compute in H. discriminate.
Defined.

Section KeyDerivation.

Import Py Builtins FPGASimulator CryptoUtils.
Local Open Scope string_scope.
Local Open Scope list_scope.
Local Open Scope Z_scope.

Variable sha256 : list byte -> list byte.
Variable hmac_sha256 : list byte -> list byte -> list byte.
Variable b64encode : list byte -> string.
Variable b64decode : string -> option (list byte).
Hypothesis hmac_sha256_length : forall key msg, length (hmac_sha256 key msg) = 32%nat.
Hypothesis b64decode_b64encode : forall data, b64decode (b64encode data) = Some data.

Lemma derive_rounds (os : nat -> nat -> byte) (master_key : list byte)
    (key_size : Z) (n : nat) :
  0 <= key_size <= sys_maxsize ->
  exists master_key' keys,
    fold_left (derive_round sha256 hmac_sha256 os key_size) (range (Z.of_nat n))
      (Ok (master_key, [])) = Ok (master_key', keys) /\
    length keys = n /\
    Forall (fun key => length key = Z.to_nat key_size) keys /\
    forall k, (k <= n)%nat ->
      exists master_key'' keys',
        fold_left (derive_round sha256 hmac_sha256 os key_size) (range (Z.of_nat k))
          (Ok (master_key, [])) = Ok (master_key'', keys') /\
        keys' = take k keys.
Proof.
  intros Hsize. unfold range. rewrite Nat2Z.id.
  induction n as [|n IH].
  - exists master_key, []. split; [reflexivity|]. split; [reflexivity|].
    split; [constructor|].
    intros k Hk. replace k with 0%nat by lia. rewrite Nat2Z.id.
    exists master_key, []. split; reflexivity.
  - destruct IH as (mk & keys & Hfold & Hlen & Hall & Hprefix).
    rewrite seq_S, map_app, fold_left_app, Hfold. cbn [map fold_left Nat.add].
    unfold derive_round at 1. cbn [mbind exc_bind fst snd].
    destruct (_expand_entropy_spec hmac_sha256 hmac_sha256_length
                (os (Z.to_nat (Z.of_nat n))) mk key_size Hsize)
      as (out & Hout & Hlen_out & _).
    rewrite Hout. cbn [mbind exc_bind mret exc_ret].
    eexists _, _. split; [reflexivity|].
    split; [rewrite length_app, Hlen; cbn [length]; lia|].
    split; [apply Forall_app; split; [exact Hall|apply Forall_singleton; exact Hlen_out]|].
    intros k Hk. destruct (Nat.eq_dec k (S n)) as [->|Hne].
    + rewrite Nat2Z.id, seq_S, map_app, fold_left_app, Hfold.
      cbn [map fold_left Nat.add]. unfold derive_round at 1.
      cbn [mbind exc_bind fst snd]. rewrite Hout. cbn [mbind exc_bind mret exc_ret].
      eexists _, _. split; [reflexivity|].
      rewrite take_ge; [reflexivity|]. rewrite length_app, Hlen. cbn [length]. lia.
    + destruct (Hprefix k) as (mk'' & keys' & Hk' & Htake); [lia|].
      exists mk'', keys'. split; [exact Hk'|].
      rewrite take_app_le by lia. exact Htake.
Qed.

Lemma _expand_entropy_any_stream (os os' : nat -> byte) (seed : list byte) (size : Z) :
  0 <= size <= 8160 ->
  _expand_entropy hmac_sha256 os seed size = _expand_entropy hmac_sha256 os' seed size.
Proof.
  intros Hsize.
  destruct (_expand_entropy_spec hmac_sha256 hmac_sha256_length os seed size)
    as (out & _ & _ & Hbody & _); [unfold sys_maxsize; lia|].
  unfold _expand_entropy. rewrite (Hbody (proj2 Hsize)). reflexivity.
Qed.

Lemma derive_rounds_any_stream (os os' : nat -> nat -> byte) (key_size : Z)
    (idx : list Z) (acc : exc (list byte * list (list byte))) :
  0 <= key_size <= 8160 ->
  fold_left (derive_round sha256 hmac_sha256 os key_size) idx acc =
  fold_left (derive_round sha256 hmac_sha256 os' key_size) idx acc.
Proof.
  intros Hsize. revert acc. induction idx as [|i idx IH]; intros acc; [reflexivity|].
  cbn [fold_left]. rewrite IH. f_equal.
  unfold derive_round. destruct acc as [[master_key keys]|e]; [|reflexivity].
  cbn [mbind exc_bind fst snd].
  rewrite (_expand_entropy_any_stream (os (Z.to_nat i)) (os' (Z.to_nat i))) by exact Hsize.
  reflexivity.
Qed.

(** [derive_keys] returns [key_count] keys of [key_size] bytes each.  For
    a key size of at most 8160 bytes the keys do not depend on the OS
    randomness, and the keys for a smaller count are the first keys for a
    larger one: the [info] label built in each round is never used, the
    chain of master keys alone tells the keys apart.  (Beyond 8160 bytes
    every key is fresh OS randomness and two calls share nothing.) *)
Theorem derive_keys_chain
    (os fallback : nat -> nat -> byte) (master_key : list byte)
    (key_count key_size : Z) :
  0 <= key_size <= sys_maxsize ->
  exists keys,
    derive_keys sha256 hmac_sha256 os fallback master_key key_count key_size = Ok keys /\
    length keys = Z.to_nat key_count /\
    Forall (fun key => length key = Z.to_nat key_size) keys /\
    (key_size <= 8160 ->
     forall (os' fallback' : nat -> nat -> byte) (fewer : Z),
       fewer <= key_count ->
       derive_keys sha256 hmac_sha256 os' fallback' master_key fewer key_size
         = Ok (take (Z.to_nat fewer) keys)).
Proof.
  intros Hsize.
  destruct (derive_rounds os master_key key_size (Z.to_nat key_count) Hsize)
    as (mk & keys & Hfold & Hlen & Hall & Hprefix).
  assert (Hrange : forall c, range (Z.of_nat (Z.to_nat c)) = range c).
  { intros c. unfold range. rewrite Nat2Z.id. reflexivity. }
  rewrite Hrange in Hfold.
  exists keys. unfold derive_keys. rewrite Hfold.
  cbn [mbind exc_bind mret exc_ret try_except snd].
  split; [reflexivity|]. split; [exact Hlen|]. split; [exact Hall|].
  intros Hsmall os' fallback' fewer Hfewer.
  destruct (Hprefix (Z.to_nat fewer)) as (mk' & keys' & Hfold' & Htake); [lia|].
  rewrite Hrange in Hfold'.
  rewrite (derive_rounds_any_stream os' os) by lia.
  rewrite Hfold'.
  cbn [mbind exc_bind mret exc_ret try_except snd]. rewrite Htake. reflexivity.
Qed.

(** A commitment verifies against the key it was created for; against
    another key it verifies exactly when the two digests collide; and the
    error dictionary that [create_key_commitment] returns on failure never
    verifies. *)
Theorem key_commitment_round_trip
    (nonce_stream : nat -> byte) (now message : string) (key : list byte) :
  verify_key_commitment sha256 b64decode key
    (create_key_commitment sha256 b64encode nonce_stream now key) = true /\
  (forall other,
     verify_key_commitment sha256 b64decode other
       (create_key_commitment sha256 b64encode nonce_stream now key) = true <->
     sha256 (map nonce_stream (seq 0 32) ++ other) =
     sha256 (map nonce_stream (seq 0 32) ++ key)) /\
  verify_key_commitment sha256 b64decode key {["error" := message]} = false.
Proof.
  assert (Hverify : forall other,
            verify_key_commitment sha256 b64decode other
              (create_key_commitment sha256 b64encode nonce_stream now key) =
            compare_digest (sha256 (map nonce_stream (seq 0 32) ++ key))
                           (sha256 (map nonce_stream (seq 0 32) ++ other))).
  { intros other. unfold verify_key_commitment, create_key_commitment.
    rewrite (lookup_insert_ne _ "commitment" "nonce") by discriminate.
    rewrite lookup_insert_eq. cbn [mbind option_bind].
    rewrite b64decode_b64encode. cbn [mbind option_bind].
    rewrite lookup_insert_eq. cbn [mbind option_bind].
    rewrite b64decode_b64encode. reflexivity. }
  split; [|split].
  - rewrite Hverify. unfold compare_digest. apply bool_decide_eq_true. reflexivity.
  - intros other. rewrite Hverify. unfold compare_digest.
    rewrite bool_decide_eq_true. split; intros H; symmetry; exact H.
  - unfold verify_key_commitment.
    rewrite lookup_singleton_ne by discriminate. reflexivity.
Qed.

End KeyDerivation.

Lemma derive_keys_chain_witness :
  exists keys,
    CryptoUtils.derive_keys (fun _ => [x00]) (fun _ _ => replicate 32 x00)
      (fun _ _ => x01) (fun _ _ => x02) [x07] 3 16 = Py.Ok keys /\
    length keys = 3%nat.
Proof.
  destruct (derive_keys_chain (fun _ => [x00]) (fun _ _ => replicate 32 x00)
              (fun _ _ => eq_refl) (fun _ _ => x01) (fun _ _ => x02) [x07] 3 16)
    as (keys & Hkeys & Hlen & _).
  - unfold Py.sys_maxsize. lia.
  - exists keys. split; [exact Hkeys|exact Hlen].
Defined.

Lemma key_commitment_round_trip_witness :
  CryptoUtils.verify_key_commitment (fun data => take 1 data)
    (fun text => Some (Stdlib.Strings.String.list_byte_of_string text))
    [x41; x42]
    (CryptoUtils.create_key_commitment (fun data => take 1 data)
       Stdlib.Strings.String.string_of_list_byte (fun _ => x43) "t"%string [x41; x42]) = true.
Proof.
  exact (proj1 (key_commitment_round_trip (fun data => take 1 data)
           Stdlib.Strings.String.string_of_list_byte
           (fun text => Some (Stdlib.Strings.String.list_byte_of_string text))
           (fun data =>
              f_equal Some (Stdlib.Strings.String.list_byte_of_string_of_list_byte data))
           (fun _ => x43) "t"%string "e"%string [x41; x42])).
Defined.

Section SecureZero.
Import Builtins CryptoUtils.

Lemma secure_zero_rounds (data : list byte) (k : nat) :
  (k <= length data)%nat ->
  fold_left (fun data i => <[Z.to_nat i := x00]> data)
            (map Z.of_nat (seq 0 k)) data =
  replicate k x00 ++ drop k data.
Proof.
  induction k as [|k IH]; intros Hk; [reflexivity|].
  rewrite seq_S, map_app, fold_left_app, IH by lia.
  cbn [map fold_left Nat.add]. rewrite Nat2Z.id.
  rewrite insert_app_r_alt by (rewrite length_replicate; lia).
  rewrite length_replicate, Nat.sub_diag.
  destruct (drop k data) as [|b rest] eqn:Hdrop.
  - apply (f_equal length) in Hdrop. rewrite length_drop in Hdrop. cbn in Hdrop. lia.
  - cbn [insert list_insert].
    replace (drop (S k) data) with rest.
    + rewrite replicate_S_end, <- app_assoc. reflexivity.
    + replace (S k) with (k + 1)%nat by lia.
      rewrite <- drop_drop, Hdrop. reflexivity.
Qed.

(** [secure_zero] overwrites every byte and keeps the length. *)
Lemma secure_zero_all_zero (data : list byte) :
  secure_zero data = replicate (length data) x00.
Proof.
  unfold secure_zero, range. rewrite Nat2Z.id, secure_zero_rounds by lia.
  rewrite drop_all, app_nil_r. reflexivity.
Qed.

End SecureZero.

(* ===================================================================== *)
(** * Properties of the ANU client *)
(* ===================================================================== *)

Section AnuOperations.

Import Builtins ANUQuantumAPI.
Local Open Scope string_scope.
Local Open Scope list_scope.
Local Open Scope Z_scope.

Lemma _single_request_hit (r : readings) (rp : reply) (size : Z) (a : api)
    (block : list byte) (stored : Q) :
  cache a !! size = Some (block, stored) ->
  Qltb (t_lookup r - stored) cache_ttl = true ->
  nonempty block = true ->
  _single_request r rp size a = (Returned block, count_cache_hit a).
Proof.
  intros Hentry Hfresh Hblock. unfold _single_request, _get_cached_data.
  rewrite Hentry, Hfresh, Hblock. reflexivity.
Qed.

(** While the entry for 1024 bytes stays fresh, every round of the chunk
    loop over a multiple of 1024 bytes is served from the cache. *)
Lemma chunk_loop_hits (env : nat -> readings * reply) (block : list byte) (stored : Q)
    (j : nat) :
  nonempty block = true ->
  forall (fuel round : nat) (result : list byte) (a : api),
    (j <= fuel)%nat ->
    cache a !! 1024 = Some (block, stored) ->
    (forall i, (round <= i)%nat -> Qltb (t_lookup (env i).1 - stored) cache_ttl = true) ->
    chunk_loop env fuel round (1024 * Z.of_nat j) result a =
    (Returned (result ++ concat (replicate j block)), Nat.iter j count_cache_hit a).
Proof.
  intros Hblock. induction j as [|j IH]; intros fuel round result a Hfuel Hentry Hfresh.
  - destruct fuel; cbn [chunk_loop Z.of_nat Z.mul Z.gtb Z.compare replicate concat Nat.iter];
      rewrite app_nil_r; reflexivity.
  - destruct fuel as [|fuel]; [lia|].
    cbn [chunk_loop].
    destruct (1024 * Z.of_nat (S j) >? 0) eqn:Hpos;
      [|rewrite Z.gtb_ltb in Hpos; apply Z.ltb_ge in Hpos; lia].
    replace (Z.min (1024 * Z.of_nat (S j)) 1024) with 1024 by lia.
    rewrite (_single_request_hit _ _ _ _ block stored Hentry (Hfresh round (le_n _)) Hblock).
    replace (1024 * Z.of_nat (S j) - 1024) with (1024 * Z.of_nat j) by lia.
    rewrite IH; [| lia | exact Hentry | intros i Hi; apply Hfresh; lia].
    cbn [replicate concat]. rewrite app_assoc.
    f_equal. rewrite Nat.iter_succ_r. reflexivity.
Qed.

Lemma iter_count_cache_hit (j : nat) (a : api) :
  cache_hits (Nat.iter j count_cache_hit a) = cache_hits a + Z.of_nat j /\
  total_requests (Nat.iter j count_cache_hit a) = total_requests a /\
  failed_requests (Nat.iter j count_cache_hit a) = failed_requests a.
Proof.
  induction j as [|j IH]; [simpl; repeat split; lia|].
  rewrite Nat.iter_succ. destruct IH as (Hhits & Htotal & Hfailed).
  cbn [cache_hits total_requests failed_requests count_cache_hit].
  repeat split; [lia|exact Htotal|exact Hfailed].
Qed.

(** A request for a multiple of 1024 bytes, larger than 1024, that starts
    with nothing cached for 1024 bytes makes exactly one request to the
    service and returns the block it got, repeated: every later chunk has
    the cache key of the first one and is served from the cache. *)
Theorem chunked_request_repeats_first_chunk
    (entered : Q) (env : nat -> readings * reply) (k : nat) (a : api)
    (values : list Z) (block : list byte) :
  (2 <= k)%nat ->
  _last_successful_request a = None ->
  cache a !! 1024 = None ->
  (env 0%nat).2 = ApiData true values ->
  bytes_of_values values = Some block ->
  nonempty block = true ->
  Qltb (t_cleanup (env 0%nat).1 - t_stored (env 0%nat).1) cache_ttl = true ->
  (forall i, (1 <= i)%nat ->
     Qltb (t_lookup (env i).1 - t_stored (env 0%nat).1) cache_ttl = true) ->
  (generate_random_bytes entered env (1024 * Z.of_nat k) a).1 =
    Returned (concat (replicate k block)) /\
  total_requests (generate_random_bytes entered env (1024 * Z.of_nat k) a).2 =
    total_requests a + 1 /\
  cache_hits (generate_random_bytes entered env (1024 * Z.of_nat k) a).2 =
    cache_hits a + Z.of_nat k - 1.
Proof.
  intros Hk Hlast Hmiss Hreply Hvalues Hblock Hkept Hfresh.
  destruct k as [|k]; [lia|].
  pose (a1 := count_success (Z.of_nat (length block)) (t_success (env 0%nat).1)
                (_cache_data (t_stored (env 0%nat).1) (t_cleanup (env 0%nat).1) 1024 block
                   (_update_response_time_stats
                      (t_replied (env 0%nat).1 - t_start (env 0%nat).1)
                      (set_last_request_time (t_replied (env 0%nat).1)
                         (count_request a))))).
  assert (Hentry : cache a1 !! 1024 = Some (block, t_stored (env 0%nat).1)).
  { unfold a1, _cache_data. cbn [cache count_success set_cache].
    apply map_lookup_filter_Some. split; [apply lookup_insert_eq|].
    cbn [snd]. rewrite Hkept. exact I. }
  assert (Hrun : generate_random_bytes entered env (1024 * Z.of_nat (S k)) a =
                 (Returned (concat (replicate (S k) block)),
                  Nat.iter k count_cache_hit a1)).
  { unfold generate_random_bytes. rewrite Hlast.
    destruct (1024 * Z.of_nat (S k) >? 1024) eqn:Hbig;
      [|rewrite Z.gtb_ltb in Hbig; apply Z.ltb_ge in Hbig; lia].
    destruct (Z.to_nat (1024 * Z.of_nat (S k))) as [|fuel] eqn:Hfuel; [lia|].
    cbn [chunk_loop].
    destruct (1024 * Z.of_nat (S k) >? 0) eqn:Hpos;
      [|rewrite Z.gtb_ltb in Hpos; apply Z.ltb_ge in Hpos; lia].
    replace (Z.min (1024 * Z.of_nat (S k)) 1024) with 1024 by lia.
    unfold _single_request, _get_cached_data. rewrite Hmiss.
    unfold fetch. rewrite Hreply, Hvalues. fold a1.
    replace (1024 * Z.of_nat (S k) - 1024) with (1024 * Z.of_nat k) by lia.
    rewrite (chunk_loop_hits env block (t_stored (env 0%nat).1) k Hblock fuel 1 _ a1);
      [| lia | exact Hentry | exact Hfresh].
    reflexivity. }
  rewrite Hrun. cbn [fst snd].
  destruct (iter_count_cache_hit k a1) as (Hhits & Htotal & _).
  split; [reflexivity|]. rewrite Hhits, Htotal.
  unfold a1. cbn. split; lia.
Qed.

Lemma fetch_failure (r : readings) (rp : reply) (key : Z) (a : api) :
  match rp with
  | NoAnswer | HttpStatus _ | ApiData false _ => True
  | ApiData true values => bytes_of_values values = None
  end ->
  (fetch r rp key a).1 = Failed /\
  failed_requests (fetch r rp key a).2 = failed_requests a + 1 /\
  total_requests (fetch r rp key a).2 = total_requests a + 1 /\
  api_status (fetch r rp key a).2 = "error" /\
  cache (fetch r rp key a).2 = cache a /\
  _last_successful_request (fetch r rp key a).2 = _last_successful_request a.
Proof.
  intros Hrp. unfold fetch.
  destruct rp as [|status|[|] values]; try rewrite Hrp;
    cbn; repeat split; reflexivity.
Qed.

(** One request that the service does not answer with usable data is
    counted as two failures: once by the [except] clause of
    [_single_request] and once more by that of [generate_random_bytes].
    It is counted as one request, and nothing is cached. *)
Theorem failed_request_is_counted_twice
    (entered : Q) (env : nat -> readings * reply) (size : Z) (a : api) :
  size <= 1024 ->
  _last_successful_request a = None ->
  cache a !! size = None ->
  match (env 0%nat).2 with
  | NoAnswer | HttpStatus _ | ApiData false _ => True
  | ApiData true values => bytes_of_values values = None
  end ->
  (generate_random_bytes entered env size a).1 = Failed /\
  failed_requests (generate_random_bytes entered env size a).2 = failed_requests a + 2 /\
  total_requests (generate_random_bytes entered env size a).2 = total_requests a + 1 /\
  cache (generate_random_bytes entered env size a).2 = cache a.
Proof.
  intros Hsize Hlast Hmiss Hreply.
  unfold generate_random_bytes. rewrite Hlast.
  destruct (size >? 1024) eqn:Hbig; [rewrite Z.gtb_ltb in Hbig; apply Z.ltb_lt in Hbig; lia|].
  unfold _single_request, _get_cached_data. rewrite Hmiss.
  destruct (fetch_failure (env 0%nat).1 (env 0%nat).2 size a Hreply)
    as (Hout & Hfailed & Htotal & _ & Hcache & _).
  destruct (fetch (env 0%nat).1 (env 0%nat).2 size a) as [out a1].
  cbn [fst snd] in *. subst out.
  cbn [fst snd failed_requests total_requests cache count_failure].
  repeat split; [lia|exact Htotal|exact Hcache].
Qed.

(** Within 70 seconds of the last successful request every call is
    refused, also one whose answer is in the cache: the cache is not
    consulted, no request is made and one failure is counted. *)
Theorem cooldown_refuses_cached_sizes
    (entered last : Q) (env : nat -> readings * reply) (size : Z) (a : api) :
  _last_successful_request a = Some last ->
  Qltb (entered - last) 70 = true ->
  generate_random_bytes entered env size a = (Failed, count_failure a).
Proof.
  intros Hlast Hcool. unfold generate_random_bytes. rewrite Hlast, Hcool. reflexivity.
Qed.

End AnuOperations.

Lemma chunked_request_repeats_first_chunk_witness :
  (ANUQuantumAPI.generate_random_bytes 0
     (fun _ => ({| ANUQuantumAPI.t_start := 0; ANUQuantumAPI.t_lookup := 1;
                   ANUQuantumAPI.t_replied := 1; ANUQuantumAPI.t_stored := 1;
                   ANUQuantumAPI.t_cleanup := 1; ANUQuantumAPI.t_success := 1 |},
                ANUQuantumAPI.ApiData true [7%Z]))
     (1024 * Z.of_nat 2) ANUQuantumAPI.__init__).1
  = ANUQuantumAPI.Returned [x07; x07].
Proof.
  apply (chunked_request_repeats_first_chunk 0
           (fun _ => ({| ANUQuantumAPI.t_start := 0; ANUQuantumAPI.t_lookup := 1;
                         ANUQuantumAPI.t_replied := 1; ANUQuantumAPI.t_stored := 1;
                         ANUQuantumAPI.t_cleanup := 1; ANUQuantumAPI.t_success := 1 |},
                      ANUQuantumAPI.ApiData true [7%Z]))
           2 ANUQuantumAPI.__init__ [7%Z] [x07]).
  - lia.
  - reflexivity.
  - reflexivity.
  - reflexivity.
  - reflexivity.
  - reflexivity.
  - reflexivity.
  - intros i _. reflexivity.
Defined.

Lemma failed_request_is_counted_twice_witness :
  ANUQuantumAPI.failed_requests
    (ANUQuantumAPI.generate_random_bytes 0
       (fun _ => ({| ANUQuantumAPI.t_start := 0; ANUQuantumAPI.t_lookup := 1;
                     ANUQuantumAPI.t_replied := 1; ANUQuantumAPI.t_stored := 1;
                     ANUQuantumAPI.t_cleanup := 1; ANUQuantumAPI.t_success := 1 |},
                  ANUQuantumAPI.HttpStatus 503))
       32 ANUQuantumAPI.__init__).2 = 2%Z.
Proof.
  apply (failed_request_is_counted_twice 0
           (fun _ => ({| ANUQuantumAPI.t_start := 0; ANUQuantumAPI.t_lookup := 1;
                         ANUQuantumAPI.t_replied := 1; ANUQuantumAPI.t_stored := 1;
                         ANUQuantumAPI.t_cleanup := 1; ANUQuantumAPI.t_success := 1 |},
                      ANUQuantumAPI.HttpStatus 503))
           32 ANUQuantumAPI.__init__).
  - lia.
  - reflexivity.
  - reflexivity.
  - exact I.
Defined.

Lemma cooldown_refuses_cached_sizes_witness :
  (ANUQuantumAPI.generate_random_bytes 30
     (fun _ => ({| ANUQuantumAPI.t_start := 30; ANUQuantumAPI.t_lookup := 30;
                   ANUQuantumAPI.t_replied := 30; ANUQuantumAPI.t_stored := 30;
                   ANUQuantumAPI.t_cleanup := 30; ANUQuantumAPI.t_success := 30 |},
                ANUQuantumAPI.NoAnswer))
     4
     (ANUQuantumAPI.count_success 4 0
        (ANUQuantumAPI.set_cache {[ 4%Z := ([x01; x02; x03; x04], 0%Q) ]}
           ANUQuantumAPI.__init__))).1
  = ANUQuantumAPI.Failed.
Proof.
  rewrite (cooldown_refuses_cached_sizes 30 0
             (fun _ => ({| ANUQuantumAPI.t_start := 30; ANUQuantumAPI.t_lookup := 30;
                           ANUQuantumAPI.t_replied := 30; ANUQuantumAPI.t_stored := 30;
                           ANUQuantumAPI.t_cleanup := 30; ANUQuantumAPI.t_success := 30 |},
                        ANUQuantumAPI.NoAnswer))
             4
             (ANUQuantumAPI.count_success 4 0
                (ANUQuantumAPI.set_cache {[ 4%Z := ([x01; x02; x03; x04], 0%Q) ]}
                   ANUQuantumAPI.__init__))).
  - reflexivity.
  - reflexivity.
  - reflexivity.
Defined.
